(** * Retrieval and context assembly of the turbulence-parameter recommender

    A shallow embedding of [src/retrieval_system.py], of the parts of
    [src/vector_store.py], [src/turbulence_models.py] and
    [src/document_processor.py] it rests on, and the properties of query
    synthesis, retrieval and context packing proved about them. *)

From Stdlib Require Import ZArith Lia Ascii String.
From stdpp Require Import base list gmap strings.

Local Open Scope Z_scope.

(** ** Python strings

    A Python [str] is a sequence of Unicode code points and [len] counts
    code points, so a string is a list of code points.  Literals of the
    source that are plain ASCII are written [py "..."]; any other character
    is given by its code point. *)

Definition char := N.
Definition str := list N.

Definition py (s : string) : str := N_of_ascii <$> list_ascii_of_string s.

(** [len(s)] *)
Definition len {A} (s : list A) : Z := Z.of_nat (length s).

(** [bool(s)] of a string or a list: non-empty. *)
Definition truthy {A} (s : list A) : bool :=
  match s with [] => false | _ => true end.

(** [c.isspace()] on one code point: the characters [str.split()],
    [str.strip()] and the regular expression class [\s] treat as white
    space. *)
Definition isspace (c : char) : bool :=
  let c := Z.of_N c in
  ((9 <=? c) && (c <=? 13)) || ((28 <=? c) && (c <=? 32))
  || (c =? 133) || (c =? 160) || (c =? 5760)
  || ((8192 <=? c) && (c <=? 8202))
  || (c =? 8232) || (c =? 8233) || (c =? 8239) || (c =? 8287) || (c =? 12288).

Fixpoint lstrip (s : str) : str :=
  match s with
  | c :: s' => if isspace c then lstrip s' else s
  | [] => []
  end.

Definition rstrip (s : str) : str := reverse (lstrip (reverse s)).

(** [s.strip()] *)
Definition strip (s : str) : str := rstrip (lstrip s).

(** [s.split()] with no argument: the maximal runs of non-space characters.
    [word] is the run being read. *)
Fixpoint split_from (word s : str) : list str :=
  match s with
  | [] => if truthy word then [word] else []
  | c :: s' =>
      if isspace c then
        (if truthy word then [word] else []) ++ split_from [] s'
      else split_from (word ++ [c]) s'
  end.

Definition split (s : str) : list str := split_from [] s.

(** [sep.join(parts)] *)
Fixpoint join (sep : str) (parts : list str) : str :=
  match parts with
  | [] => []
  | [p] => p
  | p :: rest => p ++ sep ++ join sep rest
  end.

(** [s.replace(old, new)] for a one-character [old], the only use the
    source makes of it. *)
Definition replace (old : char) (new : str) (s : str) : str :=
  s ≫= (λ c, if N.eqb c old then new else [c]).

(** [s[:stop]]: a negative [stop] counts from the end. *)
Definition slice_to {A} (s : list A) (stop : Z) : list A :=
  if stop <? 0 then take (Z.to_nat (len s + stop)) s
  else take (Z.to_nat stop) s.

Fixpoint startswith (s prefix : str) : bool :=
  match prefix, s with
  | [], _ => true
  | p :: prefix', c :: s' => N.eqb p c && startswith s' prefix'
  | _ :: _, [] => false
  end.

(** [needle in s] on strings: [needle] occurs as a substring. *)
Fixpoint contains (s needle : str) : bool :=
  startswith s needle
  || match s with
     | [] => false
     | _ :: s' => contains s' needle
     end.

Definition digit (d : N) : char := (48 + d)%N.

Fixpoint str_of_uint (u : Decimal.uint) : str :=
  match u with
  | Decimal.Nil => []
  | Decimal.D0 u => digit 0 :: str_of_uint u
  | Decimal.D1 u => digit 1 :: str_of_uint u
  | Decimal.D2 u => digit 2 :: str_of_uint u
  | Decimal.D3 u => digit 3 :: str_of_uint u
  | Decimal.D4 u => digit 4 :: str_of_uint u
  | Decimal.D5 u => digit 5 :: str_of_uint u
  | Decimal.D6 u => digit 6 :: str_of_uint u
  | Decimal.D7 u => digit 7 :: str_of_uint u
  | Decimal.D8 u => digit 8 :: str_of_uint u
  | Decimal.D9 u => digit 9 :: str_of_uint u
  end.

(** [str(n)] / ["{n}"] for a non-negative integer. *)
Definition str_of_nat (n : nat) : str := str_of_uint (Nat.to_uint n).

(** The two string methods whose result depends on the Unicode character
    database are taken as an interface: [s.lower()] and [s.isalpha()]. *)
Class Unicode := {
  lower : str → str;
  isalpha : str → bool
}.

(** The interface on ASCII text, where [lower] maps [A-Z] to [a-z] and
    [isalpha] asks for a non-empty string of letters.  Used for closed
    examples over ASCII inputs. *)
Definition ascii_lower_char (c : char) : char :=
  if ((65 <=? c) && (c <=? 90))%N then (c + 32)%N else c.

Definition ascii_isalpha_char (c : char) : bool :=
  (((65 <=? c) && (c <=? 90)) || ((97 <=? c) && (c <=? 122)))%N.

Definition ascii_unicode : Unicode := {|
  lower s := ascii_lower_char <$> s;
  isalpha s := truthy s && forallb ascii_isalpha_char s
|}.

(** ** The model registry ([src/turbulence_models.py])

    The numeric fields of a parameter ([default_value], [min_value],
    [max_value]) are floats that no operation below reads; the records keep
    the remaining fields. *)

Inductive ParameterType :=
  | DIMENSIONLESS | LENGTH | TIME | VELOCITY
  | KINEMATIC_VISCOSITY | ENERGY | DISSIPATION.

Record TurbulenceParameter := {
  p_name : str;
  p_description : str;
  parameter_type : ParameterType;
  units : option str;
  typical_range : option str
}.

Record TurbulenceModel := {
  name : str;
  full_name : str;
  description : str;
  category : str;
  parameters : list TurbulenceParameter;
  applications : list str;
  limitations : list str
}.

Definition k_epsilon_model : TurbulenceModel :=
  {| name := py "k_epsilon";
     full_name := (py "k-" ++ [949%N] ++ py " (k-epsilon)");
     description :=
       (py "Two-equation eddy-viscosity model solving transport equations for turbulent kinetic energy (k) and dissipation rate (" ++ [949%N] ++ py ")");
     category := py "RANS";
     parameters :=
       [ {| p_name := py "Cmu";
         p_description := py "Turbulent viscosity constant";
         parameter_type := DIMENSIONLESS;
         units := Some (py "dimensionless");
         typical_range := Some (py "0.08-0.12") |};
         {| p_name := py "C1epsilon";
         p_description := py "Dissipation equation constant C1";
         parameter_type := DIMENSIONLESS;
         units := Some (py "dimensionless");
         typical_range := Some (py "1.35-1.50") |};
         {| p_name := py "C2epsilon";
         p_description := py "Dissipation equation constant C2";
         parameter_type := DIMENSIONLESS;
         units := Some (py "dimensionless");
         typical_range := Some (py "1.85-2.0") |};
         {| p_name := py "sigma_k";
         p_description := py "Prandtl number for turbulent kinetic energy";
         parameter_type := DIMENSIONLESS;
         units := Some (py "dimensionless");
         typical_range := Some (py "0.8-1.3") |};
         {| p_name := py "sigma_epsilon";
         p_description := py "Prandtl number for dissipation rate";
         parameter_type := DIMENSIONLESS;
         units := Some (py "dimensionless");
         typical_range := Some (py "1.2-1.4") |} ];
     applications :=
       [ py "Free shear flows";
         py "Wall-bounded flows with mild pressure gradients";
         py "Industrial flow applications";
         py "Environmental flows" ];
     limitations :=
       [ py "Poor performance in adverse pressure gradients";
         py "Overestimates spreading rate of round jets";
         py "Struggles with strong streamline curvature";
         py "Not suitable for transitional flows" ] |}.

Definition k_omega_sst_model : TurbulenceModel :=
  {| name := py "k_omega_sst";
     full_name := (py "k-" ++ [969%N] ++ py " SST (Shear Stress Transport)");
     description :=
       (py "Hybrid model combining k-" ++ [969%N] ++ py " near walls with k-" ++ [949%N] ++ py " in free stream, includes cross-diffusion term and stress limiter");
     category := py "RANS";
     parameters :=
       [ {| p_name := py "beta_star";
         p_description := py "Closure coefficient for turbulent kinetic energy destruction";
         parameter_type := DIMENSIONLESS;
         units := Some (py "dimensionless");
         typical_range := Some (py "0.08-0.12") |};
         {| p_name := py "alpha1";
         p_description := (py "Closure coefficient for " ++ [969%N] ++ py " equation in inner region");
         parameter_type := DIMENSIONLESS;
         units := Some (py "dimensionless");
         typical_range := Some (py "0.5-0.6") |};
         {| p_name := py "beta1";
         p_description := (py "Closure coefficient for " ++ [969%N] ++ py " destruction in inner region");
         parameter_type := DIMENSIONLESS;
         units := Some (py "dimensionless");
         typical_range := Some (py "0.07-0.08") |};
         {| p_name := py "alpha2";
         p_description := (py "Closure coefficient for " ++ [969%N] ++ py " equation in outer region");
         parameter_type := DIMENSIONLESS;
         units := Some (py "dimensionless");
         typical_range := Some (py "0.4-0.5") |};
         {| p_name := py "beta2";
         p_description := (py "Closure coefficient for " ++ [969%N] ++ py " destruction in outer region");
         parameter_type := DIMENSIONLESS;
         units := Some (py "dimensionless");
         typical_range := Some (py "0.07-0.09") |};
         {| p_name := py "sigma_k1";
         p_description := py "Prandtl number for k equation in inner region";
         parameter_type := DIMENSIONLESS;
         units := Some (py "dimensionless");
         typical_range := Some (py "0.8-0.9") |};
         {| p_name := py "sigma_omega1";
         p_description := (py "Prandtl number for " ++ [969%N] ++ py " equation in inner region");
         parameter_type := DIMENSIONLESS;
         units := Some (py "dimensionless");
         typical_range := Some (py "0.4-0.6") |};
         {| p_name := py "sigma_k2";
         p_description := py "Prandtl number for k equation in outer region";
         parameter_type := DIMENSIONLESS;
         units := Some (py "dimensionless");
         typical_range := Some (py "0.9-1.2") |};
         {| p_name := py "sigma_omega2";
         p_description := (py "Prandtl number for " ++ [969%N] ++ py " equation in outer region");
         parameter_type := DIMENSIONLESS;
         units := Some (py "dimensionless");
         typical_range := Some (py "0.8-0.9") |};
         {| p_name := py "a1";
         p_description := py "Stress limiter constant";
         parameter_type := DIMENSIONLESS;
         units := Some (py "dimensionless");
         typical_range := Some (py "0.25-0.35") |} ];
     applications :=
       [ py "Adverse pressure gradient flows";
         py "Separated flows";
         py "Airfoil and wing aerodynamics";
         py "Heat transfer applications";
         py "Turbomachinery flows" ];
     limitations :=
       [ (py "Higher computational cost than standard k-" ++ [949%N]);
         py "Sensitive to freestream values in external flows";
         py "May predict early transition in some cases" ] |}.

Definition spalart_allmaras_model : TurbulenceModel :=
  {| name := py "spalart_allmaras";
     full_name := py "Spalart-Allmaras";
     description :=
       py "One-equation model solving transport equation for modified turbulent viscosity, designed for aerodynamic flows";
     category := py "RANS";
     parameters :=
       [ {| p_name := py "Cb1";
         p_description := py "Production constant";
         parameter_type := DIMENSIONLESS;
         units := Some (py "dimensionless");
         typical_range := Some (py "0.13-0.14") |};
         {| p_name := py "Cb2";
         p_description := py "Diffusion constant";
         parameter_type := DIMENSIONLESS;
         units := Some (py "dimensionless");
         typical_range := Some (py "0.6-0.65") |};
         {| p_name := py "Cv1";
         p_description := py "Viscosity constant";
         parameter_type := DIMENSIONLESS;
         units := Some (py "dimensionless");
         typical_range := Some (py "7.0-7.2") |};
         {| p_name := py "Cw1";
         p_description := py "Wall destruction constant";
         parameter_type := DIMENSIONLESS;
         units := Some (py "dimensionless");
         typical_range := Some (py "3.2-3.3") |};
         {| p_name := py "Cw2";
         p_description := py "Wall destruction constant";
         parameter_type := DIMENSIONLESS;
         units := Some (py "dimensionless");
         typical_range := Some (py "0.25-0.35") |};
         {| p_name := py "Cw3";
         p_description := py "Wall destruction constant";
         parameter_type := DIMENSIONLESS;
         units := Some (py "dimensionless");
         typical_range := Some (py "1.9-2.1") |};
         {| p_name := py "sigma";
         p_description := py "Prandtl number for turbulent viscosity";
         parameter_type := DIMENSIONLESS;
         units := Some (py "dimensionless");
         typical_range := Some (py "0.6-0.7") |} ];
     applications :=
       [ py "Aerodynamic flows around airfoils and wings";
         py "External aerodynamics";
         py "Flows with mild separation";
         py "Aerospace applications" ];
     limitations :=
       [ py "Primarily calibrated for aerodynamic flows";
         py "Less suitable for free shear flows";
         py "Limited performance in complex geometries";
         py "Not ideal for heat transfer predictions" ] |}.

Definition reynolds_stress_model : TurbulenceModel :=
  {| name := py "reynolds_stress";
     full_name := py "Reynolds Stress Model (RSM)";
     description :=
       py "Seven-equation model solving transport equations for all Reynolds stress components and dissipation rate";
     category := py "RANS";
     parameters :=
       [ {| p_name := py "Cmu";
         p_description := py "Turbulent viscosity constant";
         parameter_type := DIMENSIONLESS;
         units := Some (py "dimensionless");
         typical_range := Some (py "0.08-0.12") |};
         {| p_name := py "C1epsilon";
         p_description := py "Dissipation equation constant C1";
         parameter_type := DIMENSIONLESS;
         units := Some (py "dimensionless");
         typical_range := Some (py "1.4-1.5") |};
         {| p_name := py "C2epsilon";
         p_description := py "Dissipation equation constant C2";
         parameter_type := DIMENSIONLESS;
         units := Some (py "dimensionless");
         typical_range := Some (py "1.9-2.0") |};
         {| p_name := py "C1";
         p_description := py "Slow pressure-strain constant";
         parameter_type := DIMENSIONLESS;
         units := Some (py "dimensionless");
         typical_range := Some (py "1.7-1.9") |};
         {| p_name := py "C2";
         p_description := py "Rapid pressure-strain constant";
         parameter_type := DIMENSIONLESS;
         units := Some (py "dimensionless");
         typical_range := Some (py "0.55-0.65") |};
         {| p_name := py "sigma_epsilon";
         p_description := py "Prandtl number for dissipation rate";
         parameter_type := DIMENSIONLESS;
         units := Some (py "dimensionless");
         typical_range := Some (py "1.2-1.4") |};
         {| p_name := py "sigma_k";
         p_description := py "Prandtl number for turbulent kinetic energy";
         parameter_type := DIMENSIONLESS;
         units := Some (py "dimensionless");
         typical_range := Some (py "0.8-1.3") |} ];
     applications :=
       [ py "Complex flows with strong streamline curvature";
         py "Swirling flows";
         py "Flows with strong anisotropy";
         py "Secondary flow prediction";
         py "Buoyant flows" ];
     limitations :=
       [ py "High computational cost";
         py "Complex implementation";
         py "Convergence difficulties";
         py "Still relies on gradient-diffusion assumption for some terms" ] |}.

Definition TURBULENCE_MODELS : list (str * TurbulenceModel) :=
  [ (py "k_epsilon", k_epsilon_model);
    (py "k_omega_sst", k_omega_sst_model);
    (py "spalart_allmaras", spalart_allmaras_model);
    (py "reynolds_stress", reynolds_stress_model) ].

(** [d.get(key)] on a dict kept in insertion order. *)
Fixpoint dict_get {V} (d : list (str * V)) (key : str) : option V :=
  match d with
  | [] => None
  | (k, v) :: d' => if decide (k = key) then Some v else dict_get d' key
  end.

Definition get_model_names : list str := TURBULENCE_MODELS.*1.

Definition get_model (model_name : str) : option TurbulenceModel :=
  dict_get TURBULENCE_MODELS model_name.

Definition get_model_parameters (model_name : str) : list TurbulenceParameter :=
  match get_model model_name with
  | Some model => parameters model
  | None => []
  end.

(** ** Query synthesis ([RetrievalSystem.construct_search_query],
    [RetrievalSystem.expand_query_with_synonyms])

    Neither method reads or writes [self]; they are functions of their
    arguments. *)

Section Query.
Context `{Unicode}.

(** The words of a parameter description that are longer than four
    characters and alphabetic. *)
Definition key_words (param_description : str) : list str :=
  List.filter (λ word, (4 <? len word) && isalpha word)
              (split (lower param_description)).

(** The loop over [model_info.parameters] that fills [param_terms]. *)
Fixpoint param_terms (params : list TurbulenceParameter) : list str :=
  match params with
  | [] => []
  | param :: params' =>
      [p_name param]
      ++ (if truthy (p_description param)
          then take 2 (key_words (p_description param)) else [])
      ++ param_terms params'
  end.

Definition construct_search_query
    (turbulence_model user_description focus_area : str) : str :=
  match get_model turbulence_model with
  | None =>
      turbulence_model ++ py " turbulence model parameters " ++ user_description
  | Some model_info =>
      let query_parts :=
        [ full_name model_info;
          replace 95%N (py "-") (name model_info);
          category model_info ++ py " turbulence model" ] in
      let query_parts :=
        query_parts ++ take 10 (param_terms (parameters model_info)) in
      let query_parts :=
        if truthy (applications model_info)
        then query_parts ++ take 3 (applications model_info)
        else query_parts in
      let query_parts :=
        if truthy (strip user_description)
        then query_parts ++ [strip user_description] else query_parts in
      let query_parts :=
        if truthy (strip focus_area)
        then query_parts ++ [strip focus_area] else query_parts in
      let query := join (py " ") query_parts in
      let query := replace 95%N (py " ") query in
      let query := join (py " ") (split query) in
      slice_to query 500
  end.

(** The synonym table, in declaration order.  The first synonyms of
    ['k-epsilon'] and ['k-omega'] are the three-character strings of the
    source file (code points 107 45 206 181 and 107 45 207 8240). *)
Definition expansions : list (str * list str) :=
  [ (py "k-epsilon", [ py "k-" ++ [206%N; 181%N]; py "k epsilon"; py "k_epsilon";
                       py "kinetic energy dissipation" ]);
    (py "k-omega", [ py "k-" ++ [207%N; 8240%N]; py "k omega"; py "k_omega";
                     py "kinetic energy frequency" ]);
    (py "SST", [ py "Shear Stress Transport"; py "Menter SST"; py "k-omega SST" ]);
    (py "spalart", [ py "Spalart-Allmaras"; py "SA model"; py "one equation model" ]);
    (py "reynolds", [ py "Reynolds stress"; py "RSM"; py "second moment closure" ]);
    (py "viscosity", [ py "turbulent viscosity"; py "eddy viscosity";
                       py "kinematic viscosity" ]);
    (py "dissipation", [ py "energy dissipation"; py "epsilon";
                         py "turbulent dissipation" ]);
    (py "production", [ py "turbulence production"; py "kinetic energy production" ]);
    (py "constants", [ py "coefficients"; py "parameters"; py "closure constants" ]);
    (py "wall", [ py "near-wall"; py "wall treatment"; py "wall function" ]);
    (py "boundary", [ py "boundary conditions"; py "BC"; py "wall BC" ]);
    (py "separation", [ py "flow separation"; py "separated flow";
                        py "adverse gradient" ]);
    (py "pressure", [ py "pressure gradient"; py "adverse pressure gradient";
                      py "APG" ]) ].

(** The loop over [expansions.items()] that fills [expanded_terms]. *)
Fixpoint expanded_terms (table : list (str * list str)) (query_lower : str)
    : list str :=
  match table with
  | [] => []
  | (term, synonyms) :: table' =>
      (if contains query_lower term then take 2 synonyms else [])
      ++ expanded_terms table' query_lower
  end.

Definition expand_query_with_synonyms (base_query : str) : str :=
  let query_lower := lower base_query in
  let expanded := expanded_terms expansions query_lower in
  if truthy expanded
  then base_query ++ py " " ++ join (py " ") expanded
  else base_query.
End Query.

(** ** Values, exceptions and the state monad of a method call

    Index metadata is a [Dict[str, Any]]; its values are strings or
    numbers.  A method runs on the object it is called on and either
    returns or raises; what it wrote to the object before raising stays
    written. *)

Inductive value :=
  | VStr (s : str)
  | VInt (z : Z).

Inductive exception :=
  | ProviderError   (* raised by the embedding provider or the index client *)
  | TypeError
  | OutputError.    (* raised by print, as when stdout cannot encode the text *)

Inductive result (A : Type) :=
  | Ok (a : A)
  | Raise (e : exception).
Arguments Ok {A} a.
Arguments Raise {A} e.

Definition M (S A : Type) : Type := S → result A * S.

#[global] Instance M_ret {S} : MRet (M S) := λ A a s, (Ok a, s).

#[global] Instance M_bind {S} : MBind (M S) := λ A B f m s,
  match m s with
  | (Ok a, s') => f a s'
  | (Raise e, s') => (Raise e, s')
  end.

#[global] Instance M_fmap {S} : FMap (M S) := λ A B f m,
  a ← m; mret (f a).

(** [try: body except Exception as e: handler e] *)
Definition try_except {S A} (body : M S A) (handler : exception → M S A) : M S A :=
  λ s, match body s with
       | (Raise e, s') => handler e s'
       | returned => returned
       end.

Definition get {S} : M S S := λ s, (Ok s, s).
Definition put {S} (s : S) : M S unit := λ _, (Ok (), s).

(** A call that leaves the object alone: an external service, or a pure
    computation that may raise. *)
Definition call {S A} (r : result A) : M S A := λ s, (r, s).

(** ** The vector store ([src/vector_store.py]) and its two providers *)

Section Retrieval.
Context {Handle Embedding Score : Type}.

(** One element of [response['matches']]. *)
Record Match := {
  m_id : str;
  m_score : Score;
  m_metadata : gmap str value
}.

(** The hosted services, as one call sees them: each call answers or
    raises. *)
Class External := {
  list_index_names : result (list str);       (* pc.list_indexes().names() *)
  open_index : str → result Handle;           (* pc.Index(name) *)
  embeddings_create : str → result Embedding; (* embeddings.create(...).data[0].embedding *)
  index_query : Handle → Embedding → Z → result (list Match);
                                              (* index.query(...)['matches'] *)
  describe_index_stats : Handle → result (gmap str value)
}.

(** [{:.3f}] of a relevance score. *)
Class ScoreFormat := format_3f : Score → str.

Context `{Unicode} `{External} `{ScoreFormat}.

Record VectorStore := {
  index_name : str;
  dimension : Z;
  index : option Handle
}.

Definition set_index (i : option Handle) (vs : VectorStore) : VectorStore :=
  {| index_name := index_name vs; dimension := dimension vs; index := i |}.

Definition connect_to_index : M VectorStore bool :=
  try_except
    (self ← get;
     names ← call list_index_names;
     if negb (bool_decide (index_name self ∈ names)) then mret false
     else
       handle ← call (open_index (index_name self));
       put (set_index (Some handle) self);;
       mret true)
    (λ e, mret false).

(** The handler logs and re-raises. *)
Definition generate_embedding (text : str) : M VectorStore Embedding :=
  try_except (call (embeddings_create text)) (λ e, call (Raise e)).

(** The dict [query_similar_documents] builds for a match. *)
Record Hit := {
  hit_id : str;
  score : Score;
  metadata : gmap str value;
  text_preview : value
}.

(** [d.get(key, default)] *)
Definition dget (d : gmap str value) (key : str) (default : value) : value :=
  match d !! key with
  | Some v => v
  | None => default
  end.

Definition hit_of_match (m : Match) : Hit :=
  {| hit_id := m_id m;
     score := m_score m;
     metadata := m_metadata m;
     text_preview := dget (m_metadata m) (py "text_preview") (VStr []) |}.

Definition query_similar_documents (query_text : str) (top_k : Z)
    : M VectorStore (list Hit) :=
  try_except
    (self ← get;
     match index self with
     | None => mret []
     | Some handle =>
         query_embedding ← generate_embedding query_text;
         matches ← call (index_query handle query_embedding top_k);
         mret (hit_of_match <$> matches)
     end)
    (λ e, mret []).

Definition get_index_stats : M VectorStore (gmap str value) :=
  try_except
    (self ← get;
     match index self with
     | None => mret ∅
     | Some handle =>
         stats ← call (describe_index_stats handle);
         mret (<[py "total_vector_count" := dget stats (py "total_vector_count") (VInt 0)]>
               (<[py "dimension" := dget stats (py "dimension") (VInt 0)]>
                (<[py "index_fullness" := dget stats (py "index_fullness") (VInt 0)]> ∅)))
     end)
    (λ e, mret ∅).

(** ** The retrieval system ([src/retrieval_system.py]) *)

Record RetrievalSystem := {
  vector_store : VectorStore;
  connected : bool
}.

(** A method call on [self.vector_store]. *)
Definition on_vector_store {A} (m : M VectorStore A) : M RetrievalSystem A :=
  λ self, let '(r, vs) := m (vector_store self) in
          (r, {| vector_store := vs; connected := connected self |}).

Definition set_connected (b : bool) : M RetrievalSystem unit :=
  λ self, (Ok (), {| vector_store := vector_store self; connected := b |}).

Definition initialize : M RetrievalSystem bool :=
  try_except
    (ok ← on_vector_store connect_to_index;
     if ok : bool then set_connected true;; mret true
     else mret false)
    (λ e, mret false).

Record ChunkInfo := {
  ci_index : value;
  ci_total : value
}.

(** The dict [retrieve_relevant_documents] builds for a hit. *)
Record RetrievedDocument := {
  doc_id : str;
  relevance_score : Score;
  content_preview : value;
  source : value;
  document_type : value;
  chunk_info : ChunkInfo
}.

Definition enhanced_result (result : Hit) : RetrievedDocument :=
  {| doc_id := hit_id result;
     relevance_score := score result;
     content_preview := text_preview result;
     source := dget (metadata result) (py "source") (VStr (py "Unknown"));
     document_type := dget (metadata result) (py "type") (VStr (py "Unknown"));
     chunk_info :=
       {| ci_index := dget (metadata result) (py "chunk_index") (VInt 0);
          ci_total := dget (metadata result) (py "total_chunks") (VInt 1) |} |}.

Definition retrieve_relevant_documents
    (turbulence_model user_description focus_area : str) (top_k : Z)
    : M RetrievalSystem (list RetrievedDocument) :=
  self ← get;
  if negb (connected self) then mret []
  else
    try_except
      (let search_query :=
         construct_search_query turbulence_model user_description focus_area in
       results ← on_vector_store (query_similar_documents search_query top_k);
       mret (enhanced_result <$> results))
      (λ e, mret []).

Record ContextBundle := {
  context_text : str;
  sources : list value;
  relevance_scores : list Score;
  total_documents : Z
}.

(** The local variables of the packing loop. *)
Record PackState := {
  context_parts : list str;
  st_sources : list value;
  st_relevance_scores : list Score;
  current_length : Z
}.

(** [f"\n--- Document {i+1} (Relevance: {score:.3f}) ---\n"] *)
Definition document_header (i : nat) (doc : RetrievedDocument) : str :=
  [10%N] ++ py "--- Document " ++ str_of_nat (i + 1)
  ++ py " (Relevance: " ++ format_3f (relevance_score doc) ++ py ") ---" ++ [10%N].

(** The three appends that include a document. *)
Definition include (st : PackState) (part : str) (doc : RetrievedDocument)
    (new_length : Z) : PackState :=
  {| context_parts := context_parts st ++ [part];
     st_sources := st_sources st ++ [source doc];
     st_relevance_scores := st_relevance_scores st ++ [relevance_score doc];
     current_length := new_length |}.

(** [for i, doc in enumerate(documents)], from index [i] on.  [len] of a
    preview that is not a string raises; a [break] returns the state. *)
Fixpoint pack_loop (max_context_length : Z) (i : nat)
    (documents : list RetrievedDocument) (st : PackState) : result PackState :=
  match documents with
  | [] => Ok st
  | doc :: documents' =>
      let header := document_header i doc in
      match content_preview doc with
      | VInt _ => Raise TypeError
      | VStr content =>
          if current_length st + len header + len content >? max_context_length
          then
            if current_length st =? 0 then
              let available_space := max_context_length - len header - 50 in
              let content := slice_to content available_space ++ py "...[truncated]" in
              Ok (include st (header ++ content) doc (current_length st))
            else Ok st
          else
            pack_loop max_context_length (S i) documents'
              (include st (header ++ content) doc
                 (current_length st + (len header + len content)))
      end
  end.

Definition empty_pack : PackState :=
  {| context_parts := []; st_sources := []; st_relevance_scores := [];
     current_length := 0 |}.

Definition bundle_of (st : PackState) : ContextBundle :=
  {| context_text := join [] (context_parts st);
     sources := st_sources st;
     relevance_scores := st_relevance_scores st;
     total_documents := len (st_sources st) |}.

Definition empty_bundle : ContextBundle :=
  {| context_text := []; sources := []; relevance_scores := [];
     total_documents := 0 |}.

Definition get_context_for_generation
    (turbulence_model user_description focus_area : str)
    (max_context_length : Z) : M RetrievalSystem ContextBundle :=
  documents ← retrieve_relevant_documents
                turbulence_model user_description focus_area 8;
  if negb (truthy documents) then mret empty_bundle
  else
    st ← call (pack_loop max_context_length 0 documents empty_pack);
    mret (bundle_of st).

Record SystemStatus := {
  status_connected : bool;
  index_stats : gmap str value
}.

Definition get_system_status : M RetrievalSystem SystemStatus :=
  self ← get;
  if connected self then
    stats ← on_vector_store get_index_stats;
    mret {| status_connected := connected self; index_stats := stats |}
  else mret {| status_connected := connected self; index_stats := ∅ |}.

(** The query-time operations of a retrieval system, and what each
    answers. *)
Inductive operation :=
  | ConstructSearchQuery (turbulence_model user_description focus_area : str)
  | RetrieveRelevantDocuments
      (turbulence_model user_description focus_area : str) (top_k : Z)
  | GetContextForGeneration
      (turbulence_model user_description focus_area : str) (max_context_length : Z)
  | ExpandQueryWithSynonyms (base_query : str)
  | GetSystemStatus.

Inductive answer :=
  | AStr (s : str)
  | ADocuments (documents : list RetrievedDocument)
  | ABundle (bundle : ContextBundle)
  | AStatus (status : SystemStatus).

Definition perform (op : operation) : M RetrievalSystem answer :=
  match op with
  | ConstructSearchQuery tm ud fa => mret (AStr (construct_search_query tm ud fa))
  | RetrieveRelevantDocuments tm ud fa top_k =>
      ADocuments <$> retrieve_relevant_documents tm ud fa top_k
  | GetContextForGeneration tm ud fa max_len =>
      ABundle <$> get_context_for_generation tm ud fa max_len
  | ExpandQueryWithSynonyms q => mret (AStr (expand_query_with_synonyms q))
  | GetSystemStatus => AStatus <$> get_system_status
  end.

(** ** Notions the properties are stated with *)

(** What the index answers to a query, failures read as no match. *)
Definition matches_for (self : VectorStore) (query_text : str) (top_k : Z)
    : list Match :=
  match index self with
  | None => []
  | Some handle =>
      match embeddings_create query_text with
      | Raise _ => []
      | Ok query_embedding =>
          match index_query handle query_embedding top_k with
          | Raise _ => []
          | Ok matches => matches
          end
      end
  end.

(** The documents a call of [retrieve_relevant_documents] returns. *)
Definition retrieved (self : RetrievalSystem)
    (turbulence_model user_description focus_area : str) (top_k : Z)
    : list RetrievedDocument :=
  if connected self then
    (enhanced_result ∘ hit_of_match)
      <$> matches_for (vector_store self)
            (construct_search_query turbulence_model user_description focus_area)
            top_k
  else [].

(** [part] is the piece of context text made at rank [i] for [doc]: its
    header followed by its preview, whole or cut by the truncation rule. *)
Definition embeds (max_context_length : Z) (i : nat) (doc : RetrievedDocument)
    (part : str) : Prop :=
  ∃ content,
    content_preview doc = VStr content
    ∧ (part = document_header i doc ++ content
       ∨ part = document_header i doc
                ++ slice_to content
                     (max_context_length - len (document_header i doc) - 50)
                ++ py "...[truncated]").

(** The candidate of rank [k] is in the bundle: its piece occurs in the
    context text, and slot [k] of the sources and of the scores is its
    source and its score. *)
Definition included (max_context_length : Z) (documents : list RetrievedDocument)
    (bundle : ContextBundle) (k : nat) : Prop :=
  ∃ doc before part after,
    documents !! k = Some doc
    ∧ sources bundle !! k = Some (source doc)
    ∧ relevance_scores bundle !! k = Some (relevance_score doc)
    ∧ context_text bundle = before ++ part ++ after
    ∧ embeds max_context_length k doc part.

(** [v] is what [d.get(key, default)] gives. *)
Definition field_of (d : gmap str value) (key : str) (default v : value) : Prop :=
  match d !! key with
  | Some stored => v = stored
  | None => v = default
  end.

(** The retriever after a sequence of query-time operations, whatever
    each returned or raised. *)
Definition after_operations (ops : list operation) (self : RetrievalSystem)
    : RetrievalSystem :=
  foldl (λ self op, (perform op self).2) self ops.
End Retrieval.

(** ** The chunker ([src/document_processor.py]) *)

(** [re.sub(r'\s+', ' ', text)]: every maximal run of white space becomes
    one space.  [in_run] says that the previous character was white space. *)
Fixpoint sub_whitespace_from (in_run : bool) (text : str) : str :=
  match text with
  | [] => []
  | c :: text' =>
      if isspace c then
        (if in_run then [] else [32%N]) ++ sub_whitespace_from true text'
      else c :: sub_whitespace_from false text'
  end.

Definition sub_whitespace (text : str) : str := sub_whitespace_from false text.

Definition has_newline (s : str) : bool := existsb (N.eqb 10) s.

(** What follows the last newline of [s]. *)
Fixpoint after_last_newline (s : str) : str :=
  match s with
  | [] => []
  | c :: s' =>
      if has_newline s' then after_last_newline s'
      else if N.eqb c 10 then s' else s
  end.

(** [\n\s*\n] inside one maximal run of white space: the match goes from
    the first newline of the run to its last one, when there are two. *)
Fixpoint sub_blank_run (run : str) : str :=
  match run with
  | [] => []
  | c :: run' =>
      if N.eqb c 10 then
        if has_newline run' then [10%N; 10%N] ++ after_last_newline run' else run
      else c :: sub_blank_run run'
  end.

(** [re.sub(r'\n\s*\n', '\n\n', text)]; [run] is the white space read
    since the last other character. *)
Fixpoint sub_blank_from (run text : str) : str :=
  match text with
  | [] => sub_blank_run run
  | c :: text' =>
      if isspace c then sub_blank_from (run ++ [c]) text'
      else sub_blank_run run ++ c :: sub_blank_from [] text'
  end.

Definition sub_blank_lines (text : str) : str := sub_blank_from [] text.

Definition _clean_text (text : str) : str :=
  let text := sub_whitespace text in
  let text := sub_blank_lines text in
  strip text.

(** A processor holds its two sizes and the splitter built from them, a
    [RecursiveCharacterTextSplitter] of the langchain library, of which
    [chunk_text] calls [split_text]. *)
Record DocumentProcessor := {
  chunk_size : Z;
  chunk_overlap : Z;
  text_splitter : str → list str
}.

(** The dict [chunk_text] builds for a chunk. *)
Record Chunk := {
  c_text : str;
  c_metadata : gmap str value
}.

Definition chunk_text (self : DocumentProcessor) (text : str)
    (metadata : option (gmap str value)) : list Chunk :=
  if negb (truthy (strip text)) then []
  else
    let chunks := text_splitter self text in
    imap (λ i chunk,
            let chunk_metadata := default ∅ metadata in
            {| c_text := chunk;
               c_metadata :=
                 <[py "chunk_size" := VInt (len chunk)]>
                   (<[py "total_chunks" := VInt (len chunks)]>
                      (<[py "chunk_index" := VInt (Z.of_nat i)]> chunk_metadata)) |})
         chunks.

(** ** Instances for closed examples *)

(** A splitter for texts shorter than the chunk size, which the recursive
    splitter returns as one stripped chunk. *)
Definition short_text_splitter (text : str) : list str :=
  if truthy (strip text) then [strip text] else [].

Definition default_processor : DocumentProcessor :=
  {| chunk_size := 1000; chunk_overlap := 200;
     text_splitter := short_text_splitter |}.

(** Scores in thousandths: [n] stands for the float [n / 1000], which
    [{:.3f}] prints with three decimals. *)
Definition milli_format : @ScoreFormat nat := λ n,
  str_of_nat (n / 1000) ++ py "."
  ++ [digit (N.of_nat (n / 100 mod 10)); digit (N.of_nat (n / 10 mod 10));
      digit (N.of_nat (n mod 10))].

(** A world whose index exists and answers every query with [matches]. *)
Definition answering (matches : list (@Match nat)) : @External unit unit nat :=
  {| list_index_names := Ok [py "turbulence-docs"];
     open_index _ := Ok ();
     embeddings_create _ := Ok ();
     index_query _ _ _ := Ok matches;
     describe_index_stats _ := Ok ∅ |}.

(** A world whose embedding provider fails. *)
Definition embedding_down : @External unit unit nat :=
  {| list_index_names := Ok [py "turbulence-docs"];
     open_index _ := Ok ();
     embeddings_create _ := Raise ProviderError;
     index_query _ _ _ := Ok [];
     describe_index_stats _ := Ok ∅ |}.

(** A world whose embedding provider answers and whose index fails. *)
Definition index_down : @External unit unit nat :=
  {| list_index_names := Raise ProviderError;
     open_index _ := Raise ProviderError;
     embeddings_create _ := Ok ();
     index_query _ _ _ := Raise ProviderError;
     describe_index_stats _ := Raise ProviderError |}.

(** A retrieval system as [__init__] leaves it, and one after a successful
    [initialize]. *)
Definition fresh_system : @RetrievalSystem unit :=
  {| vector_store := {| index_name := py "turbulence-docs"; dimension := 1536;
                        index := None |};
     connected := false |}.

Definition connected_system : @RetrievalSystem unit :=
  {| vector_store := {| index_name := py "turbulence-docs"; dimension := 1536;
                        index := Some () |};
     connected := true |}.

(** A match carrying a preview and a source, and one with no metadata. *)
Definition match_of (mid : string) (millis : nat) (preview src : str) : @Match nat :=
  {| m_id := py mid; m_score := millis;
     m_metadata := <[py "text_preview" := VStr preview]>
                     (<[py "source" := VStr src]> ∅) |}.

Definition bare_match : @Match nat :=
  {| m_id := py "doc_0_0"; m_score := 900%nat; m_metadata := ∅ |}.

(** Three ranked matches: a short preview, one of 80 characters, and a
    one-character preview. *)
Definition ranked_matches : list (@Match nat) :=
  [ match_of "doc_1_0" 900 (py "hello world") (py "a.pdf");
    match_of "doc_1_1" 700 (replicate 80 98%N) (py "b.pdf");
    match_of "doc_1_2" 500 (py "x") (py "c.pdf") ].

(** One match whose preview has the 200 characters [upsert_documents]
    keeps. *)
Definition long_match : list (@Match nat) :=
  [ match_of "doc_2_0" 900 (replicate 200 97%N) (py "a.pdf") ].

(** ** Further operations

    The rest of the files above, and the callers in [src/rag_pipeline.py]. *)

(** A word: not empty, and without white space. *)
Definition is_word (w : str) : Prop := w ≠ [] ∧ Forall (λ c, isspace c = false) w.

(** No white space at the start of [s], none doubled, and none but the
    space character; [after_space] says that the character before [s] was
    white space (or that [s] is the start). *)
Fixpoint spaced_from (after_space : bool) (s : str) : bool :=
  match s with
  | [] => true
  | c :: s' =>
      if isspace c then N.eqb c 32 && negb after_space && spaced_from true s'
      else spaced_from false s'
  end.

Definition single_spaced (s : str) : bool := spaced_from true s.

(** [RAGPipeline.get_available_models] and [RAGPipeline.validate_model];
    neither reads [self]. *)
Definition get_available_models : list str := get_model_names.

Definition validate_model (model_name : str) : bool :=
  bool_decide (model_name ∈ get_model_names).

(** ** The life of a retrieval system *)

Section Life.
Context {Handle Embedding Score : Type}.
Context `{Unicode} `{@ScoreFormat Score}.

(** One call on a retrieval system, [initialize] or a query-time
    operation, in whatever state the hosted services are at that moment. *)
Inductive step : @RetrievalSystem Handle → @RetrievalSystem Handle → Prop :=
  | step_initialize (world : @External Handle Embedding Score) self :
      step self (@initialize _ _ _ world self).2
  | step_perform (world : @External Handle Embedding Score) op self :
      step self (@perform _ _ _ _ world _ op self).2.

(** The text of all the documents from rank [i] on, each whole under its
    header. *)
Fixpoint whole_text (i : nat) (documents : list (@RetrievedDocument Score)) : str :=
  match documents with
  | [] => []
  | doc :: documents' =>
      document_header i doc
      ++ match content_preview doc with VStr content => content | VInt _ => [] end
      ++ whole_text (S i) documents'
  end.
End Life.

(** ** Text extraction ([src/document_processor.py]) *)

(** [s.replace(old, new)] for a non-empty [old]: the occurrences are
    taken from the left and do not overlap.  [skip] counts the characters
    of an occurrence still to pass. *)
Fixpoint replace_from (skip : nat) (old new s : str) : str :=
  match s with
  | [] => []
  | c :: s' =>
      match skip with
      | S skip' => replace_from skip' old new s'
      | O =>
          if startswith s old
          then new ++ replace_from (length old - 1) old new s'
          else c :: replace_from 0 old new s'
      end
  end.

Definition replace_all (old new s : str) : str := replace_from 0 old new s.

(** [re.sub(r'<[^>]+>', '', html)]: from a ['<'] to the next ['>'], when
    something stands between them.  [pending] holds what was read since a
    ['<'] that is not closed yet. *)
Fixpoint sub_tags_from (pending : option str) (html : str) : str :=
  match html with
  | [] =>
      match pending with
      | Some inside => 60%N :: inside
      | None => []
      end
  | c :: html' =>
      match pending with
      | None =>
          if N.eqb c 60 then sub_tags_from (Some []) html'
          else c :: sub_tags_from None html'
      | Some inside =>
          if N.eqb c 62 then
            match inside with
            | [] => 60%N :: 62%N :: sub_tags_from None html'
            | _ => sub_tags_from None html'
            end
          else sub_tags_from (Some (inside ++ [c])) html'
      end
  end.

Definition sub_tags (html : str) : str := sub_tags_from None html.

Definition _extract_text_from_html (html_content : str) : str :=
  let text := sub_tags html_content in
  let text := replace_all (py "&nbsp;") (py " ") text in
  let text := replace_all (py "&amp;") (py "&") text in
  let text := replace_all (py "&lt;") (py "<") text in
  let text := replace_all (py "&gt;") (py ">") text in
  let text := replace_all (py "&quot;") [34%N] text in
  _clean_text text.

(** [s.endswith(suffix)] *)
Definition endswith (s suffix : str) : bool :=
  startswith (reverse s) (reverse suffix).

(** A call that returns, or raises an exception whose text is [message]. *)
Inductive outcome (A : Type) :=
  | Done (a : A)
  | Failed (message : str).
Arguments Done {A} a.
Arguments Failed {A} message.

Section Documents.
Context {Bytes : Type}.

(** What [extract_text_from_url] reads of a response: the content-type
    header if any, the body as bytes and the body as text. *)
Record Response := {
  r_content_type : option str;
  r_content : Bytes;
  r_text : str
}.

(** What the processor reads from outside. *)
Class Sources := {
  requests_get : str → outcome Response;   (* requests.get(url, ...) and raise_for_status() *)
  pdf_pages : Bytes → outcome (list str);  (* extract_text() of the pages of PdfReader(BytesIO(b)) *)
  read_bytes : str → outcome Bytes;        (* open(path, 'rb').read() *)
  read_text : str → outcome str            (* open(path, 'r', encoding='utf-8').read() *)
}.

Context `{Unicode} `{Sources}.

Definition _extract_text_from_pdf_bytes (pdf_bytes : Bytes) : outcome str :=
  match pdf_pages pdf_bytes with
  | Done pages => Done (_clean_text (concat ((λ page, page ++ [10%N]) <$> pages)))
  | Failed e => Failed (py "Failed to extract text from PDF bytes: " ++ e)
  end.

Definition extract_text_from_url (url : str) : outcome str :=
  let wrapped e := Failed (py "Failed to extract text from URL " ++ url ++ py ": " ++ e) in
  match requests_get url with
  | Failed e => wrapped e
  | Done response =>
      let content_type := lower (default [] (r_content_type response)) in
      if contains content_type (py "application/pdf") then
        match _extract_text_from_pdf_bytes (r_content response) with
        | Done text => Done text
        | Failed e => wrapped e
        end
      else Done (_extract_text_from_html (r_text response))
  end.

Definition extract_text_from_pdf_file (pdf_path : str) : outcome str :=
  let wrapped e := Failed (py "Failed to extract text from PDF " ++ pdf_path ++ py ": " ++ e) in
  match read_bytes pdf_path with
  | Failed e => wrapped e
  | Done pdf_bytes =>
      match _extract_text_from_pdf_bytes pdf_bytes with
      | Done text => Done text
      | Failed e => wrapped e
      end
  end.

Definition process_document (self : DocumentProcessor) (source doc_type : str)
    : outcome (list Chunk) :=
  let metadata : gmap str value :=
    <[py "type" := VStr doc_type]> (<[py "source" := VStr source]> ∅) in
  let doc_type :=
    if decide (doc_type = py "auto") then
      if startswith source (py "http://") || startswith source (py "https://")
      then py "url"
      else if endswith source (py ".pdf") then py "pdf"
      else py "text"
    else doc_type in
  if decide (doc_type = py "url") then
    match extract_text_from_url source with
    | Done text => Done (chunk_text self text (Some (<[py "type" := VStr (py "url")]> metadata)))
    | Failed e => Failed e
    end
  else if decide (doc_type = py "pdf") then
    match extract_text_from_pdf_file source with
    | Done text => Done (chunk_text self text (Some (<[py "type" := VStr (py "pdf")]> metadata)))
    | Failed e => Failed e
    end
  else
    match read_text source with
    | Done text => Done (chunk_text self text (Some (<[py "type" := VStr (py "text")]> metadata)))
    | Failed e => Failed e
    end.
End Documents.

(** A site that serves one HTML page, and one that cannot be reached; both
    without local files. *)
Definition web_page (html : str) : @Sources unit :=
  {| requests_get _ :=
       Done {| r_content_type := Some (py "text/html; charset=utf-8");
               r_content := (); r_text := html |};
     pdf_pages _ := Failed (py "EOF marker not found");
     read_bytes _ := Failed (py "No such file or directory");
     read_text _ := Failed (py "No such file or directory") |}.

Definition unreachable : @Sources unit :=
  {| requests_get _ := Failed (py "404 Client Error");
     pdf_pages _ := Failed (py "EOF marker not found");
     read_bytes _ := Failed (py "No such file or directory");
     read_text _ := Failed (py "No such file or directory") |}.

(** ** Writing to the index ([VectorStore.upsert_documents],
    [VectorStore.delete_index]) *)

(** [str(z)] of an integer. *)
Definition str_of_int (z : Z) : str :=
  if z <? 0 then py "-" ++ str_of_uint (N.to_uint (Z.to_N (- z)))
  else str_of_uint (N.to_uint (Z.to_N z)).

Section Writing.
Context {Handle Embedding Score : Type}.
Context `{@External Handle Embedding Score}.

(** One element of the list given to [index.upsert]. *)
Record Vector := {
  v_id : str;
  v_values : Embedding;
  v_metadata : gmap str value
}.

(** The clock and the calls that change the index. *)
Class Writes := {
  time_time : nat → Z;   (* int(time.time()) while document [i] is handled *)
  index_upsert : Handle → list Vector → result unit;   (* index.upsert(vectors=batch) *)
  pc_delete_index : str → result unit                  (* pc.delete_index(name) *)
}.

Context `{Writes}.

(** The store together with the batches the index has accepted, oldest
    first. *)
Record Remote := {
  store : @VectorStore Handle;
  upserted : list (list Vector)
}.

(** A method call on the store. *)
Definition on_store {A} (m : M (@VectorStore Handle) A) : M Remote A :=
  λ remote, let '(r, vs) := m (store remote) in
            (r, {| store := vs; upserted := upserted remote |}).

Definition accept (batch : list Vector) : M Remote unit :=
  λ remote, (Ok (), {| store := store remote;
                       upserted := upserted remote ++ [batch] |}).

(** The metadata dict built for a document; slicing a source that is not
    a string raises. *)
Definition vector_metadata (doc : Chunk) : result (gmap str value) :=
  match dget (c_metadata doc) (py "source") (VStr []) with
  | VInt _ => Raise TypeError
  | VStr source =>
      Ok (<[py "text_preview" := VStr (slice_to (c_text doc) 200)]>
            (<[py "total_chunks" := dget (c_metadata doc) (py "total_chunks") (VInt 1)]>
               (<[py "chunk_index" := dget (c_metadata doc) (py "chunk_index") (VInt 0)]>
                  (<[py "type" := dget (c_metadata doc) (py "type") (VStr [])]>
                     (<[py "source" := VStr (slice_to source 500)]> ∅)))))
  end.

(** [for i, doc in enumerate(documents)], from index [i] on. *)
Fixpoint build_vectors (i : nat) (documents : list Chunk)
    : M (@VectorStore Handle) (list Vector) :=
  match documents with
  | [] => mret []
  | doc :: documents' =>
      embedding ← generate_embedding (c_text doc);
      let doc_id := py "doc_" ++ str_of_int (time_time i) ++ py "_" ++ str_of_nat i in
      metadata ← call (vector_metadata doc);
      vectors ← build_vectors (S i) documents';
      mret ({| v_id := doc_id; v_values := embedding; v_metadata := metadata |}
            :: vectors)
  end.

(** [range(0, n, 100)] *)
Definition batch_starts (n : nat) : list nat :=
  (λ k, 100 * k)%nat <$> seq 0 ((n + 99) / 100).

(** [vectors[i:i + 100]] for each start [i]. *)
Definition batches_of (vectors : list Vector) : list (list Vector) :=
  (λ i, take 100 (drop i vectors)) <$> batch_starts (length vectors).

Fixpoint send_batches (handle : Handle) (batches : list (list Vector))
    : M Remote unit :=
  match batches with
  | [] => mret ()
  | batch :: batches' =>
      call (index_upsert handle batch);;
      accept batch;;
      send_batches handle batches'
  end.

Definition upsert_documents (documents : list Chunk) : M Remote bool :=
  try_except
    (self ← get;
     match index (store self) with
     | None => mret false
     | Some handle =>
         vectors ← on_store (build_vectors 0 documents);
         send_batches handle (batches_of vectors);;
         mret true
     end)
    (λ e, mret false).

Definition delete_index : M (@VectorStore Handle) bool :=
  try_except
    (self ← get;
     call (pc_delete_index (index_name self));;
     put (set_index None self);;
     mret true)
    (λ e, mret false).
End Writing.

(** An index that accepts every write, under a clock that stands still. *)
Definition accepting : @Writes unit unit :=
  {| time_time _ := 1700000000;
     index_upsert _ _ := Ok ();
     pc_delete_index _ := Ok () |}.

(** The chunks of a short note about wall functions. *)
Definition note_chunks : list Chunk :=
  chunk_text default_processor (py "wall functions for k-epsilon")
    (Some (<[py "type" := VStr (py "text")]> {[py "source" := VStr (py "notes.txt")]})).

(** Its first chunk, the metadata stored for it, and a match the index
    returns for it. *)
Definition note_chunk : Chunk :=
  List.hd {| c_text := []; c_metadata := ∅ |} note_chunks.

Definition note_stored : gmap str value :=
  match vector_metadata note_chunk with
  | Ok stored => stored
  | Raise _ => ∅
  end.

Definition note_match : @Match nat :=
  {| m_id := py "doc_1700000000_0"; m_score := 900%nat; m_metadata := note_stored |}.

(** ** The pipeline ([src/rag_pipeline.py]) *)

(** [print(text)]: the call returns, or it raises, as when stdout cannot
    encode the text. *)
Class Console := print : str → result unit.

Module Pipeline.
Section Pipeline.
Context {Handle Embedding Score Recommendations : Type}.
Context `{Unicode} `{@External Handle Embedding Score} `{@ScoreFormat Score}.
Context `{Console}.

(** What the pipeline takes from its generator and from float
    arithmetic.  [ParameterGenerator.generate_parameters] handles every
    exception itself and returns a dict in all cases. *)
Class Generation := {
  generate_parameters : str → str → str → str → Recommendations;
    (* generate_parameters(turbulence_model, user_description, context_text, focus_area) *)
  average : list Score → Score;      (* sum(xs) / len(xs) if xs else 0.0 *)
  exception_text : exception → str   (* str(e) *)
}.

Context `{Generation}.

Record RAGPipeline := {
  retrieval_system : @RetrievalSystem Handle;
  initialized : bool
}.

(** A method call on [self.retrieval_system]. *)
Definition on_retrieval_system {A} (m : M (@RetrievalSystem Handle) A)
    : M RAGPipeline A :=
  λ self, let '(r, rs) := m (retrieval_system self) in
          (r, {| retrieval_system := rs; initialized := initialized self |}).

Definition set_initialized (b : bool) : M RAGPipeline unit :=
  λ self, (Ok (), {| retrieval_system := retrieval_system self; initialized := b |}).

(** The lines the pipeline prints; each starts with an emoji, given by
    its code point. *)
Definition initializing_line : str :=
  128295%N :: py " Initializing RAG pipeline components...".

Definition retrieval_failed_line : str :=
  10060%N :: py " Retrieval system initialization failed".

Definition ready_line : str :=
  9989%N :: py " RAG pipeline components ready".

Definition initialization_error_line (e : exception) : str :=
  10060%N :: py " Pipeline initialization error: " ++ exception_text e.

Definition starting_line (turbulence_model : str) : str :=
  127912%N :: py " Starting parameter generation for " ++ turbulence_model.

Definition searching_line : str :=
  128269%N :: py " Searching knowledge base...".

Definition no_documents_line : str :=
  9888%N :: 65039%N :: py " No matching documents found in knowledge base".

Definition retrieved_line (context_info : @ContextBundle Score) : str :=
  128218%N :: py " Retrieved " ++ str_of_int (total_documents context_info)
  ++ py " documents (avg relevance: "
  ++ format_3f (average (relevance_scores context_info)) ++ py ")".

Definition generating_line : str :=
  129302%N :: py " AI generating parameter recommendations...".

Definition generated_line : str :=
  10024%N :: py " Parameter recommendations generated successfully".

Definition generation_failed_line (e : exception) : str :=
  10060%N :: py " Recommendation generation failed: " ++ exception_text e.



(** In the body, [initialize] is the retrieval system's. *)
Definition initialize : M RAGPipeline bool :=
  try_except
    (call (print initializing_line);;
     ok ← on_retrieval_system initialize;
     if negb ok then
       call (print retrieval_failed_line);;
       mret false
     else
       set_initialized true;;
       call (print ready_line);;
       mret true)
    (λ e, call (print (initialization_error_line e));;
          mret false).

Record RetrievalInfo := {
  documents_used : Z;
  info_sources : list value;
  average_relevance : Score
}.

Record DebugInfo := {
  context_length : Z;
  debug_relevance_scores : list Score;
  retrieval_query : str
}.

(** The two shapes of a response: the dict [_create_error_response]
    builds from a message, and the dict of a successful call. *)
Inductive Response :=
  | Failure (error : str)
  | Success (model_name : str) (recommendations : Recommendations)
      (retrieval_info : RetrievalInfo) (debug_info : option DebugInfo).

Definition _create_error_response (error_message : str) : Response :=
  Failure error_message.

Definition generate_recommendations
    (turbulence_model user_description focus_area : str)
    (include_debug_info : bool) : M RAGPipeline Response :=
  self ← get;
  if negb (initialized self) then
    mret (_create_error_response (py "Pipeline not initialized"))
  else if negb (validate_model turbulence_model) then
    mret (_create_error_response
            (py "Unsupported turbulence model: " ++ turbulence_model))
  else
    try_except
      (call (print (starting_line turbulence_model));;
       call (print searching_line);;
       context_info ← on_retrieval_system
                        (get_context_for_generation
                           turbulence_model user_description focus_area 4000);
       (if total_documents context_info =? 0 then
          call (print no_documents_line)
        else
          call (print (retrieved_line context_info)));;
       call (print generating_line);;
       let recommendations :=
         generate_parameters turbulence_model user_description
           (context_text context_info) focus_area in
       let retrieval_info :=
         {| documents_used := total_documents context_info;
            info_sources := sources context_info;
            average_relevance := average (relevance_scores context_info) |} in
       let response :=
         Success turbulence_model recommendations retrieval_info
           (if include_debug_info then
              Some {| context_length := len (context_text context_info);
                      debug_relevance_scores := relevance_scores context_info;
                      retrieval_query :=
                        construct_search_query
                          turbulence_model user_description focus_area |}
            else None) in
       call (print generated_line);;
       mret response)
      (λ e, call (print (generation_failed_line e));;
            mret (_create_error_response (exception_text e))).

End Pipeline.
End Pipeline.

(** A console that takes every line, and one that cannot encode
    characters beyond Latin-1. *)
Definition quiet_console : Console := λ _, Ok ().

Definition latin1_console : Console :=
  λ text, if forallb (λ c, c <? 256)%N text then Ok () else Raise OutputError.

(** A generator that answers with the context it was given, over scores
    in thousandths, and a pipeline that has been initialized over the
    connected retriever. *)
Definition echo_generation : @Pipeline.Generation nat str :=
  {| Pipeline.generate_parameters _ _ context_text _ := context_text;
     Pipeline.average scores :=
       match scores with
       | [] => 0%nat
       | _ => (foldr Nat.add 0 scores / length scores)%nat
       end;
     Pipeline.exception_text _ := py "unsupported operand" |}.

Definition ready_pipeline : @Pipeline.RAGPipeline unit :=
  {| Pipeline.retrieval_system := connected_system; Pipeline.initialized := true |}.

Definition new_pipeline : @Pipeline.RAGPipeline unit :=
  {| Pipeline.retrieval_system := fresh_system; Pipeline.initialized := false |}.

(** * Properties *)

(** ** Lengths, slices and joins *)

Lemma len_nonneg {A} (s : list A) : 0 <= len s.
Proof. unfold len. lia. Qed.

Lemma len_app {A} (s t : list A) : len (s ++ t) = len s + len t.
Proof. unfold len. rewrite length_app. lia. Qed.

Lemma len_nil {A} : len (@nil A) = 0.
Proof. reflexivity. Qed.

Lemma len_slice_to {A} (s : list A) (stop : Z) :
  0 <= stop → len (slice_to s stop) <= stop.
Proof.
  intros Hstop. unfold slice_to, len.
  destruct (Z.ltb_spec stop 0) as [Hneg | _]; [lia |].
  rewrite length_take. lia.
Qed.

Lemma len_slice_to_le {A} (s : list A) (stop : Z) :
  len (slice_to s stop) <= len s.
Proof.
  unfold slice_to, len. destruct (stop <? 0); rewrite length_take; lia.
Qed.

Lemma join_nil (parts : list str) : join [] parts = concat parts.
Proof.
  induction parts as [| p [| q rest] IH]; simpl in *.
  - reflexivity.
  - now rewrite app_nil_r.
  - now rewrite IH.
Qed.

Lemma truthy_false {A} (s : list A) : truthy s = false ↔ s = [].
Proof. destruct s; simpl; split; congruence. Qed.

(** ** Query synthesis *)

Section QueryProperties.
Context `{Unicode}.

(** For a model the registry knows, the query is cut at 500 characters. *)
Lemma construct_search_query_known_bounded
    (turbulence_model user_description focus_area : str) :
  is_Some (get_model turbulence_model) →
  len (construct_search_query turbulence_model user_description focus_area) <= 500.
Proof.
  intros [model_info Hmodel]. unfold construct_search_query.
  rewrite Hmodel. apply len_slice_to. lia.
Qed.

(** For any other model name the fallback query is returned whole. *)
Lemma construct_search_query_unknown_length
    (turbulence_model user_description focus_area : str) :
  get_model turbulence_model = None →
  len (construct_search_query turbulence_model user_description focus_area)
  = len turbulence_model + 29 + len user_description.
Proof.
  intros Hmodel. unfold construct_search_query. rewrite Hmodel.
  rewrite !len_app.
  change (len (py " turbulence model parameters ")) with 29. lia.
Qed.

(** Expansion only appends: the base query is a prefix of the result. *)
Lemma expand_query_keeps_base (base_query : str) :
  ∃ appended, expand_query_with_synonyms base_query = base_query ++ appended.
Proof.
  unfold expand_query_with_synonyms.
  destruct (truthy _).
  - eauto.
  - exists []. now rewrite app_nil_r.
Qed.

(** An anchor contributes at most two phrases, the first two of its
    entry, and the contributions follow the table. *)
Lemma expanded_terms_cons (term : str) (synonyms : list str)
    (table : list (str * list str)) (query_lower : str) :
  expanded_terms ((term, synonyms) :: table) query_lower
  = (if contains query_lower term then take 2 synonyms else [])
    ++ expanded_terms table query_lower.
Proof. reflexivity. Qed.

Lemma expanded_terms_app (table1 table2 : list (str * list str)) (query_lower : str) :
  expanded_terms (table1 ++ table2) query_lower
  = expanded_terms table1 query_lower ++ expanded_terms table2 query_lower.
Proof.
  induction table1 as [| [term synonyms] table1 IH]; simpl; [reflexivity |].
  now rewrite IH, app_assoc.
Qed.

Lemma startswith_elem (s prefix : str) (c : char) :
  startswith s prefix = true → c ∈ prefix → c ∈ s.
Proof.
  revert s. induction prefix as [| p prefix IH]; intros s Hstart Hin.
  - inversion Hin.
  - destruct s as [| d s]; simpl in Hstart; [discriminate |].
    apply andb_prop in Hstart as [Hhead Htail].
    apply N.eqb_eq in Hhead. subst d.
    apply elem_of_cons in Hin as [-> | Hin].
    + apply elem_of_cons. now left.
    + apply elem_of_cons. right. now apply IH.
Qed.

Lemma contains_elem (s needle : str) (c : char) :
  contains s needle = true → c ∈ needle → c ∈ s.
Proof.
  induction s as [| d s IH]; simpl; intros Hin Hc.
  - rewrite orb_false_r in Hin. eapply startswith_elem; eauto.
  - apply orb_prop in Hin as [Hstart | Hlater].
    + eapply (startswith_elem (d :: s)); eauto.
    + apply elem_of_cons. right. now apply IH.
Qed.

(** A lower-cased query holds no capital S, so the anchor ['SST'] is
    never found in it, whatever the query. *)
Lemma SST_never_found (base_query : str) :
  83%N ∉ lower base_query →
  contains (lower base_query) (py "SST") = false.
Proof.
  intros Hno. destruct (contains _ _) eqn:Hfound; [| reflexivity].
  exfalso. apply Hno. eapply contains_elem; [exact Hfound |].
  apply elem_of_cons. now left.
Qed.

(** An anchor found in the lower-cased query contributes the first two
    phrases of its entry. *)
Lemma expanded_terms_found (table : list (str * list str)) (query_lower : str)
    (term : str) (synonyms : list str) (phrase : str) :
  (term, synonyms) ∈ table →
  contains query_lower term = true →
  phrase ∈ take 2 synonyms →
  phrase ∈ expanded_terms table query_lower.
Proof.
  intros Hentry Hfound Hphrase.
  induction table as [| [term' synonyms'] table IH]; [inversion Hentry |].
  cbn [expanded_terms]. apply elem_of_app.
  apply elem_of_cons in Hentry as [[= <- <-] | Hentry].
  - left. now rewrite Hfound.
  - right. now apply IH.
Qed.

(** At most two phrases are appended per anchor of the table. *)
Lemma expanded_terms_length (table : list (str * list str)) (query_lower : str) :
  (length (expanded_terms table query_lower) <= 2 * length table)%nat.
Proof.
  induction table as [| [term synonyms] table IH]; cbn [expanded_terms length];
    [lia |].
  rewrite length_app.
  assert (length (if contains query_lower term then take 2 synonyms else [])
          <= 2)%nat.
  { destruct (contains _ _); [rewrite length_take | cbn]; lia. }
  lia.
Qed.

(** So the entry of ['SST'] never contributes: the expansion is the one of
    the table without it. *)
Lemma expand_query_ignores_SST (base_query : str) :
  83%N ∉ lower base_query →
  expanded_terms expansions (lower base_query)
  = expanded_terms
      (List.filter (λ entry, negb (bool_decide (entry.1 = py "SST"))) expansions)
      (lower base_query).
Proof.
  intros Hno. unfold expansions. cbn [List.filter].
  repeat match goal with
         | |- context [bool_decide (?a = ?b)] =>
             let b := eval vm_compute in (bool_decide (a = b)) in
             change (bool_decide (a = b)) with b
         end.
  cbn [negb expanded_terms]. now rewrite (SST_never_found base_query Hno).
Qed.
End QueryProperties.

Lemma ascii_lower_no_capital (s : str) (c : char) :
  (65 <= c <= 90)%N → c ∉ @lower ascii_unicode s.
Proof.
  intros Hc Hin. simpl in Hin. apply list_elem_of_fmap in Hin as (d & -> & _).
  unfold ascii_lower_char in Hc.
  destruct ((65 <=? d) && (d <=? 90))%N eqn:Hd.
  - apply andb_prop in Hd as [Hd _]. apply N.leb_le in Hd. lia.
  - apply andb_false_iff in Hd as [Hd | Hd];
      [apply N.leb_gt in Hd | apply N.leb_gt in Hd]; lia.
Qed.

(** C1, at a failing input: for the unknown model name ["les"] and a
    description of 500 characters, [construct_search_query] returns the
    fallback query whole, 532 characters long, above the limit of 500 that
    the path of a registered model enforces. *)
Theorem construct_search_query_fallback_unbounded :
  get_model (py "les") = None ∧
  len (@construct_search_query ascii_unicode (py "les") (replicate 500 97%N) []) = 532 ∧
  ¬ len (@construct_search_query ascii_unicode (py "les") (replicate 500 97%N) []) <= 500.
Proof.
  assert (Hnone : get_model (py "les") = None) by (vm_compute; reflexivity).
  pose proof (@construct_search_query_unknown_length ascii_unicode
                (py "les") (replicate 500 97%N) [] Hnone) as Hlen.
  assert (Hdesc : len (replicate 500 97%N) = 500)
    by (unfold len; now rewrite length_replicate).
  rewrite Hdesc in Hlen. change (len (py "les")) with 3 in Hlen.
  split; [exact Hnone | split; lia].
Qed.

(** C7, at a failing input: the query ["SST"] holds the anchor ['SST'] of
    the expansion table, yet [expand_query_with_synonyms] returns it
    unchanged: the anchor is compared with the lower-cased query, in which
    it cannot occur, so its phrases are never appended. *)
Theorem expand_query_misses_SST :
  contains (py "SST") (py "SST") = true ∧
  dict_get expansions (py "SST")
    = Some [py "Shear Stress Transport"; py "Menter SST"; py "k-omega SST"] ∧
  @expand_query_with_synonyms ascii_unicode (py "SST") = py "SST" ∧
  @expand_query_with_synonyms ascii_unicode (py "k-omega SST")
    = py "k-omega SST" ++ py " k-" ++ [207%N; 8240%N] ++ py " k omega".
Proof. split; [| split; [| split]]; vm_compute; reflexivity. Qed.

(** ** Retrieval *)

Lemma Ok_inj {A} (a b : A) : Ok a = Ok b → a = b.
Proof. now intros [= ->]. Qed.

Ltac run_method :=
  unfold mbind, M_bind, mret, M_ret, fmap, M_fmap, try_except, get, put, call,
    on_vector_store, set_connected; simpl.

Section RetrievalProperties.
Context {Handle Embedding Score : Type}.
Context `{Unicode} `{@External Handle Embedding Score} `{@ScoreFormat Score}.

Lemma query_similar_documents_run (query_text : str) (top_k : Z)
    (self : VectorStore) :
  query_similar_documents query_text top_k self
  = (Ok (hit_of_match <$> matches_for self query_text top_k), self).
Proof.
  unfold query_similar_documents, generate_embedding, matches_for. run_method.
  destruct (index self) as [handle |]; [| reflexivity].
  destruct (embeddings_create query_text) as [query_embedding | e]; simpl;
    [| reflexivity].
  destruct (index_query handle query_embedding top_k) as [matches | e];
    reflexivity.
Qed.

Lemma retrieve_relevant_documents_run
    (tm ud fa : str) (top_k : Z) (self : RetrievalSystem) :
  retrieve_relevant_documents tm ud fa top_k self
  = (Ok (retrieved self tm ud fa top_k), self).
Proof.
  unfold retrieve_relevant_documents, retrieved. run_method.
  destruct self as [vs [|]]; simpl; [| reflexivity].
  rewrite query_similar_documents_run. simpl.
  now rewrite list_fmap_compose.
Qed.

(** C6: [retrieve_relevant_documents] always returns (it never raises)
    and leaves the retriever as it was; it returns the empty sequence
    when the retriever is not connected, when the embedding provider
    raises on the query, and when the index raises on the query. *)
Theorem retrieve_relevant_documents_never_raises
    (turbulence_model user_description focus_area : str) (top_k : Z)
    (self : RetrievalSystem) :
  ∃ documents,
    retrieve_relevant_documents turbulence_model user_description focus_area
      top_k self = (Ok documents, self)
    ∧ (connected self = false → documents = [])
    ∧ (∀ e, embeddings_create
              (construct_search_query turbulence_model user_description focus_area)
            = Raise e → documents = [])
    ∧ (∀ handle query_embedding e,
         index (vector_store self) = Some handle →
         embeddings_create
           (construct_search_query turbulence_model user_description focus_area)
         = Ok query_embedding →
         index_query handle query_embedding top_k = Raise e →
         documents = []).
Proof.
  eexists. split; [apply retrieve_relevant_documents_run |].
  unfold retrieved, matches_for. repeat split.
  - now intros ->.
  - intros e ->. destruct (connected self), (index (vector_store self)); reflexivity.
  - intros handle query_embedding e -> -> ->. now destruct (connected self).
Qed.

(** ** Context packing *)

Lemma get_context_for_generation_run
    (tm ud fa : str) (max_context_length : Z) (self : RetrievalSystem) :
  get_context_for_generation tm ud fa max_context_length self
  = (match pack_loop max_context_length 0 (retrieved self tm ud fa 8) empty_pack with
     | Ok st => Ok (bundle_of st)
     | Raise e => Raise e
     end, self).
Proof.
  unfold get_context_for_generation.
  unfold mbind at 1. unfold M_bind.
  rewrite retrieve_relevant_documents_run.
  destruct (retrieved self tm ud fa 8) as [| doc documents]; [reflexivity |].
  generalize (pack_loop max_context_length 0 (doc :: documents) empty_pack).
  intros [st | e]; reflexivity.
Qed.

(** A call that returns a bundle ran the loop to a final state over the
    documents retrieved, and left the retriever as it was. *)
Lemma get_context_for_generation_returned
    (tm ud fa : str) (max_context_length : Z) (self self' : RetrievalSystem)
    (bundle : ContextBundle) :
  get_context_for_generation tm ud fa max_context_length self = (Ok bundle, self') →
  self' = self
  ∧ retrieve_relevant_documents tm ud fa 8 self = (Ok (retrieved self tm ud fa 8), self')
  ∧ ∃ st, pack_loop max_context_length 0 (retrieved self tm ud fa 8) empty_pack = Ok st
          ∧ bundle = bundle_of st.
Proof.
  rewrite get_context_for_generation_run. intros Hrun.
  destruct (pack_loop _ _ _ _) as [st | e] eqn:Hloop; [| discriminate].
  injection Hrun as <- <-.
  split; [reflexivity |]. split; [apply retrieve_relevant_documents_run |].
  now exists st.
Qed.

(** The loop returns whenever every preview it may read is a string. *)
Lemma pack_loop_returns (max_context_length : Z)
    (documents : list RetrievedDocument) :
  Forall (λ doc, ∃ content, content_preview doc = VStr content) documents →
  ∀ i st, ∃ st', pack_loop max_context_length i documents st = Ok st'.
Proof.
  induction 1 as [| doc documents [content Hdoc] _ IH]; intros i st; simpl.
  - eauto.
  - rewrite Hdoc.
    destruct (_ >? _); [destruct (_ =? _); eauto | apply IH].
Qed.

Lemma get_context_for_generation_returns
    (tm ud fa : str) (max_context_length : Z) (self : RetrievalSystem) :
  Forall (λ doc, ∃ content, content_preview doc = VStr content)
         (retrieved self tm ud fa 8) →
  ∃ bundle,
    get_context_for_generation tm ud fa max_context_length self = (Ok bundle, self).
Proof.
  intros Hstr. rewrite get_context_for_generation_run.
  destruct (pack_loop_returns max_context_length _ Hstr 0%nat empty_pack)
    as [st ->].
  eauto.
Qed.

(** What the loop adds to its state: the pieces, sources and scores of
    the first [n] documents it was given, in order, and nothing else. *)
Lemma pack_loop_prefix (max_context_length : Z)
    (documents : list RetrievedDocument) :
  ∀ i st st',
    pack_loop max_context_length i documents st = Ok st' →
    ∃ (n : nat) (parts : list str),
      (n <= length documents)%nat
      ∧ length parts = n
      ∧ context_parts st' = context_parts st ++ parts
      ∧ st_sources st' = st_sources st ++ (source <$> take n documents)
      ∧ st_relevance_scores st'
        = st_relevance_scores st ++ (relevance_score <$> take n documents)
      ∧ ∀ k doc, take n documents !! k = Some doc →
          ∃ part, parts !! k = Some part
                  ∧ embeds max_context_length (i + k) doc part.
Proof.
  induction documents as [| doc documents IH]; intros i st st'; cbn [pack_loop].
  - intros [= <-]. exists 0%nat, []. rewrite !app_nil_r.
    repeat split; try reflexivity. intros k d Hk. discriminate.
  - destruct (content_preview doc) as [content |] eqn:Hcontent; [| discriminate].
    destruct (_ >? _).
    + destruct (_ =? _); intros [= <-].
      * eexists 1%nat, [_]. cbn [include context_parts st_sources
          st_relevance_scores take fmap list_fmap length].
        repeat split; try reflexivity; try (cbn; lia).
        intros [| k] d Hk; cbn in Hk; [| discriminate].
        injection Hk as <-. eexists. split; [reflexivity |].
        exists content. split; [exact Hcontent |]. right.
        rewrite Nat.add_0_r. reflexivity.
      * exists 0%nat, []. rewrite !app_nil_r.
        repeat split; try reflexivity; try (cbn; lia). intros k d Hk. discriminate.
    + intros Hloop.
      destruct (IH _ _ _ Hloop) as (n & parts & Hn & Hlen & Hparts & Hsrc & Hsc & Hemb).
      cbn [include context_parts st_sources st_relevance_scores] in Hparts, Hsrc, Hsc.
      exists (S n), ((document_header i doc ++ content) :: parts).
      rewrite Hparts, Hsrc, Hsc, <- !app_assoc.
      cbn [take fmap list_fmap length].
      repeat split; try reflexivity; try (cbn; lia).
      intros [| k] d Hk; cbn in Hk.
      * injection Hk as <-. eexists. split; [reflexivity |].
        exists content. split; [exact Hcontent |]. left.
        rewrite Nat.add_0_r. reflexivity.
      * destruct (Hemb k d Hk) as (part & Hpart & Hembeds).
        exists part. split; [exact Hpart |].
        now replace (i + S k)%nat with (S i + k)%nat by lia.
Qed.

Lemma len_document_header (i : nat) (doc : RetrievedDocument) :
  1 <= len (document_header i doc).
Proof.
  unfold document_header. rewrite len_app.
  pose proof (len_nonneg (py "--- Document " ++ str_of_nat (i + 1)
    ++ py " (Relevance: " ++ format_3f (relevance_score doc)
    ++ py ") ---" ++ [10%N])).
  change (len [10%N]) with 1. lia.
Qed.

Lemma len_concat_snoc (parts : list str) (part : str) :
  len (concat (parts ++ [part])) = len (concat parts) + len part.
Proof. rewrite concat_app, len_app. simpl. now rewrite app_nil_r. Qed.

(** The budget along the loop: while [current_length] is the length of
    the text so far and within the budget, the final text is within the
    budget, provided that a first document that does not fit whole finds
    a budget of at least its header and the 50 reserved characters. *)
Lemma pack_loop_within_budget (max_context_length : Z)
    (documents : list RetrievedDocument) :
  ∀ i st st',
    pack_loop max_context_length i documents st = Ok st' →
    len (concat (context_parts st)) = current_length st →
    current_length st <= max_context_length →
    (current_length st = 0 →
     ∀ doc content, head documents = Some doc →
       content_preview doc = VStr content →
       len (document_header i doc) + len content <= max_context_length
       ∨ len (document_header i doc) + 50 <= max_context_length) →
    len (concat (context_parts st')) <= max_context_length.
Proof.
  induction documents as [| doc documents IH]; intros i st st'; cbn [pack_loop].
  - intros [= <-] Hinv Hle _. lia.
  - destruct (content_preview doc) as [content |] eqn:Hcontent; [| discriminate].
    pose proof (len_document_header i doc) as Hheader.
    pose proof (len_nonneg content) as Hcontent0.
    pose proof (len_nonneg (concat (context_parts st))) as Hparts0.
    destruct (Z.gtb_spec (current_length st + len (document_header i doc)
                          + len content) max_context_length) as [Hover | Hfits].
    + destruct (Z.eqb_spec (current_length st) 0) as [Hfirst | Hlater];
        intros <-%Ok_inj Hinv Hle Hroom.
      * cbn [include context_parts]. rewrite len_concat_snoc, !len_app, Hinv, Hfirst.
        change (len (py "...[truncated]")) with 14.
        destruct (Hroom Hfirst doc content eq_refl Hcontent) as [Hwhole | Hspace];
          [lia |].
        pose proof (len_slice_to content
          (max_context_length - len (document_header i doc) - 50)).
        lia.
      * lia.
    + intros Hloop Hinv Hle _.
      apply (IH _ _ _ Hloop); cbn [include context_parts current_length].
      * rewrite len_concat_snoc, len_app. lia.
      * lia.
      * intros Hzero. lia.
Qed.

Lemma concat_lookup_split (parts : list str) (k : nat) (part : str) :
  parts !! k = Some part →
  ∃ before after, concat parts = before ++ part ++ after.
Proof.
  intros Hk. exists (concat (take k parts)), (concat (drop (S k) parts)).
  rewrite <- (take_drop_middle parts k part Hk) at 1.
  now rewrite concat_app.
Qed.

(** The shape of a returned bundle: the first [n] retrieved documents,
    piece by piece. *)
Lemma returned_bundle_shape
    (tm ud fa : str) (max_context_length : Z)
    (self self' : RetrievalSystem) (bundle : ContextBundle) :
  get_context_for_generation tm ud fa max_context_length self = (Ok bundle, self') →
  ∃ documents (n : nat) (parts : list str),
    retrieve_relevant_documents tm ud fa 8 self = (Ok documents, self')
    ∧ (n <= length documents)%nat
    ∧ total_documents bundle = Z.of_nat n
    ∧ sources bundle = source <$> take n documents
    ∧ relevance_scores bundle = relevance_score <$> take n documents
    ∧ context_text bundle = concat parts
    ∧ length parts = n
    ∧ ∀ k doc, take n documents !! k = Some doc →
        ∃ part, parts !! k = Some part ∧ embeds max_context_length k doc part.
Proof.
  intros Hrun.
  destruct (get_context_for_generation_returned _ _ _ _ _ _ _ Hrun)
    as (-> & Hdocs & st & Hloop & ->).
  destruct (pack_loop_prefix _ _ _ _ _ Hloop)
    as (n & parts & Hn & Hlen & Hparts & Hsrc & Hsc & Hemb).
  cbn [empty_pack context_parts st_sources st_relevance_scores app] in *.
  assert (Hcount : length (st_sources st) = n).
  { rewrite Hsrc, length_fmap, length_take. lia. }
  exists (retrieved self tm ud fa 8), n, parts.
  unfold bundle_of, len; cbn [sources relevance_scores total_documents context_text].
  rewrite join_nil, Hparts, Hcount.
  repeat split; try assumption; try reflexivity.
Qed.

(** C4: a bundle that [get_context_for_generation] returns is well
    formed: [sources], [relevance_scores] and [total_documents] agree in
    length, and for some [n] the context text is the concatenation of [n]
    pieces, the piece in place [k] made of the retrieved document of rank
    [k], whose source and score stand in place [k] of the two lists. *)
Theorem context_bundle_well_formed
    (turbulence_model user_description focus_area : str) (max_context_length : Z)
    (self self' : RetrievalSystem) (bundle : ContextBundle) :
  get_context_for_generation turbulence_model user_description focus_area
    max_context_length self = (Ok bundle, self') →
  len (sources bundle) = total_documents bundle
  ∧ len (relevance_scores bundle) = total_documents bundle
  ∧ ∃ documents (n : nat) (parts : list str),
      retrieve_relevant_documents turbulence_model user_description focus_area 8
        self = (Ok documents, self')
      ∧ (n <= length documents)%nat
      ∧ total_documents bundle = Z.of_nat n
      ∧ sources bundle = source <$> take n documents
      ∧ relevance_scores bundle = relevance_score <$> take n documents
      ∧ context_text bundle = concat parts
      ∧ length parts = n
      ∧ ∀ k doc, take n documents !! k = Some doc →
          ∃ part, parts !! k = Some part ∧ embeds max_context_length k doc part.
Proof.
  intros Hrun.
  destruct (returned_bundle_shape _ _ _ _ _ _ _ Hrun)
    as (documents & n & parts & Hdocs & Hn & Htotal & Hsrc & Hsc & Hrest).
  assert (Hcount : len (sources bundle) = Z.of_nat n).
  { unfold len. rewrite Hsrc, length_fmap, length_take. lia. }
  assert (Hcount' : len (relevance_scores bundle) = Z.of_nat n).
  { unfold len. rewrite Hsc, length_fmap, length_take. lia. }
  split; [lia |]. split; [lia |].
  exists documents, n, parts. repeat split; try assumption; apply Hrest.
Qed.

(** C3: packing is rank-prioritized.  In a bundle that
    [get_context_for_generation] returns, a candidate is included exactly
    when its rank is below [total_documents]; so when the candidate of
    rank [i] is not included, no candidate of a later rank [j] is. *)
Theorem packing_is_rank_prioritized
    (turbulence_model user_description focus_area : str) (max_context_length : Z)
    (self self' : RetrievalSystem) (bundle : ContextBundle) :
  get_context_for_generation turbulence_model user_description focus_area
    max_context_length self = (Ok bundle, self') →
  ∃ documents,
    retrieve_relevant_documents turbulence_model user_description focus_area 8
      self = (Ok documents, self')
    ∧ (∀ k, included max_context_length documents bundle k
            ↔ (k < length documents)%nat ∧ Z.of_nat k < total_documents bundle)
    ∧ ∀ i j, (i < j)%nat →
        ¬ included max_context_length documents bundle i →
        ¬ included max_context_length documents bundle j.
Proof.
  intros Hrun.
  destruct (returned_bundle_shape _ _ _ _ _ _ _ Hrun)
    as (documents & n & parts & Hdocs & Hn & Htotal & Hsrc & Hsc & Htext & Hlen & Hemb).
  exists documents. split; [exact Hdocs |].
  assert (Hincl : ∀ k, included max_context_length documents bundle k
                       ↔ (k < length documents)%nat ∧ Z.of_nat k < total_documents bundle).
  { intros k. rewrite Htotal. split.
    - intros (doc & before & part & after & Hk & Hsource & _).
      split; [now apply lookup_lt_Some in Hk |].
      apply lookup_lt_Some in Hsource.
      rewrite Hsrc, length_fmap, length_take in Hsource. lia.
    - intros [_ Hk].
      assert (Hkn : (k < n)%nat) by lia.
      destruct (lookup_lt_is_Some_2 documents k ltac:(lia)) as [doc Hdoc].
      assert (Htake : take n documents !! k = Some doc)
        by now rewrite lookup_take_lt.
      destruct (Hemb k doc Htake) as (part & Hpart & Hembeds).
      destruct (concat_lookup_split parts k part Hpart) as (before & after & Hsplit).
      exists doc, before, part, after.
      rewrite Hsrc, Hsc, !list_lookup_fmap, Htake, Htext.
      repeat split; try assumption; reflexivity. }
  split; [exact Hincl |].
  intros i j Hij Hi Hj. apply Hi. apply Hincl. apply Hincl in Hj. lia.
Qed.

(** C2, amended: the context text of a returned bundle is within
    [max_context_length] whenever the budget is not negative and a first
    document that does not fit whole finds a budget of at least its
    header plus the 50 characters the truncation reserves.  In that
    case, the truncation of the first document, the bundle holds this
    document alone and its text is the header, at most
    [max_context_length - len(header) - 50] characters from the start of
    the content, and the marker of 14 characters. *)
Theorem context_text_within_budget
    (turbulence_model user_description focus_area : str) (max_context_length : Z)
    (self self' : RetrievalSystem) (documents : list RetrievedDocument)
    (bundle : ContextBundle) :
  retrieve_relevant_documents turbulence_model user_description focus_area 8 self
    = (Ok documents, self') →
  get_context_for_generation turbulence_model user_description focus_area
    max_context_length self = (Ok bundle, self') →
  0 <= max_context_length →
  (∀ doc content, head documents = Some doc →
     content_preview doc = VStr content →
     len (document_header 0 doc) + len content <= max_context_length
     ∨ len (document_header 0 doc) + 50 <= max_context_length) →
  len (context_text bundle) <= max_context_length
  ∧ ∀ doc content, head documents = Some doc →
      content_preview doc = VStr content →
      max_context_length < len (document_header 0 doc) + len content →
      total_documents bundle = 1
      ∧ context_text bundle
        = document_header 0 doc
          ++ slice_to content (max_context_length - len (document_header 0 doc) - 50)
          ++ py "...[truncated]"
      ∧ len (slice_to content (max_context_length - len (document_header 0 doc) - 50))
        <= max_context_length - len (document_header 0 doc) - 50
      ∧ len (py "...[truncated]") = 14.
Proof.
  intros Hdocs Hrun Hmax Hroom.
  destruct (get_context_for_generation_returned _ _ _ _ _ _ _ Hrun)
    as (-> & Hdocs' & st & Hloop & ->).
  rewrite Hdocs in Hdocs'. injection Hdocs' as ->.
  split.
  - unfold bundle_of; cbn [context_text]. rewrite join_nil.
    apply (pack_loop_within_budget _ _ _ _ _ Hloop); cbn; auto.
  - intros doc content Hhead Hcontent Hover.
    destruct (Hroom doc content Hhead Hcontent) as [Hwhole | Hspace]; [lia |].
    destruct (retrieved self turbulence_model user_description focus_area 8)
      as [| first others]; [discriminate |].
    injection Hhead as ->.
    cbn [pack_loop] in Hloop. rewrite Hcontent in Hloop.
    cbn [empty_pack current_length] in Hloop.
    destruct (Z.gtb_spec (0 + len (document_header 0 doc) + len content)
                         max_context_length) as [_ | Hfits]; [| lia].
    cbn [Z.eqb] in Hloop. apply Ok_inj in Hloop. subst st.
    unfold bundle_of, include.
    cbn [context_parts st_sources st_relevance_scores app join context_text
         total_documents].
    split; [reflexivity |]. split; [reflexivity |].
    split; [apply len_slice_to; lia | reflexivity].
Qed.

(** C5: when retrieval yields no document, [get_context_for_generation]
    returns, without raising, the bundle with empty text, no source, no
    score and [total_documents = 0]. *)
Theorem no_documents_empty_bundle
    (turbulence_model user_description focus_area : str) (max_context_length : Z)
    (self self' : RetrievalSystem) :
  retrieve_relevant_documents turbulence_model user_description focus_area 8 self
    = (Ok [], self') →
  get_context_for_generation turbulence_model user_description focus_area
    max_context_length self
  = (Ok {| context_text := []; sources := []; relevance_scores := [];
           total_documents := 0 |}, self').
Proof.
  intros Hnone. unfold get_context_for_generation.
  unfold mbind at 1. unfold M_bind. now rewrite Hnone.
Qed.

Lemma field_of_dget (d : gmap str value) (key : str) (default : value) :
  field_of d key default (dget d key default).
Proof. unfold field_of, dget. now destruct (d !! key). Qed.

(** C9, amended: each index hit becomes a document whose [source] and
    [document_type] are the metadata's ['source'] and ['type'], or the
    string ["Unknown"] when missing, and whose [chunk_info] holds the
    metadata's ['chunk_index'] and ['total_chunks'], or the numbers 0 and
    1 when missing. *)
Theorem retrieved_metadata_defaults
    (turbulence_model user_description focus_area : str) (top_k : Z)
    (self : RetrievalSystem) (handle : Handle) (query_embedding : Embedding)
    (matches : list Match) :
  connected self = true →
  index (vector_store self) = Some handle →
  embeddings_create
    (construct_search_query turbulence_model user_description focus_area)
  = Ok query_embedding →
  index_query handle query_embedding top_k = Ok matches →
  ∃ documents,
    retrieve_relevant_documents turbulence_model user_description focus_area
      top_k self = (Ok documents, self)
    ∧ Forall2
        (λ m doc,
           field_of (m_metadata m) (py "source") (VStr (py "Unknown")) (source doc)
           ∧ field_of (m_metadata m) (py "type") (VStr (py "Unknown"))
               (document_type doc)
           ∧ field_of (m_metadata m) (py "chunk_index") (VInt 0)
               (ci_index (chunk_info doc))
           ∧ field_of (m_metadata m) (py "total_chunks") (VInt 1)
               (ci_total (chunk_info doc)))
        matches documents.
Proof.
  intros Hconnected Hindex Hembedding Hquery.
  eexists. split; [apply retrieve_relevant_documents_run |].
  unfold retrieved, matches_for.
  rewrite Hconnected, Hindex, Hembedding, Hquery.
  apply Forall2_fmap_r, Forall_Forall2_diag, Forall_forall.
  intros m _. cbn. repeat split; apply field_of_dget.
Qed.

(** ** The connected flag *)

Lemma perform_connected (op : operation) (self : RetrievalSystem) :
  connected (perform op self).2 = connected self.
Proof.
  destruct op as [tm ud fa | tm ud fa top_k | tm ud fa max_len | q |];
    cbn [perform]; unfold fmap, M_fmap.
  - reflexivity.
  - unfold mbind, M_bind. now rewrite retrieve_relevant_documents_run.
  - unfold mbind, M_bind. rewrite get_context_for_generation_run.
    now destruct (pack_loop _ _ _ _).
  - reflexivity.
  - unfold get_system_status. run_method.
    destruct self as [vs [|]]; cbn; [| reflexivity].
    destruct (get_index_stats vs) as [[stats | e] vs']; reflexivity.
Qed.

Lemma initialize_connected (self : RetrievalSystem) :
  connected (initialize self).2 = connected self
  ∨ connected (initialize self).2 = true.
Proof.
  unfold initialize. run_method.
  destruct (connect_to_index (vector_store self)) as [[[|] | e] vs]; cbn; auto.
Qed.

(** C10: every query-time operation of a retrieval system leaves its
    [connected] flag as it was, whether it returns or raises, and so does
    any sequence of them; [initialize] either leaves the flag or sets it,
    so the flag never goes from true to false. *)
Theorem connected_flag_frame :
  (∀ op self, connected (perform op self).2 = connected self)
  ∧ (∀ ops self, connected (after_operations ops self) = connected self)
  ∧ (∀ self, connected (initialize self).2 ≠ connected self →
       connected self = false ∧ connected (initialize self).2 = true).
Proof.
  split; [exact perform_connected |]. split.
  - intros ops. induction ops as [| op ops IH]; intros self; [reflexivity |].
    unfold after_operations in *. cbn [foldl]. now rewrite IH, perform_connected.
  - intros self Hchanged.
    destruct (initialize_connected self) as [Hsame | Hset]; [congruence |].
    split; [| exact Hset].
    destruct (connected self); [congruence | reflexivity].
Qed.
End RetrievalProperties.

(** ** Closed instances *)

(** C2 fails as stated: with a budget of 10 characters and one retrieved
    document whose preview is ["hello world"], the returned context text is
    the 39-character header followed by the 14-character truncation marker,
    53 characters in all. *)
Lemma context_text_exceeds_small_budget :
  ∃ bundle,
    @get_context_for_generation unit unit nat ascii_unicode
      (answering [match_of "doc_1_0" 900 (py "hello world") (py "a.pdf")])
      milli_format (py "k_epsilon") [] [] 10 connected_system
    = (Ok bundle, connected_system)
    ∧ context_text bundle
      = [10%N] ++ py "--- Document 1 (Relevance: 0.900) ---" ++ [10%N]
        ++ py "...[truncated]"
    ∧ ¬ len (context_text bundle) <= 10.
Proof.
  eexists. split; [vm_compute; reflexivity |].
  split; [vm_compute; reflexivity |].
  vm_compute. intros Hle. now apply Hle.
Qed.

Lemma context_text_within_budget_witness :
  ∃ bundle doc content,
    @get_context_for_generation unit unit nat ascii_unicode
      (answering long_match) milli_format (py "k_epsilon") [] [] 120 connected_system
    = (Ok bundle, connected_system)
    ∧ @retrieve_relevant_documents unit unit nat ascii_unicode
        (answering long_match) (py "k_epsilon") [] [] 8 connected_system
      = (Ok [doc], connected_system)
    ∧ content_preview doc = VStr content
    ∧ 120 < len (@document_header nat milli_format 0 doc) + len content
    ∧ len (context_text bundle) <= 120
    ∧ context_text bundle
      = @document_header nat milli_format 0 doc
        ++ slice_to content (120 - len (@document_header nat milli_format 0 doc) - 50)
        ++ py "...[truncated]".
Proof.
  eexists _, _, _. split; [vm_compute; reflexivity |].
  split; [vm_compute; reflexivity |]. split; [vm_compute; reflexivity |].
  split; [vm_compute; reflexivity |].
  edestruct (@context_text_within_budget unit unit nat ascii_unicode
               (answering long_match) milli_format (py "k_epsilon") [] [] 120
               connected_system connected_system) as [Hlen Hshape].
  - vm_compute. reflexivity.
  - vm_compute. reflexivity.
  - lia.
  - intros doc content [= <-] _. right. vm_compute. discriminate.
  - split; [exact Hlen |].
    edestruct Hshape as (_ & Htext & _);
      [reflexivity | vm_compute; reflexivity | vm_compute; reflexivity | exact Htext].
Defined.

(** With a budget of 100 characters the first of three ranked candidates
    (50 characters with its header) is packed, the second (119) does not
    fit, and the third, which alone would fit, is not considered. *)
Lemma packing_is_rank_prioritized_witness :
  ∃ bundle,
    @get_context_for_generation unit unit nat ascii_unicode
      (answering ranked_matches) milli_format (py "k_epsilon") [] [] 100
      connected_system
    = (Ok bundle, connected_system)
    ∧ total_documents bundle = 1
    ∧ ∃ documents,
        @retrieve_relevant_documents unit unit nat ascii_unicode
          (answering ranked_matches) (py "k_epsilon") [] [] 8 connected_system
        = (Ok documents, connected_system)
        ∧ (∀ k, @included nat milli_format 100 documents bundle k
                ↔ (k < length documents)%nat ∧ Z.of_nat k < total_documents bundle)
        ∧ ∀ i j, (i < j)%nat →
            ¬ @included nat milli_format 100 documents bundle i →
            ¬ @included nat milli_format 100 documents bundle j.
Proof.
  eexists. split; [vm_compute; reflexivity |].
  split; [vm_compute; reflexivity |].
  eapply (@packing_is_rank_prioritized unit unit nat ascii_unicode
            (answering ranked_matches) milli_format (py "k_epsilon") [] [] 100
            connected_system connected_system).
  vm_compute. reflexivity.
Defined.

Lemma context_bundle_well_formed_witness :
  ∃ bundle,
    @get_context_for_generation unit unit nat ascii_unicode
      (answering ranked_matches) milli_format (py "k_epsilon") [] [] 4000
      connected_system
    = (Ok bundle, connected_system)
    ∧ sources bundle = [VStr (py "a.pdf"); VStr (py "b.pdf"); VStr (py "c.pdf")]
    ∧ relevance_scores bundle = [900; 700; 500]%nat
    ∧ len (sources bundle) = total_documents bundle
    ∧ len (relevance_scores bundle) = total_documents bundle
    ∧ ∃ documents (n : nat) (parts : list str),
        @retrieve_relevant_documents unit unit nat ascii_unicode
          (answering ranked_matches) (py "k_epsilon") [] [] 8 connected_system
        = (Ok documents, connected_system)
        ∧ (n <= length documents)%nat
        ∧ total_documents bundle = Z.of_nat n
        ∧ sources bundle = source <$> take n documents
        ∧ relevance_scores bundle = relevance_score <$> take n documents
        ∧ context_text bundle = concat parts
        ∧ length parts = n
        ∧ ∀ k doc, take n documents !! k = Some doc →
            ∃ part, parts !! k = Some part
                    ∧ @embeds nat milli_format 4000 k doc part.
Proof.
  eexists. split; [vm_compute; reflexivity |].
  split; [vm_compute; reflexivity |].
  split; [vm_compute; reflexivity |].
  eapply (@context_bundle_well_formed unit unit nat ascii_unicode
            (answering ranked_matches) milli_format (py "k_epsilon") [] [] 4000
            connected_system connected_system).
  vm_compute. reflexivity.
Defined.

(** A provider failure gives no document, and from no document the empty
    bundle. *)
Lemma no_documents_empty_bundle_witness :
  @get_context_for_generation unit unit nat ascii_unicode embedding_down
    milli_format (py "k_epsilon") (py "airfoil flow") [] 4000 connected_system
  = (Ok {| context_text := []; sources := []; relevance_scores := [];
           total_documents := 0 |}, connected_system).
Proof.
  apply (@no_documents_empty_bundle unit unit nat ascii_unicode embedding_down
           milli_format).
  vm_compute. reflexivity.
Defined.

Lemma retrieve_relevant_documents_never_raises_witness :
  @retrieve_relevant_documents unit unit nat ascii_unicode embedding_down
    (py "k_epsilon") [] [] 5 connected_system = (Ok [], connected_system)
  ∧ @retrieve_relevant_documents unit unit nat ascii_unicode index_down
      (py "k_epsilon") [] [] 5 connected_system = (Ok [], connected_system)
  ∧ @retrieve_relevant_documents unit unit nat ascii_unicode
      (answering ranked_matches) (py "k_epsilon") [] [] 5 fresh_system
    = (Ok [], fresh_system).
Proof.
  split; [| split].
  - destruct (@retrieve_relevant_documents_never_raises unit unit nat
                ascii_unicode embedding_down (py "k_epsilon") [] [] 5
                connected_system) as (documents & Hrun & _ & Hembedding & _).
    rewrite Hrun. now rewrite (Hembedding ProviderError eq_refl).
  - destruct (@retrieve_relevant_documents_never_raises unit unit nat
                ascii_unicode index_down (py "k_epsilon") [] [] 5
                connected_system) as (documents & Hrun & _ & _ & Hindex).
    rewrite Hrun. now rewrite (Hindex () () ProviderError eq_refl eq_refl eq_refl).
  - destruct (@retrieve_relevant_documents_never_raises unit unit nat
                ascii_unicode (answering ranked_matches) (py "k_epsilon") [] [] 5
                fresh_system) as (documents & Hrun & Hoff & _).
    rewrite Hrun. now rewrite (Hoff eq_refl).
Defined.

(** C9 fails as stated: for a hit with no metadata, [source] and
    [document_type] are ["Unknown"], while [chunk_info] is
    [{'index': 0, 'total': 1}], neither field the string ["Unknown"]. *)
Lemma chunk_info_defaults_are_numbers :
  ∃ doc,
    @retrieve_relevant_documents unit unit nat ascii_unicode
      (answering [bare_match]) (py "k_epsilon") [] [] 5 connected_system
    = (Ok [doc], connected_system)
    ∧ source doc = VStr (py "Unknown")
    ∧ document_type doc = VStr (py "Unknown")
    ∧ chunk_info doc = {| ci_index := VInt 0; ci_total := VInt 1 |}
    ∧ ci_index (chunk_info doc) ≠ VStr (py "Unknown")
    ∧ ci_total (chunk_info doc) ≠ VStr (py "Unknown").
Proof.
  eexists. split; [vm_compute; reflexivity |].
  repeat split; try (vm_compute; reflexivity); vm_compute; discriminate.
Qed.

Lemma retrieved_metadata_defaults_witness :
  ∃ documents,
    @retrieve_relevant_documents unit unit nat ascii_unicode
      (answering [bare_match]) (py "k_epsilon") [] [] 5 connected_system
    = (Ok documents, connected_system)
    ∧ Forall2
        (λ m doc,
           field_of (m_metadata m) (py "source") (VStr (py "Unknown")) (source doc)
           ∧ field_of (m_metadata m) (py "type") (VStr (py "Unknown"))
               (document_type doc)
           ∧ field_of (m_metadata m) (py "chunk_index") (VInt 0)
               (ci_index (chunk_info doc))
           ∧ field_of (m_metadata m) (py "total_chunks") (VInt 1)
               (ci_total (chunk_info doc)))
        [bare_match] documents.
Proof.
  apply (@retrieved_metadata_defaults unit unit nat ascii_unicode
           (answering [bare_match]) (py "k_epsilon") [] [] 5 connected_system
           () () [bare_match]); reflexivity.
Defined.

(** ** The chunker *)

Section ChunkerProperties.
Abbreviation blank s := (Forall (λ c, isspace c = true) s).

Lemma lstrip_nil (s : str) : lstrip s = [] ↔ blank s.
Proof.
  induction s as [| c s IH]; simpl.
  - split; [constructor | reflexivity].
  - destruct (isspace c) eqn:Hc.
    + rewrite IH. split; [now constructor | now inversion 1].
    + split; [discriminate | inversion 1; congruence].
Qed.

Lemma lstrip_blank_nil (s : str) : blank (lstrip s) → lstrip s = [].
Proof.
  induction s as [| c s IH]; simpl; [reflexivity |].
  destruct (isspace c) eqn:Hc; [exact IH |].
  inversion 1; congruence.
Qed.

Lemma strip_nil (s : str) : strip s = [] ↔ blank s.
Proof.
  unfold strip, rstrip. split.
  - intros Hnil. apply lstrip_nil, lstrip_blank_nil.
    apply (f_equal reverse) in Hnil. rewrite reverse_involutive in Hnil.
    apply lstrip_nil in Hnil. exact (proj1 (Forall_reverse _ _) Hnil).
  - intros Hblank. apply lstrip_nil in Hblank. now rewrite Hblank.
Qed.

Lemma strip_blank_nil (s : str) : blank (strip s) → strip s = [].
Proof.
  unfold strip, rstrip. intros Hblank.
  apply Forall_reverse, lstrip_blank_nil in Hblank. now rewrite Hblank.
Qed.

Lemma sub_whitespace_from_blank (in_run : bool) (text : str) :
  blank (sub_whitespace_from in_run text) ↔ blank text.
Proof.
  revert in_run. induction text as [| c text IH]; intros in_run; simpl.
  - reflexivity.
  - destruct (isspace c) eqn:Hc.
    + rewrite Forall_app, IH. split.
      * intros [_ Htext]. now constructor.
      * inversion 1; subst. split; [| assumption].
        destruct in_run; repeat constructor.
    + split; inversion 1; congruence.
Qed.

Lemma sub_whitespace_from_no_newline (in_run : bool) (text : str) :
  10%N ∉ sub_whitespace_from in_run text.
Proof.
  revert in_run. induction text as [| c text IH]; intros in_run; simpl.
  - apply not_elem_of_nil.
  - destruct (isspace c) eqn:Hc.
    + apply not_elem_of_app. split; [| apply IH].
      destruct in_run; [apply not_elem_of_nil |].
      intros Hin. apply list_elem_of_singleton in Hin. discriminate.
    + apply not_elem_of_cons. split; [| apply IH].
      intros <-. discriminate.
Qed.

Lemma sub_blank_run_no_newline (run : str) :
  10%N ∉ run → sub_blank_run run = run.
Proof.
  induction run as [| c run IH]; simpl; [reflexivity |].
  intros [Hc Hrun]%not_elem_of_cons.
  destruct (N.eqb_spec c 10) as [-> | _]; [congruence |].
  now rewrite IH.
Qed.

Lemma sub_blank_from_no_newline (text : str) :
  ∀ run, 10%N ∉ run → 10%N ∉ text → sub_blank_from run text = run ++ text.
Proof.
  induction text as [| c text IH]; intros run Hrun Htext; simpl.
  - rewrite app_nil_r. now apply sub_blank_run_no_newline.
  - apply not_elem_of_cons in Htext as [Hc Htext].
    destruct (isspace c).
    + rewrite IH, <- app_assoc; [reflexivity | | assumption].
      apply not_elem_of_app. split; [assumption |].
      intros Hin. apply list_elem_of_singleton in Hin. congruence.
    + rewrite sub_blank_run_no_newline by assumption.
      rewrite (IH []); [reflexivity | apply not_elem_of_nil | assumption].
Qed.

(** After the first substitution no newline is left, so the second one
    changes nothing. *)
Lemma clean_text_collapses (text : str) :
  _clean_text text = strip (sub_whitespace text).
Proof.
  unfold _clean_text, sub_blank_lines, sub_whitespace.
  rewrite sub_blank_from_no_newline;
    [reflexivity | apply not_elem_of_nil | apply sub_whitespace_from_no_newline].
Qed.

Lemma clean_text_truthy (text : str) :
  truthy (_clean_text text) = truthy (strip text).
Proof.
  rewrite clean_text_collapses.
  destruct (truthy (strip text)) eqn:Hraw.
  - destruct (truthy (strip (sub_whitespace text))) eqn:Hclean; [reflexivity |].
    apply truthy_false, strip_nil, sub_whitespace_from_blank, strip_nil in Hclean.
    rewrite Hclean in Hraw. discriminate.
  - apply truthy_false, strip_nil in Hraw.
    apply truthy_false, strip_nil, sub_whitespace_from_blank, Hraw.
Qed.

(** The texts of the chunks are the splitter's pieces of the text as
    given, unless the text is blank. *)
Lemma chunk_text_pieces (self : DocumentProcessor) (text : str)
    (metadata : option (gmap str value)) :
  c_text <$> chunk_text self text metadata
  = (if truthy (strip text) then text_splitter self text else []).
Proof.
  unfold chunk_text.
  destruct (truthy (strip text)); cbn [negb]; [| reflexivity].
  rewrite fmap_imap.
  change (imap _ (text_splitter self text))
    with (imap (const id) (text_splitter self text)).
  now rewrite imap_const, list_fmap_id.
Qed.

(** Whenever the splitter tells a text from its normalized form, so does
    [chunk_text]. *)
Lemma chunk_text_follows_splitter (self : DocumentProcessor) (text : str)
    (metadata : option (gmap str value)) :
  truthy (strip text) = true →
  text_splitter self text ≠ text_splitter self (_clean_text text) →
  chunk_text self text metadata ≠ chunk_text self (_clean_text text) metadata.
Proof.
  intros Hraw Hsplit Heq. apply Hsplit.
  apply (f_equal (fmap c_text)) in Heq.
  rewrite !chunk_text_pieces, Hraw in Heq.
  destruct (truthy (strip (_clean_text text))) eqn:Hclean; [exact Heq |].
  apply truthy_false, strip_nil in Hclean.
  rewrite clean_text_collapses in Hclean. apply strip_blank_nil in Hclean.
  rewrite <- clean_text_truthy, clean_text_collapses, Hclean in Hraw.
  discriminate.
Qed.

(** C8, amended: [chunk_text] does not normalize.  It returns no chunk
    when the normalized text is empty and otherwise the chunks hold the
    splitter's pieces of the text as given; the normalization
    [_clean_text] is the collapse of every run of white space, newlines
    included, to one space, followed by [strip]. *)
Theorem chunk_text_splits_raw_text (self : DocumentProcessor) (text : str)
    (metadata : option (gmap str value)) :
  c_text <$> chunk_text self text metadata
  = (if truthy (_clean_text text) then text_splitter self text else [])
  ∧ _clean_text text = strip (sub_whitespace text).
Proof.
  split; [| apply clean_text_collapses].
  rewrite clean_text_truthy. apply chunk_text_pieces.
Qed.
End ChunkerProperties.

(** C8 fails as stated: the text ["a  b"] (two spaces) is chunked as
    ["a  b"], its normalized form ["a b"] as ["a b"]. *)
Lemma chunk_text_keeps_raw_spacing :
  _clean_text (py "a  b") = py "a b"
  ∧ c_text <$> chunk_text default_processor (py "a  b") None = [py "a  b"]
  ∧ c_text <$> chunk_text default_processor (_clean_text (py "a  b")) None
    = [py "a b"]
  ∧ chunk_text default_processor (py "a  b") None
    ≠ chunk_text default_processor (_clean_text (py "a  b")) None.
Proof.
  split; [vm_compute; reflexivity |].
  split; [vm_compute; reflexivity |].
  split; [vm_compute; reflexivity |].
  intros Heq. apply (f_equal (fmap c_text)) in Heq.
  vm_compute in Heq. discriminate.
Qed.

(** * Further properties *)

(** ** Stripping, splitting and joining *)

Section Words.
Abbreviation nonspace c := (isspace c = false).

Lemma lstrip_app (r x : str) :
  lstrip (r ++ x) = match lstrip r with [] => lstrip x | l => l ++ x end.
Proof.
  induction r as [| c r IH]; cbn [app lstrip]; [now destruct (lstrip x) |].
  destruct (isspace c); [exact IH | reflexivity].
Qed.

Lemma rstrip_cons (a : char) (s : str) :
  rstrip (a :: s)
  = match rstrip s with
    | [] => if isspace a then [] else [a]
    | r => a :: r
    end.
Proof.
  unfold rstrip. rewrite reverse_cons, lstrip_app.
  destruct (lstrip (reverse s)) as [| c l] eqn:Hl.
  - cbn. destruct (isspace a); reflexivity.
  - rewrite reverse_app, reverse_singleton. cbn [app].
    destruct (reverse (c :: l)) eqn:Hr; [| reflexivity].
    apply (f_equal reverse) in Hr. rewrite reverse_involutive in Hr. discriminate.
Qed.

Lemma rstrip_cons_nonspace (c : char) (s : str) :
  nonspace c → rstrip (c :: s) = c :: rstrip s.
Proof. intros Hc. rewrite rstrip_cons, Hc. now destruct (rstrip s). Qed.

Lemma rstrip_nil : rstrip [] = [].
Proof. reflexivity. Qed.

Lemma lstrip_idem (s : str) : lstrip (lstrip s) = lstrip s.
Proof.
  induction s as [| c s IH]; cbn [lstrip]; [reflexivity |].
  destruct (isspace c) eqn:Hc; [exact IH |]. cbn [lstrip]. now rewrite Hc.
Qed.

Lemma rstrip_idem (s : str) : rstrip (rstrip s) = rstrip s.
Proof. unfold rstrip. now rewrite reverse_involutive, lstrip_idem. Qed.

(** A string that does not start with white space still does not once its
    end is stripped. *)
Lemma lstrip_rstrip (s : str) : lstrip s = s → lstrip (rstrip s) = rstrip s.
Proof.
  destruct s as [| c s]; [reflexivity |]. cbn [lstrip].
  destruct (isspace c) eqn:Hc.
  - intros Hs. exfalso.
    assert (Hlen : (length (lstrip s) <= length s)%nat).
    { clear. induction s as [| d s IH]; cbn [lstrip]; [lia |].
      destruct (isspace d); cbn [length]; lia. }
    rewrite Hs in Hlen. cbn [length] in Hlen. lia.
  - intros _. rewrite rstrip_cons_nonspace by exact Hc. cbn [lstrip]. now rewrite Hc.
Qed.

Lemma strip_idem (s : str) : strip (strip s) = strip s.
Proof.
  unfold strip. rewrite (lstrip_rstrip (lstrip s)) by apply lstrip_idem.
  apply rstrip_idem.
Qed.

Lemma split_from_nonempty (text word : str) :
  word ≠ [] → split_from word text ≠ [].
Proof.
  revert word. induction text as [| c text IH]; intros word Hword; cbn [split_from].
  - destruct word; [congruence | discriminate].
  - destruct (isspace c).
    + destruct word; [congruence | discriminate].
    + apply IH. now destruct word.
Qed.

(** The two facts that tie [split] to the collapse of white space, proved
    together along the text. *)
Lemma join_split_from (text : str) :
  (∀ word, word ≠ [] →
     join [32%N] (split_from word text) = word ++ rstrip (sub_whitespace_from false text))
  ∧ rstrip (32%N :: sub_whitespace_from true text)
    = match split_from [] text with
      | [] => []
      | words => 32%N :: join [32%N] words
      end.
Proof.
  induction text as [| c text [IHword IHspace]]; cbn [split_from sub_whitespace_from].
  - split.
    + intros [| a word] Hword; [congruence |]. cbn. now rewrite app_nil_r.
    + reflexivity.
  - destruct (isspace c) eqn:Hc.
    + split.
      * intros [| a word] Hword; [congruence |].
        cbn [truthy app]. change ([32%N] ++ ?s) with (32%N :: s). rewrite IHspace.
        destruct (split_from [] text) as [| w ws]; cbn [join];
          [now rewrite app_nil_r | reflexivity].
      * cbn [truthy app]. exact IHspace.
    + split.
      * intros word Hword. rewrite IHword by now destruct word.
        rewrite rstrip_cons_nonspace by exact Hc. now rewrite <- app_assoc.
      * cbn [app]. rewrite rstrip_cons, rstrip_cons_nonspace by exact Hc.
        pose proof (IHword [c] ltac:(discriminate)) as Hjoin.
        destruct (split_from [c] text) as [| w ws] eqn:Hsplit.
        { exfalso. eapply (split_from_nonempty text [c]); [discriminate | exact Hsplit]. }
        now rewrite Hjoin.
Qed.

Lemma strip_collapsed_from_space (text : str) :
  rstrip (lstrip (sub_whitespace_from true text)) = join [32%N] (split_from [] text).
Proof.
  induction text as [| c text IH]; cbn [split_from sub_whitespace_from];
    [reflexivity |].
  destruct (isspace c) eqn:Hc; cbn [truthy app]; [exact IH |].
  cbn [lstrip]. rewrite Hc, rstrip_cons_nonspace by exact Hc.
  now rewrite (proj1 (join_split_from text) [c]) by discriminate.
Qed.

Lemma strip_collapsed (text : str) :
  strip (sub_whitespace text) = join [32%N] (split text).
Proof.
  unfold strip, sub_whitespace, split.
  destruct text as [| c text]; [reflexivity |].
  cbn [split_from sub_whitespace_from].
  destruct (isspace c) eqn:Hc; cbn [truthy app].
  - change (lstrip (32%N :: ?s)) with (lstrip s). apply strip_collapsed_from_space.
  - cbn [lstrip]. rewrite Hc, rstrip_cons_nonspace by exact Hc.
    now rewrite (proj1 (join_split_from text) [c]) by discriminate.
Qed.

Lemma clean_text_join_split (text : str) :
  _clean_text text = join [32%N] (split text).
Proof. rewrite clean_text_collapses. apply strip_collapsed. Qed.

(** The words [split] returns are not empty and hold no white space. *)

Lemma flush_word (acc : str) :
  Forall (λ c, nonspace c) acc →
  Forall is_word (if truthy acc then [acc] else []).
Proof.
  intros Hacc. destruct acc as [| a acc]; cbn [truthy]; [constructor |].
  constructor; [| constructor]. split; [discriminate | assumption].
Qed.


Lemma split_from_words (text : str) :
  ∀ acc, Forall (λ c, nonspace c) acc → Forall is_word (split_from acc text).
Proof.
  induction text as [| c text IH]; intros acc Hacc; cbn [split_from].
  - now apply flush_word.
  - destruct (isspace c) eqn:Hc.
    + apply Forall_app. split; [now apply flush_word | apply IH; constructor].
    + apply IH. apply Forall_app. split; [assumption | now repeat constructor].
Qed.

Lemma split_words (text : str) : Forall is_word (split text).
Proof. apply split_from_words. constructor. Qed.

Lemma split_from_app_word (w s acc : str) :
  Forall (λ c, nonspace c) w → split_from acc (w ++ s) = split_from (acc ++ w) s.
Proof.
  revert acc. induction w as [| c w IH]; intros acc Hw; cbn [app split_from].
  - now rewrite app_nil_r.
  - inversion Hw as [| ? ? Hc Hw']; subst. rewrite Hc, IH by assumption.
    now rewrite <- app_assoc.
Qed.

Lemma split_join_words (words : list str) :
  Forall is_word words → split (join [32%N] words) = words.
Proof.
  unfold split. induction 1 as [| w words [Hne Hw] Hwords IH]; [reflexivity |].
  cbn [join]. destruct words as [| w' words'].
  - rewrite <- (app_nil_r w) at 1. rewrite split_from_app_word by assumption.
    cbn [app split_from]. now destruct w.
  - rewrite split_from_app_word by assumption. cbn [app split_from].
    change (isspace 32%N) with true. cbv iota. rewrite IH. now destruct w.
Qed.

Lemma filter_reverse {A} (f : A → bool) (l : list A) :
  List.filter f (reverse l) = reverse (List.filter f l).
Proof.
  induction l as [| a l IH]; [reflexivity |].
  rewrite reverse_cons, List.filter_app, IH. cbn [List.filter].
  destruct (f a); [now rewrite reverse_cons | now rewrite app_nil_r].
Qed.

Lemma filter_lstrip (s : str) :
  List.filter (λ c, negb (isspace c)) (lstrip s)
  = List.filter (λ c, negb (isspace c)) s.
Proof.
  induction s as [| c s IH]; cbn [lstrip List.filter]; [reflexivity |].
  destruct (isspace c) eqn:Hc; cbn [negb]; [exact IH |].
  cbn [List.filter]. now rewrite Hc.
Qed.

Lemma filter_strip (s : str) :
  List.filter (λ c, negb (isspace c)) (strip s)
  = List.filter (λ c, negb (isspace c)) s.
Proof.
  unfold strip, rstrip.
  rewrite filter_reverse, filter_lstrip, filter_reverse, reverse_involutive.
  apply filter_lstrip.
Qed.

Lemma filter_sub_whitespace_from (in_run : bool) (text : str) :
  List.filter (λ c, negb (isspace c)) (sub_whitespace_from in_run text)
  = List.filter (λ c, negb (isspace c)) text.
Proof.
  revert in_run. induction text as [| c text IH]; intros in_run;
    cbn [sub_whitespace_from List.filter]; [reflexivity |].
  destruct (isspace c) eqn:Hc; cbn [negb].
  - rewrite List.filter_app, IH. now destruct in_run.
  - cbn [List.filter]. now rewrite Hc, IH.
Qed.

End Words.

(** ** Normalization of text ([DocumentProcessor._clean_text]) *)

(** X1: [_clean_text(text)] is [" ".join(text.split())]: the words of the
    text, in order, separated by one space. *)
Theorem clean_text_is_join_of_split (text : str) :
  _clean_text text = join (py " ") (split text).
Proof. apply clean_text_join_split. Qed.

Lemma clean_text_twice (text : str) :
  _clean_text (_clean_text text) = _clean_text text.
Proof.
  rewrite !clean_text_join_split.
  now rewrite split_join_words by apply split_words.
Qed.

(** X2: [_clean_text] is idempotent: a cleaned text is left as it is. *)
Theorem clean_text_idempotent (text : str) :
  _clean_text (_clean_text text) = _clean_text text.
Proof. apply clean_text_twice. Qed.

(** X3: [_clean_text] touches white space only: the characters that are
    not white space are kept, all of them and in their order. *)
Theorem clean_text_keeps_other_characters (text : str) :
  List.filter (λ c, negb (isspace c)) (_clean_text text)
  = List.filter (λ c, negb (isspace c)) text.
Proof.
  rewrite clean_text_collapses, filter_strip. apply filter_sub_whitespace_from.
Qed.

(** ** The registry and the queries built from it *)

Lemma dict_get_is_Some {V} (d : list (str * V)) (key : str) :
  is_Some (dict_get d key) ↔ key ∈ d.*1.
Proof.
  induction d as [| [k v] d IH]; cbn [dict_get fmap list_fmap fst].
  - split; [intros [? [=]] | inversion 1].
  - destruct (decide (k = key)) as [-> | Hne].
    + split; [intros _; apply elem_of_cons; now left | eauto].
    + rewrite IH. split.
      * intros Hin. apply elem_of_cons. now right.
      * intros [-> | Hin]%elem_of_cons; [congruence | exact Hin].
Qed.

Lemma validate_model_get_model (model_name : str) :
  validate_model model_name = true ↔ is_Some (get_model model_name).
Proof.
  unfold validate_model, get_model, get_model_names.
  rewrite bool_decide_eq_true. symmetry. apply dict_get_is_Some.
Qed.

Lemma get_model_parameters_unknown (model_name : str) :
  get_model_parameters model_name = [] ↔ get_model model_name = None.
Proof.
  unfold get_model_parameters, get_model, TURBULENCE_MODELS. cbn [dict_get].
  repeat (destruct (decide _) as [_ | _]; [split; discriminate |]).
  split; reflexivity.
Qed.

(** X4: the three lookups of the registry agree: [validate_model] accepts
    exactly the names [get_model] resolves, a resolved model carries the
    name it was asked by, and [get_model_parameters] gives no parameter
    exactly for the names the registry does not know. *)
Theorem validate_model_agrees_with_get_model (model_name : str) :
  (validate_model model_name = true ↔ is_Some (get_model model_name))
  ∧ (validate_model model_name = false ↔ get_model model_name = None)
  ∧ (∀ model, get_model model_name = Some model → name model = model_name)
  ∧ (get_model_parameters model_name = [] ↔ get_model model_name = None).
Proof.
  split; [apply validate_model_get_model |]. split; [| split].
  - rewrite <- not_true_iff_false, validate_model_get_model, <- eq_None_not_Some.
    reflexivity.
  - unfold get_model, TURBULENCE_MODELS. cbn [dict_get].
    intros model.
    repeat (destruct (decide _) as [<- | _]; [now intros [= <-] |]).
    discriminate.
  - apply get_model_parameters_unknown.
Qed.


Section QueryMore.
Context `{Unicode}.

Lemma spaced_from_take (n : nat) (s : str) :
  ∀ after_space, spaced_from after_space s = true →
                 spaced_from after_space (take n s) = true.
Proof.
  revert n. induction s as [| c s IH]; intros [| n] after_space;
    cbn [take spaced_from]; try reflexivity.
  destruct (isspace c); [| apply IH].
  intros [[Hc Hb]%andb_prop Hs]%andb_prop. now rewrite Hc, Hb, IH.
Qed.

Lemma spaced_from_word_app (w s : str) (after_space : bool) :
  is_word w → spaced_from after_space (w ++ s) = spaced_from false s.
Proof.
  intros [Hne Hw]. revert after_space.
  induction w as [| c w IH]; intros after_space; [congruence |].
  inversion Hw as [| ? ? Hc Hw']; subst.
  cbn [app spaced_from]. rewrite Hc.
  destruct w as [| d w]; [reflexivity | apply IH; [discriminate | assumption]].
Qed.

Lemma spaced_join_words (words : list str) :
  Forall is_word words → single_spaced (join [32%N] words) = true.
Proof.
  unfold single_spaced.
  induction 1 as [| w words Hw Hwords IH]; [reflexivity |].
  cbn [join]. destruct words as [| w' words'].
  - rewrite <- (app_nil_r w). now rewrite spaced_from_word_app.
  - rewrite spaced_from_word_app by assumption.
    cbn [app spaced_from]. change (isspace 32%N) with true. cbv iota.
    now rewrite IH.
Qed.

Lemma elem_of_join (c : char) (sep : str) (parts : list str) :
  c ∈ join sep parts → c ∈ sep ∨ ∃ p, p ∈ parts ∧ c ∈ p.
Proof.
  induction parts as [| p parts IH]; cbn [join]; [inversion 1 |].
  destruct parts as [| q parts].
  - intros Hc. right. exists p. split; [apply elem_of_cons; now left | exact Hc].
  - intros [Hc | [Hc | Hc]%elem_of_app]%elem_of_app.
    + right. exists p. split; [apply elem_of_cons; now left | exact Hc].
    + now left.
    + destruct (IH Hc) as [Hsep | (p' & Hp' & Hc')]; [now left |].
      right. exists p'. split; [apply elem_of_cons; now right | exact Hc'].
Qed.

Lemma elem_of_split_from (c : char) (w : str) (s : str) :
  ∀ acc, w ∈ split_from acc s → c ∈ w → c ∈ acc ∨ c ∈ s.
Proof.
  induction s as [| d s IH]; intros acc; cbn [split_from].
  - destruct acc as [| a acc]; cbn [truthy]; [inversion 1 |].
    intros ->%list_elem_of_singleton Hc. now left.
  - destruct (isspace d).
    + intros [Hw | Hw]%elem_of_app Hc.
      * destruct acc as [| a acc]; cbn [truthy] in Hw; [inversion Hw |].
        apply list_elem_of_singleton in Hw as ->. now left.
      * destruct (IH [] Hw Hc) as [Hnil | Hs]; [inversion Hnil |].
        right. apply elem_of_cons. now right.
    + intros Hw Hc. destruct (IH _ Hw Hc) as [[Hacc | Hd]%elem_of_app | Hs].
      * now left.
      * apply list_elem_of_singleton in Hd as ->. right. apply elem_of_cons. now left.
      * right. apply elem_of_cons. now right.
Qed.

Lemma replace_removes (old : char) (new s : str) :
  old ∉ new → old ∉ replace old new s.
Proof.
  intros Hnew. unfold replace. intros Hin.
  apply list_elem_of_bind in Hin as (c & Hin & _).
  destruct (N.eqb_spec c old) as [Heq | Hne].
  - now apply Hnew.
  - apply list_elem_of_singleton in Hin. congruence.
Qed.

(** X5: the query built for a registered model is normalized: it holds no
    underscore, and its only white space is single spaces, none of them
    at the start and no two in a row. *)
Theorem registered_query_is_normalized
    (turbulence_model user_description focus_area : str) :
  validate_model turbulence_model = true →
  (95%N ∉ construct_search_query turbulence_model user_description focus_area)
  ∧ single_spaced
      (construct_search_query turbulence_model user_description focus_area) = true.
Proof.
  intros [model_info Hmodel]%validate_model_get_model.
  unfold construct_search_query. rewrite Hmodel. cbv zeta.
  match goal with |- context [split ?q] => set (query := q) end.
  change (py " ") with [32%N].
  unfold slice_to. change (500 <? 0) with false. cbv iota.
  split.
  - intros Hin. apply elem_of_take in Hin as (i & Hin & _).
    apply list_elem_of_lookup_2 in Hin.
    apply elem_of_join in Hin as [Hsep | (w & Hw & Hc)].
    + apply list_elem_of_singleton in Hsep. discriminate.
    + destruct (elem_of_split_from _ _ _ _ Hw Hc) as [Hnil | Hq]; [inversion Hnil |].
      revert Hq. apply replace_removes.
      intros Hsep. apply list_elem_of_singleton in Hsep. discriminate.
  - apply spaced_from_take. apply spaced_join_words, split_words.
Qed.

(** X6: for a registered model, white space around the description and
    around the focus area does not change the query. *)
Theorem registered_query_ignores_outer_whitespace
    (turbulence_model user_description focus_area : str) :
  validate_model turbulence_model = true →
  construct_search_query turbulence_model (strip user_description) (strip focus_area)
  = construct_search_query turbulence_model user_description focus_area.
Proof.
  intros [model_info Hmodel]%validate_model_get_model.
  unfold construct_search_query. rewrite Hmodel. now rewrite !strip_idem.
Qed.

(** A query for a model that [validate_model] accepts has at most 500
    characters. *)
Lemma validated_query_within_limit
    (turbulence_model user_description focus_area : str) :
  validate_model turbulence_model = true →
  len (construct_search_query turbulence_model user_description focus_area) <= 500.
Proof.
  intros Hvalid%validate_model_get_model.
  now apply construct_search_query_known_bounded.
Qed.

(** For a model name that [validate_model] rejects the query is the
    name, the fixed words and the description as given; the focus area is
    not used and nothing is trimmed or cut. *)
Lemma rejected_model_fallback_query
    (turbulence_model user_description focus_area : str) :
  validate_model turbulence_model = false →
  construct_search_query turbulence_model user_description focus_area
  = turbulence_model ++ py " turbulence model parameters " ++ user_description.
Proof.
  intros Hrejected.
  assert (Hnone : get_model turbulence_model = None).
  { destruct (get_model turbulence_model) eqn:Hmodel; [| reflexivity].
    assert (Hvalid : validate_model turbulence_model = true)
      by (apply validate_model_get_model; eauto).
    congruence. }
  unfold construct_search_query. now rewrite Hnone.
Qed.

Lemma startswith_app (prefix s : str) : startswith (prefix ++ s) prefix = true.
Proof.
  induction prefix as [| p prefix IH]; [now destruct s |].
  cbn [app startswith]. now rewrite N.eqb_refl, IH.
Qed.

Lemma contains_startswith (s needle : str) :
  startswith s needle = true → contains s needle = true.
Proof. intros Hstart. destruct s; cbn [contains]; now rewrite Hstart. Qed.

Lemma contains_app_r (a s needle : str) :
  contains s needle = true → contains (a ++ s) needle = true.
Proof.
  intros Hs. induction a as [| c a IH]; [exact Hs |].
  cbn [app contains]. rewrite IH. apply orb_true_r.
Qed.

Lemma contains_join (sep phrase : str) (parts : list str) :
  phrase ∈ parts → contains (join sep parts) phrase = true.
Proof.
  induction parts as [| p parts IH]; [inversion 1 |].
  intros [-> | Hin]%elem_of_cons; cbn [join]; destruct parts as [| q parts].
  - apply contains_startswith. rewrite <- (app_nil_r p) at 1. apply startswith_app.
  - apply contains_startswith, startswith_app.
  - inversion Hin.
  - now apply contains_app_r, contains_app_r, IH.
Qed.

Lemma expanded_terms_none (table : list (str * list str)) (query_lower : str) :
  (∀ term synonyms, (term, synonyms) ∈ table → contains query_lower term = false) →
  expanded_terms table query_lower = [].
Proof.
  induction table as [| [term synonyms] table IH]; intros Hnone; [reflexivity |].
  cbn [expanded_terms].
  rewrite (Hnone term synonyms) by (apply elem_of_cons; now left).
  apply IH. intros term' synonyms' Hin. apply (Hnone term' synonyms').
  apply elem_of_cons. now right.
Qed.

Lemma expanded_terms_nil_inv (table : list (str * list str)) (query_lower : str) :
  expanded_terms table query_lower = [] →
  ∀ term synonyms, (term, synonyms) ∈ table → take 2 synonyms ≠ [] →
                   contains query_lower term = false.
Proof.
  induction table as [| [term' synonyms'] table IH]; intros Hnil term synonyms Hin Hsyn;
    [inversion Hin |].
  cbn [expanded_terms] in Hnil. apply app_eq_nil in Hnil as [Hhead Htail].
  apply elem_of_cons in Hin as [[= -> ->] | Hin].
  - destruct (contains query_lower term'); [congruence | reflexivity].
  - now apply (IH Htail term synonyms).
Qed.

Lemma expansions_have_synonyms :
  Forall (λ entry : str * list str, take 2 entry.2 ≠ []) expansions.
Proof. unfold expansions. repeat constructor; discriminate. Qed.

(** X7: [expand_query_with_synonyms] only appends, and it returns the
    query unchanged exactly when no anchor of the table occurs in the
    lower-cased query. *)
Theorem expand_query_unchanged_iff_no_anchor (base_query : str) :
  (∃ appended, expand_query_with_synonyms base_query = base_query ++ appended)
  ∧ (expand_query_with_synonyms base_query = base_query
     ↔ ∀ term synonyms, (term, synonyms) ∈ expansions →
                        contains (lower base_query) term = false).
Proof.
  split; [apply expand_query_keeps_base |].
  unfold expand_query_with_synonyms. cbv zeta. split.
  - intros Hsame term synonyms Hin.
    destruct (expanded_terms expansions (lower base_query)) as [| phrase phrases] eqn:Hterms.
    + apply (expanded_terms_nil_inv _ _ Hterms term synonyms Hin).
      exact (proj1 (Forall_forall _ _) expansions_have_synonyms _ Hin).
    + cbn [truthy] in Hsame. apply (f_equal length) in Hsame.
      rewrite !length_app in Hsame. cbn [py length fmap list_fmap] in Hsame.
      change (length (py " ")) with 1%nat in Hsame. lia.
  - intros Hnone. now rewrite expanded_terms_none.
Qed.

(** X8: when an anchor of the table occurs in the lower-cased query, each
    of the first two phrases of its entry occurs in the expanded query. *)
Theorem found_anchor_phrases_appear
    (base_query term phrase : str) (synonyms : list str) :
  (term, synonyms) ∈ expansions →
  contains (lower base_query) term = true →
  phrase ∈ take 2 synonyms →
  contains (expand_query_with_synonyms base_query) phrase = true.
Proof.
  intros Hentry Hfound Hphrase.
  pose proof (expanded_terms_found _ _ _ _ _ Hentry Hfound Hphrase) as Hin.
  unfold expand_query_with_synonyms. cbv zeta.
  destruct (expanded_terms expansions (lower base_query)) as [| p ps] eqn:Hterms;
    [inversion Hin |].
  cbn [truthy]. now apply contains_app_r, contains_app_r, contains_join.
Qed.

(** The entry of the upper-case anchor ['SST'] never contributes: for
    a query whose lower-cased form holds no capital S, the phrases
    appended are those the table without that entry gives. *)
Lemma SST_entry_never_contributes (base_query : str) :
  83%N ∉ lower base_query →
  expanded_terms expansions (lower base_query)
  = expanded_terms
      (List.filter (λ entry, negb (bool_decide (entry.1 = py "SST"))) expansions)
      (lower base_query).
Proof. apply expand_query_ignores_SST. Qed.
End QueryMore.

Lemma validated_query_within_limit_witness :
  len (@construct_search_query ascii_unicode (py "k_omega_sst")
         (replicate 600 97%N) (py "separation")) <= 500.
Proof.
  apply (@validated_query_within_limit ascii_unicode). vm_compute. reflexivity.
Defined.

Lemma registered_query_is_normalized_witness :
  (95%N ∉ @construct_search_query ascii_unicode (py "k_epsilon")
            (py "  flow_over   airfoil ") (py "wall_function"))
  ∧ single_spaced
      (@construct_search_query ascii_unicode (py "k_epsilon")
         (py "  flow_over   airfoil ") (py "wall_function")) = true.
Proof.
  apply (@registered_query_is_normalized ascii_unicode). vm_compute. reflexivity.
Defined.

Lemma registered_query_ignores_outer_whitespace_witness :
  @construct_search_query ascii_unicode (py "k_epsilon")
    (strip (py "  airfoil flow ")) (strip (py " separation  "))
  = @construct_search_query ascii_unicode (py "k_epsilon")
      (py "  airfoil flow ") (py " separation  ").
Proof.
  apply (@registered_query_ignores_outer_whitespace ascii_unicode).
  vm_compute. reflexivity.
Defined.

Lemma rejected_model_fallback_query_witness :
  @construct_search_query ascii_unicode (py "les") (py " pipe flow ") (py "wall")
  = py "les" ++ py " turbulence model parameters " ++ py " pipe flow ".
Proof.
  apply (@rejected_model_fallback_query ascii_unicode). vm_compute. reflexivity.
Defined.

Lemma found_anchor_phrases_appear_witness :
  contains (@expand_query_with_synonyms ascii_unicode (py "Near Wall treatment"))
           (py "wall function") = false
  ∧ contains (@expand_query_with_synonyms ascii_unicode (py "Wall shear"))
             (py "near-wall") = true.
Proof.
  split; [vm_compute; reflexivity |].
  apply (@found_anchor_phrases_appear ascii_unicode (py "Wall shear") (py "wall")
           (py "near-wall") [py "near-wall"; py "wall treatment"; py "wall function"]).
  - unfold expansions. do 9 (apply elem_of_cons; right). apply elem_of_cons. now left.
  - vm_compute. reflexivity.
  - apply elem_of_cons. now left.
Defined.

Lemma SST_entry_never_contributes_witness :
  expanded_terms expansions (@lower ascii_unicode (py "k-omega SST"))
  = expanded_terms
      (List.filter (λ entry, negb (bool_decide (entry.1 = py "SST"))) expansions)
      (@lower ascii_unicode (py "k-omega SST")).
Proof.
  apply (@SST_entry_never_contributes ascii_unicode).
  apply ascii_lower_no_capital. lia.
Defined.

(** ** Connecting *)

Section RetrievalMore.
Context {Handle Embedding Score : Type}.
Context `{Unicode} `{@External Handle Embedding Score} `{@ScoreFormat Score}.

Lemma connect_to_index_run (self : VectorStore) :
  connect_to_index self
  = match list_index_names with
    | Ok names =>
        if bool_decide (index_name self ∈ names) then
          match open_index (index_name self) with
          | Ok handle => (Ok true, set_index (Some handle) self)
          | Raise _ => (Ok false, self)
          end
        else (Ok false, self)
    | Raise _ => (Ok false, self)
    end.
Proof.
  unfold connect_to_index. run_method.
  destruct list_index_names as [names | e]; cbn; [| reflexivity].
  destruct (bool_decide (index_name self ∈ names)); cbn; [| reflexivity].
  destruct (open_index (index_name self)); reflexivity.
Qed.


Lemma initialize_run (self : RetrievalSystem) :
  initialize self
  = match connect_to_index (vector_store self) with
    | (Ok true, vs) => (Ok true, {| vector_store := vs; connected := true |})
    | _ => (Ok false, self)
    end.
Proof.
  unfold initialize. run_method. rewrite connect_to_index_run.
  destruct self as [vs c]. cbn.
  destruct list_index_names as [names | e]; [| reflexivity].
  destruct (bool_decide (index_name vs ∈ names)); [| reflexivity].
  destruct (open_index (index_name vs)); reflexivity.
Qed.

(** X10: [initialize] never raises.  When it returns [True] the retriever
    is connected and its store holds an index handle; when it returns
    [False] the retriever is as it was. *)
Theorem initialize_outcome (self : RetrievalSystem) :
  ∃ ok self',
    initialize self = (Ok ok, self')
    ∧ (ok = true → connected self' = true ∧ is_Some (index (vector_store self')))
    ∧ (ok = false → self' = self).
Proof.
  rewrite initialize_run, connect_to_index_run.
  destruct list_index_names as [names | e]; [| eexists _, _; repeat split; congruence].
  destruct (bool_decide (index_name (vector_store self) ∈ names));
    [| eexists _, _; repeat split; congruence].
  destruct (open_index (index_name (vector_store self))) as [handle | e];
    eexists _, _; (split; [reflexivity |]); split; try congruence.
  intros _. cbn. eauto.
Qed.

Lemma get_index_stats_store (self : VectorStore) :
  (get_index_stats self).2 = self.
Proof.
  unfold get_index_stats. run_method.
  destruct (index self) as [handle |]; [| reflexivity].
  destruct (describe_index_stats handle); reflexivity.
Qed.

Lemma perform_unchanged (op : operation) (self : RetrievalSystem) :
  (perform op self).2 = self.
Proof.
  destruct op as [tm ud fa | tm ud fa top_k | tm ud fa max_len | q |];
    cbn [perform]; unfold fmap, M_fmap.
  - reflexivity.
  - unfold mbind, M_bind. now rewrite retrieve_relevant_documents_run.
  - unfold mbind, M_bind. rewrite get_context_for_generation_run.
    now destruct (pack_loop _ _ _ _).
  - reflexivity.
  - unfold get_system_status. run_method.
    destruct self as [vs [|]]; cbn; [| reflexivity].
    pose proof (get_index_stats_store vs) as Hstore.
    destruct (get_index_stats vs) as [[stats | e] vs']; cbn in *; now subst.
Qed.

(** X11: a query-time operation leaves the whole retriever as it was, the
    index handle of its store included, whether it returns or raises; so
    does any sequence of them. *)
Theorem query_operations_change_nothing :
  (∀ op self, (perform op self).2 = self)
  ∧ ∀ ops self, after_operations ops self = self.
Proof.
  split; [exact perform_unchanged |].
  intros ops. induction ops as [| op ops IH]; intros self; [reflexivity |].
  unfold after_operations in *. cbn [foldl]. now rewrite perform_unchanged, IH.
Qed.

(** X12: one document per match, in the order the index returned them,
    each with the id and the score of its match and with the match's
    ['text_preview'] as content, the empty string when it has none. *)
Theorem retrieved_documents_follow_matches
    (turbulence_model user_description focus_area : str) (top_k : Z)
    (self : RetrievalSystem) (handle : Handle) (query_embedding : Embedding)
    (matches : list Match) :
  connected self = true →
  index (vector_store self) = Some handle →
  embeddings_create
    (construct_search_query turbulence_model user_description focus_area)
  = Ok query_embedding →
  index_query handle query_embedding top_k = Ok matches →
  ∃ documents,
    retrieve_relevant_documents turbulence_model user_description focus_area
      top_k self = (Ok documents, self)
    ∧ doc_id <$> documents = m_id <$> matches
    ∧ relevance_score <$> documents = m_score <$> matches
    ∧ content_preview <$> documents
      = (λ m, default (VStr []) (m_metadata m !! py "text_preview")) <$> matches.
Proof.
  intros Hconnected Hindex Hembedding Hquery.
  eexists. split; [apply retrieve_relevant_documents_run |].
  unfold retrieved, matches_for.
  rewrite Hconnected, Hindex, Hembedding, Hquery.
  rewrite <- !list_fmap_compose. repeat split.
Qed.
End RetrievalMore.

Lemma retrieved_documents_follow_matches_witness :
  ∃ documents,
    @retrieve_relevant_documents unit unit nat ascii_unicode
      (answering ranked_matches) (py "k_epsilon") [] [] 5 connected_system
    = (Ok documents, connected_system)
    ∧ doc_id <$> documents = m_id <$> ranked_matches
    ∧ relevance_score <$> documents = m_score <$> ranked_matches
    ∧ content_preview <$> documents
      = (λ m, default (VStr []) (m_metadata m !! py "text_preview"))
          <$> ranked_matches.
Proof.
  apply (@retrieved_documents_follow_matches unit unit nat ascii_unicode
           (answering ranked_matches) (py "k_epsilon") [] [] 5 connected_system
           () () ranked_matches); reflexivity.
Defined.

Section LifeProperties.
Context {Handle Embedding Score : Type}.
Context `{Unicode} `{@ScoreFormat Score}.

(** X13: along any sequence of calls, [initialize] and query-time
    operations in any order and against any behaviour of the hosted
    services, a retriever that is connected holds an index handle, provided
    that this held at the start (as it does after [__init__]). *)
Theorem connected_retriever_holds_index
    (self self' : @RetrievalSystem Handle) :
  (connected self = true → is_Some (index (vector_store self))) →
  rtc (step (Embedding := Embedding) (Score := Score)) self self' →
  connected self' = true → is_Some (index (vector_store self')).
Proof.
  intros Hstart Hsteps. induction Hsteps as [| s1 s2 s3 Hstep _ IH]; [exact Hstart |].
  apply IH. destruct Hstep as [world s | world op s]; rename Hstart into Hstart'.
  - rewrite (@initialize_run _ _ _ world), (@connect_to_index_run _ _ _ world).
    destruct (@list_index_names _ _ _ world) as [names | e]; [| exact Hstart'].
    destruct (bool_decide (index_name (vector_store s) ∈ names)); [| exact Hstart'].
    destruct (@open_index _ _ _ world (index_name (vector_store s))) as [handle | e];
      [| exact Hstart'].
    intros _. cbn. eauto.
  - now rewrite perform_unchanged.
Qed.
End LifeProperties.

Lemma connected_retriever_holds_index_witness :
  is_Some (index (vector_store
    (@perform unit unit nat ascii_unicode index_down milli_format GetSystemStatus
       (@initialize unit unit nat (answering []) fresh_system).2).2)).
Proof.
  apply (@connected_retriever_holds_index unit unit nat ascii_unicode milli_format
           fresh_system).
  - discriminate.
  - eapply rtc_l; [apply (step_initialize (answering [])) |].
    eapply rtc_l; [apply (step_perform index_down GetSystemStatus) |].
    apply rtc_refl.
  - vm_compute. reflexivity.
Defined.

(** ** More on context packing *)

Section PackingMore.
Context {Handle Embedding Score : Type}.
Context `{Unicode} `{@External Handle Embedding Score} `{@ScoreFormat Score}.

Abbreviation textual doc := (∃ content, content_preview doc = VStr content).

Lemma pack_loop_raises (max_context_length : Z)
    (documents : list RetrievedDocument) :
  ∀ i st e,
    pack_loop max_context_length i documents st = Raise e →
    e = TypeError ∧ ∃ doc z, doc ∈ documents ∧ content_preview doc = VInt z.
Proof.
  induction documents as [| doc documents IH]; intros i st e; cbn [pack_loop];
    [discriminate |].
  destruct (content_preview doc) as [content | z] eqn:Hcontent.
  - destruct (_ >? _); [destruct (_ =? _); discriminate |].
    intros Hloop. destruct (IH _ _ _ Hloop) as (-> & doc' & z & Hin & Hz).
    split; [reflexivity |]. exists doc', z. split; [| exact Hz].
    apply elem_of_cons. now right.
  - intros [= <-]. split; [reflexivity |]. exists doc, z.
    split; [apply elem_of_cons; now left | exact Hcontent].
Qed.

Lemma retrieve_determines (tm ud fa : str) (top_k : Z)
    (self self' : RetrievalSystem) (documents : list RetrievedDocument) :
  retrieve_relevant_documents tm ud fa top_k self = (Ok documents, self') →
  self' = self ∧ documents = retrieved self tm ud fa top_k.
Proof. rewrite retrieve_relevant_documents_run. now intros [= <- <-]. Qed.

(** X14: [get_context_for_generation] leaves the retriever as it was and
    either returns a bundle or raises a [TypeError]; it raises only when
    the preview of some retrieved document is not a string. *)
Theorem get_context_returns_or_type_error
    (turbulence_model user_description focus_area : str) (max_context_length : Z)
    (self : RetrievalSystem) :
  ∃ documents,
    retrieve_relevant_documents turbulence_model user_description focus_area 8 self
    = (Ok documents, self)
    ∧ ((∃ bundle,
          get_context_for_generation turbulence_model user_description focus_area
            max_context_length self = (Ok bundle, self))
       ∨ (get_context_for_generation turbulence_model user_description focus_area
            max_context_length self = (Raise TypeError, self)
          ∧ ∃ doc z, doc ∈ documents ∧ content_preview doc = VInt z)).
Proof.
  eexists. split; [apply retrieve_relevant_documents_run |].
  rewrite get_context_for_generation_run.
  destruct (pack_loop _ _ _ _) as [st | e] eqn:Hloop; [left; eauto |].
  right. destruct (pack_loop_raises _ _ _ _ _ Hloop) as [-> Hdoc]. now split.
Qed.

Lemma len_whole_text_nonneg (i : nat) (documents : list RetrievedDocument) :
  0 <= len (whole_text i documents).
Proof. apply len_nonneg. Qed.

Lemma pack_loop_all_fit (max_context_length : Z)
    (documents : list RetrievedDocument) :
  Forall (λ doc, textual doc) documents →
  ∀ i st,
    current_length st + len (whole_text i documents) <= max_context_length →
    ∃ st',
      pack_loop max_context_length i documents st = Ok st'
      ∧ concat (context_parts st') = concat (context_parts st) ++ whole_text i documents
      ∧ st_sources st' = st_sources st ++ (source <$> documents)
      ∧ st_relevance_scores st'
        = st_relevance_scores st ++ (relevance_score <$> documents).
Proof.
  induction 1 as [| doc documents [content Hdoc] _ IH]; intros i st Hfit;
    cbn [pack_loop whole_text fmap list_fmap].
  - exists st. now rewrite !app_nil_r.
  - cbn [whole_text] in Hfit. rewrite Hdoc in *. rewrite !len_app in Hfit.
    pose proof (len_whole_text_nonneg (S i) documents) as Hrest.
    destruct (Z.gtb_spec (current_length st + len (document_header i doc)
                          + len content) max_context_length) as [Hover | _]; [lia |].
    edestruct (IH (S i)) as (st' & Hloop & Hparts & Hsrc & Hsc);
      [| exists st'; split; [exact Hloop |]].
    + cbn [include current_length]. lia.
    + cbn [include context_parts st_sources st_relevance_scores] in Hparts, Hsrc, Hsc.
      rewrite Hparts, Hsrc, Hsc, concat_app, <- !app_assoc. cbn [concat app].
      now rewrite app_nil_r, <- !app_assoc.
Qed.

(** X15: when all the retrieved documents, whole and with their headers,
    fit the budget together, all of them are included, untruncated and in
    rank order. *)
Theorem everything_fits_everything_included
    (turbulence_model user_description focus_area : str) (max_context_length : Z)
    (self self' : RetrievalSystem) (documents : list RetrievedDocument) :
  retrieve_relevant_documents turbulence_model user_description focus_area 8 self
  = (Ok documents, self') →
  Forall (λ doc, textual doc) documents →
  len (whole_text 0 documents) <= max_context_length →
  get_context_for_generation turbulence_model user_description focus_area
    max_context_length self
  = (Ok {| context_text := whole_text 0 documents;
           sources := source <$> documents;
           relevance_scores := relevance_score <$> documents;
           total_documents := len documents |}, self').
Proof.
  intros [-> ->]%retrieve_determines Htext Hfit.
  rewrite get_context_for_generation_run.
  destruct (pack_loop_all_fit max_context_length _ Htext 0%nat empty_pack)
    as (st & -> & Hparts & Hsrc & Hsc); [cbn [empty_pack current_length]; lia |].
  cbn [empty_pack context_parts st_sources st_relevance_scores concat app] in *.
  unfold bundle_of. rewrite join_nil, Hparts, Hsrc, Hsc.
  unfold len. now rewrite length_fmap.
Qed.

(** X16: when the first retrieved document does not fit whole, the bundle
    holds that document alone: its header, its preview cut at
    [max_context_length - len(header) - 50] and the truncation marker;
    no other candidate is considered. *)
Theorem first_document_truncated_alone
    (turbulence_model user_description focus_area : str) (max_context_length : Z)
    (self self' : RetrievalSystem) (doc : RetrievedDocument)
    (others : list RetrievedDocument) (content : str) :
  retrieve_relevant_documents turbulence_model user_description focus_area 8 self
  = (Ok (doc :: others), self') →
  content_preview doc = VStr content →
  max_context_length < len (document_header 0 doc) + len content →
  get_context_for_generation turbulence_model user_description focus_area
    max_context_length self
  = (Ok {| context_text :=
             document_header 0 doc
             ++ slice_to content
                  (max_context_length - len (document_header 0 doc) - 50)
             ++ py "...[truncated]";
           sources := [source doc];
           relevance_scores := [relevance_score doc];
           total_documents := 1 |}, self').
Proof.
  intros [-> Hdocs]%retrieve_determines Hcontent Hover.
  rewrite get_context_for_generation_run, <- Hdocs.
  cbn [pack_loop]. rewrite Hcontent. cbn [empty_pack current_length].
  destruct (Z.gtb_spec (0 + len (document_header 0 doc) + len content)
                       max_context_length) as [_ | Hfits]; [| lia].
  cbn [Z.eqb]. unfold bundle_of, include.
  cbn [context_parts st_sources st_relevance_scores app join].
  reflexivity.
Qed.

(** X17: a bundle returned for a retrieval that is not empty is not empty:
    at least the first document is in it. *)
Theorem nonempty_retrieval_nonempty_bundle
    (turbulence_model user_description focus_area : str) (max_context_length : Z)
    (self self' : RetrievalSystem) (documents : list RetrievedDocument)
    (bundle : ContextBundle) :
  retrieve_relevant_documents turbulence_model user_description focus_area 8 self
  = (Ok documents, self') →
  documents ≠ [] →
  get_context_for_generation turbulence_model user_description focus_area
    max_context_length self = (Ok bundle, self') →
  1 <= total_documents bundle
  ∧ ∃ doc, head documents = Some doc ∧ head (sources bundle) = Some (source doc).
Proof.
  intros [-> Hdocs]%retrieve_determines Hne.
  rewrite get_context_for_generation_run, <- Hdocs.
  destruct documents as [| doc others]; [congruence |].
  cbn [pack_loop].
  destruct (content_preview doc) as [content | z]; [| discriminate].
  cbn [empty_pack current_length].
  destruct (_ >? _).
  - cbn [Z.add Z.eqb]. intros [= <-]. cbn. unfold len. cbn [length]. split; [lia | eauto].
  - destruct (pack_loop _ _ _ _) as [st | e] eqn:Hloop; [| discriminate].
    intros [= <-].
    destruct (pack_loop_prefix _ _ _ _ _ Hloop) as (n & parts & _ & _ & _ & Hsrc & _).
    unfold bundle_of; cbn [total_documents sources].
    cbn [include empty_pack st_sources app] in Hsrc. rewrite Hsrc.
    unfold len. cbn [length head]. split; [lia | eauto].
Qed.
End PackingMore.

Lemma everything_fits_everything_included_witness :
  ∃ documents,
    @retrieve_relevant_documents unit unit nat ascii_unicode
      (answering ranked_matches) (py "k_epsilon") [] [] 8 connected_system
    = (Ok documents, connected_system)
    ∧ @get_context_for_generation unit unit nat ascii_unicode
        (answering ranked_matches) milli_format (py "k_epsilon") [] [] 4000
        connected_system
      = (Ok {| context_text := @whole_text nat milli_format 0 documents;
               sources := source <$> documents;
               relevance_scores := relevance_score <$> documents;
               total_documents := 3 |}, connected_system).
Proof.
  eexists. split; [vm_compute; reflexivity |].
  eapply (@everything_fits_everything_included unit unit nat ascii_unicode
            (answering ranked_matches) milli_format (py "k_epsilon") [] [] 4000
            connected_system connected_system).
  - vm_compute. reflexivity.
  - repeat constructor; eexists; reflexivity.
  - vm_compute. discriminate.
Defined.

Lemma first_document_truncated_alone_witness :
  ∃ doc,
    @get_context_for_generation unit unit nat ascii_unicode
      (answering long_match) milli_format (py "k_epsilon") [] [] 120
      connected_system
    = (Ok {| context_text :=
               @document_header nat milli_format 0 doc
               ++ slice_to (replicate 200 97%N)
                    (120 - len (@document_header nat milli_format 0 doc) - 50)
               ++ py "...[truncated]";
             sources := [source doc];
             relevance_scores := [relevance_score doc];
             total_documents := 1 |}, connected_system).
Proof.
  eexists.
  eapply (@first_document_truncated_alone unit unit nat ascii_unicode
            (answering long_match) milli_format (py "k_epsilon") [] [] 120
            connected_system connected_system _ []).
  - vm_compute. reflexivity.
  - reflexivity.
  - vm_compute. reflexivity.
Defined.

Lemma nonempty_retrieval_nonempty_bundle_witness :
  ∃ (documents : list (@RetrievedDocument nat)) (bundle : @ContextBundle nat),
    @get_context_for_generation unit unit nat ascii_unicode
      (answering ranked_matches) milli_format (py "k_epsilon") [] [] 100
      connected_system = (Ok bundle, connected_system)
    ∧ 1 <= total_documents bundle
    ∧ ∃ doc, head documents = Some doc ∧ head (sources bundle) = Some (source doc).
Proof.
  eexists _, _. split; [vm_compute; reflexivity |].
  eapply (@nonempty_retrieval_nonempty_bundle unit unit nat ascii_unicode
            (answering ranked_matches) milli_format (py "k_epsilon") [] [] 100
            connected_system connected_system).
  - vm_compute. reflexivity.
  - discriminate.
  - vm_compute. reflexivity.
Defined.

(** ** More on the chunker *)

Ltac distinct_keys :=
  let Heq := fresh in intros Heq; vm_compute in Heq; discriminate.

Lemma chunk_text_lookup (self : DocumentProcessor) (text : str)
    (metadata : option (gmap str value)) (i : nat) (chunk : Chunk) :
  chunk_text self text metadata !! i = Some chunk →
  c_metadata chunk !! py "chunk_index" = Some (VInt (Z.of_nat i))
  ∧ c_metadata chunk !! py "total_chunks"
    = Some (VInt (len (chunk_text self text metadata)))
  ∧ c_metadata chunk !! py "chunk_size" = Some (VInt (len (c_text chunk)))
  ∧ text_splitter self text !! i = Some (c_text chunk)
  ∧ ∀ key, key ∉ [py "chunk_index"; py "total_chunks"; py "chunk_size"] →
           c_metadata chunk !! key = default ∅ metadata !! key.
Proof.
  unfold chunk_text.
  destruct (truthy (strip text)); cbn [negb]; [| discriminate].
  rewrite list_lookup_imap.
  destruct (text_splitter self text !! i) as [piece |] eqn:Hpiece; [| discriminate].
  intros [= <-]. cbn [c_metadata c_text].
  unfold len. rewrite length_imap.
  split; [| split; [| split; [| split]]].
  - rewrite !lookup_insert_ne by distinct_keys. apply lookup_insert_eq.
  - rewrite lookup_insert_ne by distinct_keys. apply lookup_insert_eq.
  - apply lookup_insert_eq.
  - reflexivity.
  - intros key Hkey.
    rewrite !lookup_insert_ne; [reflexivity | | |];
      intros <-; apply Hkey; repeat (apply elem_of_cons; (now left) || right).
Qed.

(** X18: the chunks are numbered as they come: the chunk in place [i]
    carries ['chunk_index'] [i], as ['total_chunks'] the number of chunks
    and as ['chunk_size'] the length of its own text, whatever the caller's
    metadata said under these keys; every other key of the caller's
    metadata is copied as it is. *)
Theorem chunk_text_numbers_chunks (self : DocumentProcessor) (text : str)
    (metadata : option (gmap str value)) (i : nat) (chunk : Chunk) :
  chunk_text self text metadata !! i = Some chunk →
  c_metadata chunk !! py "chunk_index" = Some (VInt (Z.of_nat i))
  ∧ c_metadata chunk !! py "total_chunks"
    = Some (VInt (len (chunk_text self text metadata)))
  ∧ c_metadata chunk !! py "chunk_size" = Some (VInt (len (c_text chunk)))
  ∧ text_splitter self text !! i = Some (c_text chunk)
  ∧ ∀ key, key ∉ [py "chunk_index"; py "total_chunks"; py "chunk_size"] →
           c_metadata chunk !! key = default ∅ metadata !! key.
Proof. apply chunk_text_lookup. Qed.

Lemma chunk_text_numbers_chunks_witness :
  ∃ chunk,
    chunk_text default_processor (py " airfoil  flow ")
      (Some (<[py "chunk_index" := VStr (py "stale")]> {[py "source" := VStr (py "a.txt")]}))
      !! 0%nat = Some chunk
    ∧ c_text chunk = py "airfoil  flow"
    ∧ c_metadata chunk !! py "chunk_index" = Some (VInt 0)
    ∧ c_metadata chunk !! py "total_chunks" = Some (VInt 1)
    ∧ c_metadata chunk !! py "chunk_size" = Some (VInt 13)
    ∧ c_metadata chunk !! py "source" = Some (VStr (py "a.txt")).
Proof.
  eexists. split; [vm_compute; reflexivity |].
  split; [reflexivity |].
  destruct (chunk_text_numbers_chunks default_processor (py " airfoil  flow ")
              (Some (<[py "chunk_index" := VStr (py "stale")]>
                       {[py "source" := VStr (py "a.txt")]}))
              0%nat _ eq_refl) as (Hindex & Htotal & Hsize & _ & Hother).
  split; [exact Hindex |]. split; [exact Htotal |]. split; [exact Hsize |].
  rewrite Hother; [vm_compute; reflexivity |].
  intros Hin. vm_compute in Hin.
  repeat (apply elem_of_cons in Hin as [Hin | Hin]; [discriminate |]).
  inversion Hin.
Defined.

(** ** Text extraction *)

Lemma sub_tags_from_prefix (before s : str) :
  60%N ∉ before → sub_tags_from None (before ++ s) = before ++ sub_tags_from None s.
Proof.
  induction before as [| c before IH]; [reflexivity |].
  intros [Hc Hbefore]%not_elem_of_cons. cbn [app sub_tags_from].
  destruct (N.eqb_spec c 60) as [-> | _]; [congruence |]. now rewrite IH.
Qed.

Lemma sub_tags_from_pending (tag after : str) :
  62%N ∉ tag →
  ∀ inside, inside ++ tag ≠ [] →
    sub_tags_from (Some inside) (tag ++ 62%N :: after) = sub_tags_from None after.
Proof.
  induction tag as [| c tag IH]; intros Htag inside Hne; cbn [app sub_tags_from].
  - rewrite app_nil_r in Hne. now destruct inside.
  - apply not_elem_of_cons in Htag as [Hc Htag].
    destruct (N.eqb_spec c 62) as [-> | _]; [congruence |].
    apply IH; [exact Htag |]. rewrite <- app_assoc. exact Hne.
Qed.

Lemma sub_tags_drops_tag (before tag after : str) :
  60%N ∉ before → tag ≠ [] → 62%N ∉ tag →
  sub_tags (before ++ 60%N :: tag ++ 62%N :: after) = sub_tags (before ++ after).
Proof.
  intros Hbefore Hne Htag. unfold sub_tags.
  rewrite !sub_tags_from_prefix by exact Hbefore. f_equal.
  cbn [sub_tags_from]. now apply sub_tags_from_pending.
Qed.

Lemma replace_from_absent (first : char) (old new s : str) :
  first ∉ s → replace_from 0 (first :: old) new s = s.
Proof.
  induction s as [| c s IH]; [reflexivity |].
  intros [Hc Hs]%not_elem_of_cons. cbn [replace_from startswith].
  destruct (N.eqb_spec first c) as [-> | _]; [congruence |].
  cbn [andb]. now rewrite IH.
Qed.

(** X19: for content without ['<'] and without ['&'] the HTML extraction
    is the normalization of the content. *)
Theorem html_without_markup_is_cleaned (html_content : str) :
  60%N ∉ html_content → 38%N ∉ html_content →
  _extract_text_from_html html_content = _clean_text html_content.
Proof.
  intros Htag Hentity. unfold _extract_text_from_html, sub_tags, replace_all.
  rewrite <- (app_nil_r html_content) at 1.
  rewrite sub_tags_from_prefix by exact Htag. cbn [sub_tags_from].
  rewrite app_nil_r. cbv zeta.
  change (py "&nbsp;") with (38%N :: py "nbsp;").
  change (py "&amp;") with (38%N :: py "amp;").
  change (py "&lt;") with (38%N :: py "lt;").
  change (py "&gt;") with (38%N :: py "gt;").
  change (py "&quot;") with (38%N :: py "quot;").
  now do 5 rewrite (replace_from_absent 38%N _ _ html_content) by exact Hentity.
Qed.

(** X20: a tag, from a ['<'] through a non-empty run without ['>'] to the
    ['>'] that closes it, leaves no trace in the extracted text, when no
    ['<'] stands before it. *)
Theorem html_tag_is_dropped (before tag after : str) :
  60%N ∉ before → tag ≠ [] → 62%N ∉ tag →
  _extract_text_from_html (before ++ 60%N :: tag ++ 62%N :: after)
  = _extract_text_from_html (before ++ after).
Proof.
  intros Hbefore Hne Htag. unfold _extract_text_from_html.
  now rewrite sub_tags_drops_tag.
Qed.

Lemma html_without_markup_is_cleaned_witness :
  _extract_text_from_html (py "  k-epsilon   model  ") = py "k-epsilon model".
Proof.
  rewrite html_without_markup_is_cleaned.
  - vm_compute. reflexivity.
  - intros Hin. vm_compute in Hin. apply list_elem_of_In in Hin. cbn in Hin.
    repeat (destruct Hin as [Hin | Hin]; [discriminate |]). exact Hin.
  - intros Hin. vm_compute in Hin. apply list_elem_of_In in Hin. cbn in Hin.
    repeat (destruct Hin as [Hin | Hin]; [discriminate |]). exact Hin.
Defined.

Lemma html_tag_is_dropped_witness :
  _extract_text_from_html (py "Wall " ++ 60%N :: py "b class=x" ++ 62%N :: py "functions")
  = _extract_text_from_html (py "Wall " ++ py "functions").
Proof.
  apply html_tag_is_dropped.
  - intros Hin. vm_compute in Hin. apply list_elem_of_In in Hin. cbn in Hin.
    repeat (destruct Hin as [Hin | Hin]; [discriminate |]). exact Hin.
  - discriminate.
  - intros Hin. vm_compute in Hin. apply list_elem_of_In in Hin. cbn in Hin.
    repeat (destruct Hin as [Hin | Hin]; [discriminate |]). exact Hin.
Defined.

Section DocumentProperties.
Context {Bytes : Type}.
Context `{Unicode} `{@Sources Bytes}.

Lemma extract_text_from_pdf_bytes_clean (pdf_bytes : Bytes) (text : str) :
  _extract_text_from_pdf_bytes pdf_bytes = Done text → _clean_text text = text.
Proof.
  unfold _extract_text_from_pdf_bytes.
  destruct (pdf_pages pdf_bytes); [| discriminate].
  intros [= <-]. apply clean_text_twice.
Qed.

Lemma extract_text_from_url_clean (url text : str) :
  extract_text_from_url url = Done text → _clean_text text = text.
Proof.
  unfold extract_text_from_url. cbv zeta.
  destruct (requests_get url) as [response | e]; [| discriminate].
  destruct (contains _ _).
  - destruct (_extract_text_from_pdf_bytes _) eqn:Hpdf; [| discriminate].
    intros [= <-]. now apply extract_text_from_pdf_bytes_clean in Hpdf.
  - intros [= <-]. unfold _extract_text_from_html. cbv zeta. apply clean_text_twice.
Qed.

Lemma extract_text_from_pdf_file_clean (pdf_path text : str) :
  extract_text_from_pdf_file pdf_path = Done text → _clean_text text = text.
Proof.
  unfold extract_text_from_pdf_file. cbv zeta.
  destruct (read_bytes pdf_path) as [pdf_bytes | e]; [| discriminate].
  destruct (_extract_text_from_pdf_bytes _) eqn:Hpdf; [| discriminate].
  intros [= <-]. now apply extract_text_from_pdf_bytes_clean in Hpdf.
Qed.

(** What [process_document] returns: the chunks of some text under the
    source and one of the three kinds. *)
Lemma process_document_done (self : DocumentProcessor) (source doc_type : str)
    (chunks : list Chunk) :
  process_document self source doc_type = Done chunks →
  ∃ kind text,
    kind ∈ [py "url"; py "pdf"; py "text"]
    ∧ chunks
      = chunk_text self text
          (Some (<[py "type" := VStr kind]>
                   (<[py "type" := VStr doc_type]> (<[py "source" := VStr source]> ∅))))
    ∧ (kind = py "text" ∨ _clean_text text = text).
Proof.
  unfold process_document. cbv zeta.
  destruct (decide (_ = py "url")) as [_ | _].
  - destruct (extract_text_from_url source) as [text |] eqn:Htext; [| discriminate].
    intros [= <-]. exists (py "url"), text.
    split; [apply elem_of_cons; now left |]. split; [reflexivity |].
    right. now apply extract_text_from_url_clean in Htext.
  - destruct (decide (_ = py "pdf")) as [_ | _].
    + destruct (extract_text_from_pdf_file source) as [text |] eqn:Htext; [| discriminate].
      intros [= <-]. exists (py "pdf"), text.
      split; [apply elem_of_cons; right; apply elem_of_cons; now left |].
      split; [reflexivity |]. right. now apply extract_text_from_pdf_file_clean in Htext.
    + destruct (read_text source) as [text |]; [| discriminate].
      intros [= <-]. exists (py "text"), text.
      split; [do 2 (apply elem_of_cons; right); apply elem_of_cons; now left |].
      split; [reflexivity | now left].
Qed.

(** X21: every chunk [process_document] returns carries the source it was
    given and, as type, one of ["url"], ["pdf"] and ["text"], never
    ["auto"] nor another type the caller passed. *)
Theorem processed_chunks_carry_source_and_kind
    (self : DocumentProcessor) (source doc_type : str)
    (chunks : list Chunk) (chunk : Chunk) :
  process_document self source doc_type = Done chunks →
  chunk ∈ chunks →
  c_metadata chunk !! py "source" = Some (VStr source)
  ∧ ∃ kind, kind ∈ [py "url"; py "pdf"; py "text"]
            ∧ c_metadata chunk !! py "type" = Some (VStr kind).
Proof.
  intros (kind & text & Hkind & -> & _)%process_document_done Hin.
  apply list_elem_of_lookup in Hin as [i Hi].
  destruct (chunk_text_lookup _ _ _ _ _ Hi) as (_ & _ & _ & _ & Hother).
  split.
  - rewrite Hother.
    + change (default ∅ (Some ?m)) with m.
      rewrite !lookup_insert_ne by distinct_keys. apply lookup_insert_eq.
    + intros Hkey. repeat (apply elem_of_cons in Hkey as [Hkey | Hkey];
                           [vm_compute in Hkey; discriminate |]).
      inversion Hkey.
  - exists kind. split; [exact Hkind |]. rewrite Hother.
    + change (default ∅ (Some ?m)) with m. apply lookup_insert_eq.
    + intros Hkey. repeat (apply elem_of_cons in Hkey as [Hkey | Hkey];
                           [vm_compute in Hkey; discriminate |]).
      inversion Hkey.
Qed.

(** X22: on the URL and PDF paths the text that is chunked is normalized
    already: cleaning it again would not change it.  (On the plain-text
    path the file is chunked as read.) *)
Theorem fetched_text_is_chunked_normalized
    (self : DocumentProcessor) (source doc_type : str) (chunks : list Chunk) :
  doc_type = py "url" ∨ doc_type = py "pdf" →
  process_document self source doc_type = Done chunks →
  ∃ text metadata,
    chunks = chunk_text self text (Some metadata) ∧ _clean_text text = text.
Proof.
  intros Hkind Hdone.
  revert Hdone. unfold process_document. cbv zeta.
  destruct Hkind as [-> | ->].
  - destruct (decide (py "url" = py "auto")) as [Heq | _];
      [vm_compute in Heq; discriminate |].
    destruct (decide (py "url" = py "url")) as [_ | Hne]; [| congruence].
    destruct (extract_text_from_url source) as [text |] eqn:Htext; [| discriminate].
    intros [= <-]. eexists _, _. split; [reflexivity |].
    now apply extract_text_from_url_clean in Htext.
  - destruct (decide (py "pdf" = py "auto")) as [Heq | _];
      [vm_compute in Heq; discriminate |].
    destruct (decide (py "pdf" = py "url")) as [Heq | _];
      [vm_compute in Heq; discriminate |].
    destruct (decide (py "pdf" = py "pdf")) as [_ | Hne]; [| congruence].
    destruct (extract_text_from_pdf_file source) as [text |] eqn:Htext; [| discriminate].
    intros [= <-]. eexists _, _. split; [reflexivity |].
    now apply extract_text_from_pdf_file_clean in Htext.
Qed.

(** A failure on the URL path names the URL: the message is
    ["Failed to extract text from URL <url>: "] followed by the cause, the
    text of what the fetch raised or the wrapped failure of the PDF
    reader. *)
Lemma failed_fetch_names_the_url
    (self : DocumentProcessor) (source message : str) :
  process_document self source (py "url") = Failed message →
  ∃ cause,
    message = py "Failed to extract text from URL " ++ source ++ py ": " ++ cause
    ∧ (requests_get source = Failed cause
       ∨ ∃ response reader_message,
           requests_get source = Done response
           ∧ pdf_pages (r_content response) = Failed reader_message
           ∧ cause = py "Failed to extract text from PDF bytes: " ++ reader_message).
Proof.
  unfold process_document. cbv zeta.
  destruct (decide (py "url" = py "auto")) as [Heq | _];
    [vm_compute in Heq; discriminate |].
  destruct (decide (py "url" = py "url")) as [_ | Hne]; [| congruence].
  unfold extract_text_from_url. cbv zeta.
  destruct (requests_get source) as [response | e].
  - destruct (contains _ _); [| discriminate].
    unfold _extract_text_from_pdf_bytes.
    destruct (pdf_pages (r_content response)) as [pages | reader_message] eqn:Hpages;
      [discriminate |].
    intros [= <-]. eexists. split; [reflexivity |]. right. eauto.
  - intros [= <-]. eexists. split; [reflexivity |]. now left.
Qed.
End DocumentProperties.

Lemma processed_chunks_carry_source_and_kind_witness :
  ∃ chunk,
    @process_document unit ascii_unicode
      (web_page (60%N :: py "p" ++ 62%N :: py "Wall  functions"))
      default_processor (py "https://example.org/wall.pdf") (py "auto")
    = Done [chunk]
    ∧ c_text chunk = py "Wall functions"
    ∧ c_metadata chunk !! py "source" = Some (VStr (py "https://example.org/wall.pdf"))
    ∧ ∃ kind, kind ∈ [py "url"; py "pdf"; py "text"]
              ∧ c_metadata chunk !! py "type" = Some (VStr kind).
Proof.
  eexists. split; [vm_compute; reflexivity |]. split; [reflexivity |].
  eapply (@processed_chunks_carry_source_and_kind unit ascii_unicode
            (web_page (60%N :: py "p" ++ 62%N :: py "Wall  functions"))
            default_processor (py "https://example.org/wall.pdf") (py "auto")).
  - vm_compute. reflexivity.
  - apply elem_of_cons. now left.
Defined.

Lemma fetched_text_is_chunked_normalized_witness :
  ∃ chunks text metadata,
    @process_document unit ascii_unicode
      (web_page (60%N :: py "p" ++ 62%N :: py "Wall  functions"))
      default_processor (py "https://example.org/wall") (py "url") = Done chunks
    ∧ chunks = chunk_text default_processor text (Some metadata)
    ∧ _clean_text text = text.
Proof.
  eexists. 
  assert (Hrun : @process_document unit ascii_unicode
      (web_page (60%N :: py "p" ++ 62%N :: py "Wall  functions"))
      default_processor (py "https://example.org/wall") (py "url") = Done _)
    by (vm_compute; reflexivity).
  destruct (@fetched_text_is_chunked_normalized unit ascii_unicode _ _ _ _ _
              (or_introl eq_refl) Hrun) as (text & metadata & Hchunks & Hclean).
  exists text, metadata. split; [exact Hrun |]. split; assumption.
Defined.

Lemma failed_fetch_names_the_url_witness :
  ∃ cause,
    py "Failed to extract text from URL https://example.org/wall: 404 Client Error"
    = py "Failed to extract text from URL " ++ py "https://example.org/wall"
      ++ py ": " ++ cause
    ∧ (@requests_get unit unreachable (py "https://example.org/wall") = Failed cause
       ∨ ∃ response reader_message,
           @requests_get unit unreachable (py "https://example.org/wall") = Done response
           ∧ @pdf_pages unit unreachable (r_content response) = Failed reader_message
           ∧ cause = py "Failed to extract text from PDF bytes: " ++ reader_message).
Proof.
  apply (@failed_fetch_names_the_url unit ascii_unicode unreachable default_processor).
  vm_compute. reflexivity.
Defined.

(** ** Writing to the index *)

Section Batches.
Context {A : Type}.

Lemma concat_windows (l : list A) (m : nat) :
  concat ((λ i, take 100 (drop i l)) <$> ((λ k, 100 * k)%nat <$> seq 0 m))
  = take (100 * m) l.
Proof.
  induction m as [| m IH]; [now rewrite Nat.mul_0_r |].
  rewrite seq_S, !fmap_app, concat_app, IH. cbn [fmap list_fmap concat].
  rewrite app_nil_r, Nat.add_0_l, take_take_drop. f_equal. lia.
Qed.

Lemma batch_count_covers (n : nat) : (n <= 100 * ((n + 99) / 100))%nat.
Proof.
  pose proof (Nat.div_mod_eq (n + 99) 100) as Hdiv.
  pose proof (Nat.mod_upper_bound (n + 99) 100 ltac:(lia)) as Hmod. lia.
Qed.

Lemma batch_count_tight (n k : nat) : (k < (n + 99) / 100 → 100 * k < n)%nat.
Proof.
  pose proof (Nat.div_mod_eq (n + 99) 100) as Hdiv. lia.
Qed.
End Batches.

Section WritingProperties.
Context {Handle Embedding Score : Type}.
Context `{@External Handle Embedding Score} `{@Writes Handle Embedding}.

Lemma concat_batches_of (vectors : list (@Vector Embedding)) :
  concat (batches_of vectors) = vectors.
Proof.
  unfold batches_of, batch_starts. rewrite concat_windows.
  apply take_ge, batch_count_covers.
Qed.

Lemma batches_of_sizes (vectors : list (@Vector Embedding)) :
  Forall (λ batch, (0 < length batch <= 100)%nat) (batches_of vectors).
Proof.
  unfold batches_of, batch_starts. rewrite <- list_fmap_compose.
  apply Forall_fmap, Forall_forall. intros k Hk%elem_of_seq. cbn.
  rewrite length_take, length_drop.
  pose proof (batch_count_tight (length vectors) k ltac:(lia)). lia.
Qed.

Lemma generate_embedding_run (text : str) (self : VectorStore) :
  generate_embedding text self = (embeddings_create text, self).
Proof.
  unfold generate_embedding. run_method. now destruct (embeddings_create text).
Qed.

Lemma build_vectors_store (documents : list Chunk) :
  ∀ i self, (build_vectors i documents self).2 = self.
Proof.
  induction documents as [| doc documents IH]; intros i self; cbn [build_vectors];
    [reflexivity |].
  unfold mbind at 1. unfold M_bind. rewrite generate_embedding_run.
  destruct (embeddings_create (c_text doc)); [| reflexivity].
  run_method. destruct (vector_metadata doc); [| reflexivity].
  specialize (IH (S i) self).
  destruct (build_vectors (S i) documents self) as [[vectors | e] vs]; cbn in *;
    now subst.
Qed.

Lemma build_vectors_ok (documents : list Chunk) :
  ∀ i self self' vectors,
    build_vectors i documents self = (Ok vectors, self') →
    length vectors = length documents
    ∧ ∀ k doc, documents !! k = Some doc →
        ∃ v, vectors !! k = Some v
             ∧ v_id v = py "doc_" ++ str_of_int (time_time (i + k)) ++ py "_"
                        ++ str_of_nat (i + k)
             ∧ embeddings_create (c_text doc) = Ok (v_values v)
             ∧ vector_metadata doc = Ok (v_metadata v).
Proof.
  induction documents as [| doc documents IH]; intros i self self' vectors;
    cbn [build_vectors].
  - intros [= <- <-]. split; [reflexivity |]. intros k doc Hk. discriminate.
  - unfold mbind at 1. unfold M_bind. rewrite generate_embedding_run.
    destruct (embeddings_create (c_text doc)) as [embedding |] eqn:Hemb;
      [| discriminate].
    run_method. destruct (vector_metadata doc) as [metadata |] eqn:Hmeta;
      [| discriminate].
    destruct (build_vectors (S i) documents self) as [[rest | e] vs] eqn:Hrest;
      [| discriminate].
    intros [= <- <-]. destruct (IH _ _ _ _ Hrest) as [Hlen Hvec].
    split; [cbn; now rewrite Hlen |].
    intros [| k] d Hk; cbn in Hk.
    + injection Hk as <-. eexists. split; [reflexivity |].
      rewrite Nat.add_0_r. cbn. auto.
    + destruct (Hvec k d Hk) as (v & Hv & Hrest').
      exists v. split; [exact Hv |].
      now replace (i + S k)%nat with (S i + k)%nat by lia.
Qed.

Lemma build_vectors_fails (documents : list Chunk) (failing : Chunk) (e : exception) :
  failing ∈ documents →
  embeddings_create (c_text failing) = Raise e →
  ∀ i self, ∃ e', build_vectors i documents self = (Raise e', self).
Proof.
  intros Hin Hfail. induction documents as [| doc documents IH]; [inversion Hin |].
  intros i self. cbn [build_vectors].
  unfold mbind at 1. unfold M_bind. rewrite generate_embedding_run.
  destruct (embeddings_create (c_text doc)) as [embedding |] eqn:Hemb; [| eauto].
  apply elem_of_cons in Hin as [-> | Hin]; [congruence |].
  run_method. destruct (vector_metadata doc); [| eauto].
  destruct (IH Hin (S i) self) as [e' ->]. eauto.
Qed.

Lemma send_batches_run (handle : Handle) (batches : list (list (@Vector Embedding))) :
  ∀ remote,
    ∃ r sent rest,
      send_batches handle batches remote
      = (r, {| store := store remote; upserted := upserted remote ++ sent |})
      ∧ batches = sent ++ rest
      ∧ (r = Ok () → rest = []).
Proof.
  induction batches as [| batch batches IH]; intros remote; cbn [send_batches].
  - exists (Ok ()), [], []. rewrite app_nil_r. now destruct remote.
  - run_method. destruct (index_upsert handle batch) as [[] | e].
    + destruct (IH {| store := store remote; upserted := upserted remote ++ [batch] |})
        as (r & sent & rest & Hrun & -> & Hrest).
      unfold accept. cbn in *. rewrite Hrun.
      exists r, (batch :: sent), rest. rewrite <- app_assoc. auto.
    + exists (Raise e), [], (batch :: batches). rewrite app_nil_r.
      split; [now destruct remote |]. split; [reflexivity | discriminate].
Qed.

Lemma upsert_documents_run (documents : list Chunk) (remote : Remote) :
  upsert_documents documents remote
  = match index (store remote) with
    | None => (Ok false, remote)
    | Some handle =>
        match build_vectors 0 documents (store remote) with
        | (Ok vectors, _) =>
            match send_batches handle (batches_of vectors) remote with
            | (Ok _, remote') => (Ok true, remote')
            | (Raise _, remote') => (Ok false, remote')
            end
        | (Raise _, _) => (Ok false, remote)
        end
    end.
Proof.
  unfold upsert_documents, try_except. unfold mbind at 1. unfold M_bind, get.
  destruct remote as [vs batches]. cbn [store].
  destruct (index vs) as [handle |]; [| reflexivity].
  unfold mbind at 1. unfold M_bind, on_store. cbn [store upserted].
  pose proof (build_vectors_store documents 0 vs) as Hstore.
  destruct (build_vectors 0 documents vs) as [[vectors | e] vs'];
    cbn [snd] in Hstore; subst vs'; [| reflexivity].
  unfold mbind at 1. unfold M_bind.
  destruct (send_batches handle (batches_of vectors) _) as [[[] | e] remote'];
    reflexivity.
Qed.

(** X23: a call of [upsert_documents] that returns [True] has sent one
    vector per document, in order, in batches of 1 to 100 vectors; the
    vector of document [k] has the id ["doc_<time>_<k>"], the embedding of
    the document's text and the metadata built from the document. *)
Theorem upsert_sends_every_document_once
    (documents : list Chunk) (remote remote' : Remote) :
  upsert_documents documents remote = (Ok true, remote') →
  store remote' = store remote
  ∧ ∃ sent,
      upserted remote' = upserted remote ++ sent
      ∧ Forall (λ batch, (0 < length batch <= 100)%nat) sent
      ∧ length (concat sent) = length documents
      ∧ ∀ k doc, documents !! k = Some doc →
          ∃ v, concat sent !! k = Some v
               ∧ v_id v = py "doc_" ++ str_of_int (time_time k) ++ py "_" ++ str_of_nat k
               ∧ embeddings_create (c_text doc) = Ok (v_values v)
               ∧ vector_metadata doc = Ok (v_metadata v).
Proof.
  rewrite upsert_documents_run.
  destruct (index (store remote)) as [handle |]; [| discriminate].
  destruct (build_vectors 0 documents (store remote)) as [[vectors | e] vs] eqn:Hbuild;
    [| discriminate].
  destruct (send_batches_run handle (batches_of vectors) remote)
    as (r & sent & rest & Hrun & Hsplit & Hrest).
  rewrite Hrun. destruct r as [[] | e]; [| discriminate].
  intros [= <-]. cbn [store upserted]. split; [reflexivity |].
  rewrite (Hrest eq_refl), app_nil_r in Hsplit. subst sent.
  exists (batches_of vectors). split; [reflexivity |].
  split; [apply batches_of_sizes |]. rewrite concat_batches_of.
  exact (build_vectors_ok _ _ _ _ _ Hbuild).
Qed.

(** X24: [upsert_documents] never raises and never touches the store; the
    batches accepted before are kept.  Without an index handle, or when the
    embedding of one document fails, it returns [False] and no batch is
    sent at all. *)
Theorem upsert_is_all_or_nothing_on_embedding
    (documents : list Chunk) (remote : Remote) :
  ∃ ok sent,
    upsert_documents documents remote
    = (Ok ok, {| store := store remote; upserted := upserted remote ++ sent |})
    ∧ (index (store remote) = None → ok = false ∧ sent = [])
    ∧ (∀ doc e, doc ∈ documents → embeddings_create (c_text doc) = Raise e →
                ok = false ∧ sent = [])
    ∧ (documents = [] → is_Some (index (store remote)) → ok = true ∧ sent = []).
Proof.
  rewrite upsert_documents_run.
  assert (Hsame : remote = {| store := store remote; upserted := upserted remote ++ [] |})
    by (rewrite app_nil_r; now destruct remote).
  destruct (index (store remote)) as [handle |] eqn:Hindex.
  - destruct (build_vectors 0 documents (store remote)) as [[vectors | e] vs] eqn:Hbuild.
    + destruct (send_batches_run handle (batches_of vectors) remote)
        as (r & sent & rest & Hrun & Hsplit & Hrest).
      rewrite Hrun. exists (match r with Ok _ => true | Raise _ => false end), sent.
      split; [now destruct r as [[] |] |]. split; [discriminate |]. split.
      * intros doc e Hin Hfail.
        destruct (build_vectors_fails _ _ _ Hin Hfail 0%nat (store remote)) as [e' He'].
        congruence.
      * intros -> _. cbn in Hbuild. injection Hbuild as <- _.
        cbn in Hrun. injection Hrun as <- Hsent.
        split; [reflexivity |].
        apply (f_equal upserted) in Hsent. cbn in Hsent.
        apply (f_equal length) in Hsent. rewrite length_app in Hsent.
        destruct sent; [reflexivity | cbn in Hsent; lia].
    + exists false, []. split; [now rewrite <- Hsame |].
      split; [discriminate |]. split; [auto |].
      intros -> _. cbn in Hbuild. discriminate.
  - exists false, []. split; [now rewrite <- Hsame |].
    split; [auto |]. split; [auto |]. intros _ [? [=]].
Qed.

Lemma delete_index_run (self : VectorStore) :
  delete_index self
  = match pc_delete_index (index_name self) with
    | Ok _ => (Ok true, set_index None self)
    | Raise _ => (Ok false, self)
    end.
Proof.
  unfold delete_index. run_method.
  now destruct (pc_delete_index (index_name self)) as [[] |].
Qed.

(** X25: what [upsert_documents] stores for a document is what retrieval
    shows of it: a match that carries the stored metadata becomes a
    document whose content is the first 200 characters of the text, whose
    source is the first 500 characters of the document's source (the empty
    string when it has none) and whose type and chunk numbers are the
    document's; the defaults of retrieval are not reached for the source,
    the type, the numbers and the preview. *)
Theorem stored_document_reads_back
    (doc : Chunk) (stored : gmap str value) (m : @Match Score) :
  vector_metadata doc = Ok stored →
  m_metadata m = stored →
  content_preview (enhanced_result (hit_of_match m))
  = VStr (slice_to (c_text doc) 200)
  ∧ (∃ source_text,
       default (VStr []) (c_metadata doc !! py "source") = VStr source_text
       ∧ source (enhanced_result (hit_of_match m)) = VStr (slice_to source_text 500))
  ∧ document_type (enhanced_result (hit_of_match m))
    = default (VStr []) (c_metadata doc !! py "type")
  ∧ chunk_info (enhanced_result (hit_of_match m))
    = {| ci_index := default (VInt 0) (c_metadata doc !! py "chunk_index");
         ci_total := default (VInt 1) (c_metadata doc !! py "total_chunks") |}.
Proof.
  intros Hbuild Hm. unfold vector_metadata, dget in Hbuild.
  destruct (c_metadata doc !! py "source") as [[source_text | z] |] eqn:Hsource;
    try discriminate; injection Hbuild as <-;
    unfold enhanced_result, hit_of_match, dget;
    cbn [content_preview source document_type chunk_info hit_id score metadata
         text_preview];
    rewrite Hm;
    repeat first [ rewrite lookup_insert_eq
                 | rewrite lookup_insert_ne by distinct_keys ];
    (split; [reflexivity |]); (split; [eexists; split; reflexivity |]);
    split; reflexivity.
Qed.
End WritingProperties.

Section DeletedIndex.
Context {Handle Embedding Score : Type}.
Context `{Unicode} `{@External Handle Embedding Score} `{@Writes Handle Embedding}.

(** X26: [delete_index] never raises; when it returns [False] the store is
    as it was.  When it returns [True] on the store of a retriever, the
    handle is gone while the retriever's [connected] flag stays as it was,
    and every retrieval from then on returns no document. *)
Theorem deleted_index_retrieves_nothing (self : RetrievalSystem) :
  ∃ ok self',
    on_vector_store delete_index self = (Ok ok, self')
    ∧ connected self' = connected self
    ∧ (ok = false → self' = self)
    ∧ (ok = true →
       index (vector_store self') = None
       ∧ ∀ turbulence_model user_description focus_area top_k,
           retrieve_relevant_documents turbulence_model user_description focus_area
             top_k self' = (Ok [], self')).
Proof.
  unfold on_vector_store. rewrite delete_index_run.
  destruct (pc_delete_index (index_name (vector_store self))) as [[] | e].
  - eexists _, _. split; [reflexivity |]. split; [reflexivity |].
    split; [discriminate |]. intros _. split; [reflexivity |].
    intros tm ud fa top_k. rewrite retrieve_relevant_documents_run.
    unfold retrieved, matches_for. cbn. now destruct (connected self).
  - eexists _, _. split; [reflexivity |]. split; [reflexivity |].
    split; [intros _; now destruct self | discriminate].
Qed.
End DeletedIndex.

Lemma upsert_sends_every_document_once_witness :
  ∃ sent,
    upserted (@upsert_documents unit unit nat (answering []) accepting note_chunks
                {| store := vector_store connected_system; upserted := [] |}).2
    = [] ++ sent
    ∧ Forall (λ batch, (0 < length batch <= 100)%nat) sent
    ∧ length (concat sent) = length note_chunks
    ∧ ∀ k doc, note_chunks !! k = Some doc →
        ∃ v, concat sent !! k = Some v
             ∧ v_id v = py "doc_" ++ str_of_int (@time_time unit unit accepting k)
                        ++ py "_" ++ str_of_nat k
             ∧ @embeddings_create unit unit nat (answering []) (c_text doc)
               = Ok (v_values v)
             ∧ vector_metadata doc = Ok (v_metadata v).
Proof.
  apply (@upsert_sends_every_document_once unit unit nat (answering []) accepting
           note_chunks {| store := vector_store connected_system; upserted := [] |}).
  vm_compute. reflexivity.
Defined.

Lemma stored_document_reads_back_witness :
  vector_metadata note_chunk = Ok note_stored
  ∧ content_preview (enhanced_result (hit_of_match note_match))
    = VStr (slice_to (c_text note_chunk) 200)
  ∧ (∃ source_text,
       default (VStr []) (c_metadata note_chunk !! py "source") = VStr source_text
       ∧ source (enhanced_result (hit_of_match note_match))
         = VStr (slice_to source_text 500))
  ∧ document_type (enhanced_result (hit_of_match note_match))
    = default (VStr []) (c_metadata note_chunk !! py "type")
  ∧ chunk_info (enhanced_result (hit_of_match note_match))
    = {| ci_index := default (VInt 0) (c_metadata note_chunk !! py "chunk_index");
         ci_total := default (VInt 1) (c_metadata note_chunk !! py "total_chunks") |}.
Proof.
  split; [vm_compute; reflexivity |].
  apply (@stored_document_reads_back nat note_chunk note_stored note_match);
    [vm_compute; reflexivity | reflexivity].
Defined.

(** ** The pipeline *)

Section PipelineFacts.
Context {Handle Embedding Score Recommendations : Type}.
Context `{Unicode} `{@External Handle Embedding Score} `{@ScoreFormat Score}.
Context `{Console} `{@Pipeline.Generation Score Recommendations}.

Abbreviation RAGPipeline := (@Pipeline.RAGPipeline Handle).

(** Case analysis on the outcome of every [print] of the goal. *)
Ltac print_cases :=
  repeat match goal with
         | |- context [print ?text] =>
             let Hprint := fresh "Hprint" in
             destruct (print text) as [[] | ?] eqn:Hprint; cbn
         end.

(** Under a console that takes every line, a failed [print] is absurd. *)
Ltac quiet_console Hquiet :=
  repeat match goal with
         | Hprint : print ?text = Raise _ |- _ =>
             rewrite Hquiet in Hprint; discriminate Hprint
         end.

Lemma pipeline_eta (self : RAGPipeline) :
  {| Pipeline.retrieval_system := Pipeline.retrieval_system self;
     Pipeline.initialized := Pipeline.initialized self |} = self.
Proof. now destruct self. Qed.

(** X27: the pipeline's [initialize] returns [True] only with the
    pipeline marked initialized over a connected retriever that holds an
    index handle; however the call ends, a pipeline that it marks
    initialized has such a retriever; and it raises only what the
    [print] of the error line raised.  When every [print] returns, it
    never raises, it returns what the retriever's [initialize] returns,
    and on [False] the pipeline is exactly as it was, so that an earlier
    successful initialization still stands. *)
Theorem pipeline_initialize_outcome (self : RAGPipeline) :
  ∃ r self',
    Pipeline.initialize self = (r, self')
    ∧ (r = Ok true →
         Pipeline.initialized self' = true
         ∧ connected (Pipeline.retrieval_system self') = true
         ∧ is_Some (index (vector_store (Pipeline.retrieval_system self'))))
    ∧ (Pipeline.initialized self = false → Pipeline.initialized self' = true →
         connected (Pipeline.retrieval_system self') = true
         ∧ is_Some (index (vector_store (Pipeline.retrieval_system self'))))
    ∧ (∀ e, r = Raise e →
         ∃ cause, print (Pipeline.initialization_error_line cause) = Raise e)
    ∧ ((∀ text, print text = Ok ()) →
         r = (initialize (Pipeline.retrieval_system self)).1
         ∧ (r = Ok false → self' = self)).
Proof.
  unfold Pipeline.initialize, try_except, Pipeline.on_retrieval_system,
    Pipeline.set_initialized, call, mbind, M_bind, mret, M_ret.
  rewrite initialize_run, connect_to_index_run.
  destruct list_index_names as [names | e0]; [destruct (bool_decide _) |];
    [destruct (open_index _) as [handle | e0] | |];
    cbn; print_cases;
    (eexists _, _; split; [reflexivity |]);
    (split; [try discriminate; intros _; cbn; repeat split; now eexists |]);
    (split; [intros Hbefore Hafter; cbn in *;
             first [congruence | repeat split; now eexists] |]);
    (split; [try discriminate; intros e' [= <-]; eexists; eassumption |]);
    intros Hquiet; quiet_console Hquiet;
    (split; [reflexivity |]); try discriminate; intros _; apply pipeline_eta.
Qed.

(** What [generate_recommendations] does once the pipeline is initialized
    and the model validated, by the outcome of building the context. *)
Lemma generate_recommendations_body (tm ud fa : str) (debug : bool)
    (self : RAGPipeline) :
  Pipeline.initialized self = true →
  validate_model tm = true →
  ∃ r,
    Pipeline.generate_recommendations tm ud fa debug self = (r, self)
    ∧ (∀ e, r = Raise e →
         ∃ cause, print (Pipeline.generation_failed_line cause) = Raise e)
    ∧ (∀ name recommendations info debug_info,
         r = Ok (Pipeline.Success name recommendations info debug_info) →
         ∃ bundle,
           get_context_for_generation tm ud fa 4000 (Pipeline.retrieval_system self)
           = (Ok bundle, Pipeline.retrieval_system self)
           ∧ Pipeline.Success name recommendations info debug_info
             = Pipeline.Success tm
                 (Pipeline.generate_parameters tm ud (context_text bundle) fa)
                 {| Pipeline.documents_used := total_documents bundle;
                    Pipeline.info_sources := sources bundle;
                    Pipeline.average_relevance :=
                      Pipeline.average (relevance_scores bundle) |}
                 (if debug then
                    Some {| Pipeline.context_length := len (context_text bundle);
                            Pipeline.debug_relevance_scores := relevance_scores bundle;
                            Pipeline.retrieval_query :=
                              construct_search_query tm ud fa |}
                  else None))
    ∧ ((∀ text, print text = Ok ()) →
         match get_context_for_generation tm ud fa 4000
                 (Pipeline.retrieval_system self) with
         | (Ok bundle, _) =>
             ∃ recommendations info debug_info,
               r = Ok (Pipeline.Success tm recommendations info debug_info)
         | (Raise e, _) => r = Ok (Pipeline.Failure (Pipeline.exception_text e))
         end).
Proof.
  destruct self as [rs init]. cbn [Pipeline.initialized]. intros -> Hvalid.
  unfold Pipeline.generate_recommendations, Pipeline._create_error_response.
  unfold mbind at 1. unfold M_bind, get.
  cbn [Pipeline.initialized Pipeline.retrieval_system negb]. rewrite Hvalid.
  cbn [negb].
  unfold try_except, Pipeline.on_retrieval_system, call, mbind, M_bind, mret, M_ret.
  cbn [Pipeline.initialized Pipeline.retrieval_system].
  rewrite get_context_for_generation_run.
  destruct (pack_loop _ _ _ _) as [st | e0];
    [destruct (total_documents (bundle_of st) =? 0) |];
    cbn; print_cases;
    (eexists; split; [reflexivity |]);
    (split; [try discriminate; intros e' [= <-]; eexists; eassumption |]);
    (split; [first [discriminate
                   | intros name recs info dbg Hsuccess;
                     exists (bundle_of st); split; [reflexivity |];
                     now injection Hsuccess as <- <- <- <-] |]);
    intros Hquiet; quiet_console Hquiet;
    first [reflexivity | now eexists _, _, _].
Qed.
Lemma generate_recommendations_gate (tm ud fa : str) (debug : bool)
    (self : RAGPipeline) :
  (Pipeline.initialized self = false →
     Pipeline.generate_recommendations tm ud fa debug self
     = (Ok (Pipeline.Failure (py "Pipeline not initialized")), self))
  ∧ (Pipeline.initialized self = true → validate_model tm = false →
       Pipeline.generate_recommendations tm ud fa debug self
       = (Ok (Pipeline.Failure (py "Unsupported turbulence model: " ++ tm)), self)).
Proof.
  destruct self as [rs init]. cbn [Pipeline.initialized].
  unfold Pipeline.generate_recommendations, Pipeline._create_error_response.
  split; [intros -> | intros -> Hmodel];
    unfold mbind at 1; unfold M_bind, get;
    cbn [Pipeline.initialized negb]; [| rewrite Hmodel]; reflexivity.
Qed.

(** X28: [generate_recommendations] leaves the pipeline as it was,
    however it ends.  Before initialization it answers with the fixed
    error and for a name outside the registry with the error naming it,
    without printing; only an initialized pipeline asked for a
    registered model can answer with recommendations, and only such a
    call can raise, and then what the [print] of the failure line
    raised.  When every [print] returns it never raises, and an
    exception of the retrieval becomes the error text of the
    response. *)
Theorem recommendations_are_gated (tm ud fa : str) (debug : bool)
    (self : RAGPipeline) :
  ∃ r,
    Pipeline.generate_recommendations tm ud fa debug self = (r, self)
    ∧ (Pipeline.initialized self = false →
         r = Ok (Pipeline.Failure (py "Pipeline not initialized")))
    ∧ (Pipeline.initialized self = true → get_model tm = None →
         r = Ok (Pipeline.Failure (py "Unsupported turbulence model: " ++ tm)))
    ∧ (∀ name recommendations info debug_info,
         r = Ok (Pipeline.Success name recommendations info debug_info) →
         Pipeline.initialized self = true ∧ is_Some (get_model tm))
    ∧ (∀ e, r = Raise e →
         Pipeline.initialized self = true ∧ is_Some (get_model tm)
         ∧ ∃ cause, print (Pipeline.generation_failed_line cause) = Raise e)
    ∧ ((∀ text, print text = Ok ()) →
         ∃ response,
           r = Ok response
           ∧ ∀ e, (get_context_for_generation tm ud fa 4000
                     (Pipeline.retrieval_system self)).1 = Raise e →
                  Pipeline.initialized self = true → is_Some (get_model tm) →
                  response = Pipeline.Failure (Pipeline.exception_text e)).
Proof.
  pose proof (validate_model_get_model tm) as Hvalid.
  destruct (generate_recommendations_gate tm ud fa debug self) as [Hcold Hunknown].
  destruct (Pipeline.initialized self) eqn:Hinit.
  - destruct (validate_model tm) eqn:Hmodel.
    + assert (is_Some (get_model tm)) as Hsome by now apply Hvalid.
      destruct (generate_recommendations_body tm ud fa debug self Hinit Hmodel)
        as (r & Hrun & Hraise & _ & Hquiet).
      exists r. split; [exact Hrun |]. split; [discriminate |].
      split; [intros _ Hnone; rewrite Hnone in Hsome; now destruct Hsome |].
      split; [now intros |].
      split; [intros e He; split; [reflexivity |]; split; [exact Hsome |];
              now apply Hraise |].
      intros Hall. specialize (Hquiet Hall).
      destruct (get_context_for_generation tm ud fa 4000
                  (Pipeline.retrieval_system self)) as [[bundle | e0] rs].
      * destruct Hquiet as (recs & info & dbg & ->).
        eexists. split; [reflexivity |]. discriminate.
      * subst r. eexists. split; [reflexivity |]. cbn. now intros e [= <-].
    + assert (get_model tm = None) as Hnone.
      { destruct (get_model tm) eqn:Hget; [| reflexivity].
        assert (false = true) by (apply Hvalid; now eexists). discriminate. }
      eexists. split; [now apply Hunknown |]. split; [discriminate |].
      split; [reflexivity |]. split; [discriminate |]. split; [discriminate |].
      intros _. eexists. split; [reflexivity |].
      intros e _ _ Hsome. rewrite Hnone in Hsome. now destruct Hsome.
  - eexists. split; [now apply Hcold |]. split; [reflexivity |].
    split; [discriminate |]. split; [discriminate |]. split; [discriminate |].
    intros _. eexists. split; [reflexivity |]. discriminate.
Qed.

(** X29: a successful response is built from exactly one context bundle,
    the one [get_context_for_generation] returns for the same request
    with a budget of 4000: the recommendations are generated from its
    text, the retrieval information counts and lists its sources, and
    the debug block is present exactly when asked for, holding the text
    length and the search query, which is at most 500 characters. *)
Theorem successful_response_reports_the_bundle (tm ud fa : str) (debug : bool)
    (self self' : RAGPipeline) (name : str) (recommendations : Recommendations)
    (info : Pipeline.RetrievalInfo) (debug_info : option Pipeline.DebugInfo) :
  Pipeline.generate_recommendations tm ud fa debug self
  = (Ok (Pipeline.Success name recommendations info debug_info), self') →
  name = tm
  ∧ ∃ bundle,
      get_context_for_generation tm ud fa 4000 (Pipeline.retrieval_system self)
      = (Ok bundle, Pipeline.retrieval_system self)
      ∧ recommendations
        = Pipeline.generate_parameters tm ud (context_text bundle) fa
      ∧ Pipeline.documents_used info = total_documents bundle
      ∧ Pipeline.info_sources info = sources bundle
      ∧ Pipeline.average_relevance info
        = Pipeline.average (relevance_scores bundle)
      ∧ (debug = false → debug_info = None)
      ∧ (debug = true →
           ∃ d, debug_info = Some d
                ∧ Pipeline.context_length d = len (context_text bundle)
                ∧ Pipeline.debug_relevance_scores d = relevance_scores bundle
                ∧ Pipeline.retrieval_query d = construct_search_query tm ud fa
                ∧ len (Pipeline.retrieval_query d) <= 500).
Proof.
  intros Hrun.
  pose proof (validate_model_get_model tm) as Hvalid.
  destruct (generate_recommendations_gate tm ud fa debug self) as [Hcold Hunknown].
  destruct (Pipeline.initialized self) eqn:Hinit;
    [| rewrite (Hcold eq_refl) in Hrun; discriminate].
  destruct (validate_model tm) eqn:Hmodel;
    [| rewrite (Hunknown eq_refl eq_refl) in Hrun; discriminate].
  assert (is_Some (get_model tm)) as Hsome by now apply Hvalid.
  destruct (generate_recommendations_body tm ud fa debug self Hinit Hmodel)
    as (r & Hbody & _ & Hsuccess & _).
  rewrite Hbody in Hrun. injection Hrun as -> _.
  destruct (Hsuccess _ _ _ _ eq_refl) as (bundle & Hbundle & Hshape).
  injection Hshape as -> -> -> ->.
  split; [reflexivity |]. exists bundle. split; [exact Hbundle |].
  repeat split.
  - now intros ->.
  - intros ->. eexists. split; [reflexivity |]. cbn. repeat split.
    now apply construct_search_query_known_bounded.
Qed.

End PipelineFacts.

(** Over a console that takes every line, a new pipeline is initialized
    against an index that exists. *)
Lemma pipeline_initialize_outcome_witness :
  ∃ self',
    @Pipeline.initialize unit unit nat str (answering []) quiet_console
      echo_generation new_pipeline = (Ok true, self')
    ∧ Pipeline.initialized self' = true
    ∧ connected (Pipeline.retrieval_system self') = true.
Proof.
  destruct (@pipeline_initialize_outcome unit unit nat str (answering [])
              quiet_console echo_generation new_pipeline)
    as (r & self' & Hrun & Htrue & _).
  assert (r = Ok true) as -> by (vm_compute in Hrun; congruence).
  exists self'. split; [exact Hrun |].
  destruct (Htrue eq_refl) as (Hinitialized & Hconnected & _).
  split; assumption.
Defined.

(** Over a console that cannot encode the emoji, a request to an
    initialized pipeline for a registered model raises: the first line
    fails, and so does the failure line of the handler. *)
Lemma recommendations_are_gated_witness :
  @Pipeline.generate_recommendations unit unit nat str ascii_unicode
    (answering ranked_matches) milli_format latin1_console echo_generation
    (py "k_epsilon") (py "pipe flow") [] false ready_pipeline
  = (Raise OutputError, ready_pipeline)
  ∧ ∃ cause,
      latin1_console (@Pipeline.generation_failed_line nat str echo_generation cause)
      = Raise OutputError.
Proof.
  destruct (@recommendations_are_gated unit unit nat str ascii_unicode
              (answering ranked_matches) milli_format latin1_console echo_generation
              (py "k_epsilon") (py "pipe flow") [] false ready_pipeline)
    as (r & Hrun & _ & _ & _ & Hraise & _).
  assert (r = Raise OutputError) as ->
    by (vm_compute in Hrun; now injection Hrun as <-).
  split; [exact Hrun |].
  destruct (Hraise _ eq_refl) as (_ & _ & cause & Hcause).
  exists cause. exact Hcause.
Defined.

Lemma successful_response_reports_the_bundle_witness :
  ∃ recommendations info debug_info,
    @Pipeline.generate_recommendations unit unit nat str ascii_unicode
      (answering ranked_matches) milli_format quiet_console echo_generation
      (py "k_epsilon") (py "pipe flow") [] true ready_pipeline
    = (Ok (Pipeline.Success (py "k_epsilon") recommendations info debug_info),
       ready_pipeline)
    ∧ ∃ bundle,
        @get_context_for_generation unit unit nat ascii_unicode
          (answering ranked_matches) milli_format
          (py "k_epsilon") (py "pipe flow") [] 4000 connected_system
        = (Ok bundle, connected_system)
        ∧ recommendations = context_text bundle
        ∧ Pipeline.documents_used info = total_documents bundle
        ∧ ∃ d, debug_info = Some d ∧ len (Pipeline.retrieval_query d) <= 500.
Proof.
  eexists _, _, _. split; [vm_compute; reflexivity |].
  edestruct (@successful_response_reports_the_bundle unit unit nat str ascii_unicode
               (answering ranked_matches) milli_format quiet_console echo_generation
               (py "k_epsilon") (py "pipe flow") [] true ready_pipeline ready_pipeline)
    as (_ & bundle & Hbundle & Hrecommendations & Hused & _ & _ & _ & Hdebug);
    [vm_compute; reflexivity |].
  exists bundle. split; [exact Hbundle |]. split; [exact Hrecommendations |].
  split; [exact Hused |].
  destruct (Hdebug eq_refl) as (d & Hd & _ & _ & _ & Hlen).
  exists d. split; [exact Hd | exact Hlen].
Defined.

